(** * Bot-Interbanking: a shallow embedding of [extractos.py]

    The script authenticates against the provider, downloads the statement
    of every account for the previous business day, reshapes the records
    with pandas and writes one spreadsheet per account.  This development
    embeds the functions that carry the logic:

    - [ultimo_dia_habil]   (section 6 of the script),
    - [obtener_token] and [descargar_extractos]  (sections 3 and 4),
    - [estandarizar]       (section 5),
    - [main]               (section 7), as far as its network calls go,

    together with the parts of [datetime], [requests] and [pandas] they
    call.  Library calls are embedded at the level of their data: a date is
    its proleptic Gregorian ordinal, a [DataFrame] is a list of column
    labels with a list of indexed rows, an HTTP exchange is a request
    answered by the remote side and recorded in a log.  Two library
    functions are left as parameters of the normalizer, with what is known
    of them stated where it is used: [pd.to_datetime] and the [argsort]
    behind [sort_values]. *)

From Stdlib Require Import String Ascii ZArith List Bool Lia Permutation Sorted.
Import ListNotations.
Set Warnings "-register-all".
Open Scope string_scope.
Open Scope Z_scope.

(** ** Exceptions and fallible results *)

Inductive exn : Type :=
| ValueError
| TypeError
| KeyError
| HTTPError
| JSONDecodeError
| ConnectionError
| DateParseError
| NotImplementedError.

Inductive result (A : Type) : Type :=
| Ok (a : A)
| Raise (e : exn).
Arguments Ok {A} a.
Arguments Raise {A} e.

Definition bind {A B : Type} (r : result A) (k : A -> result B) : result B :=
  match r with
  | Ok a => k a
  | Raise e => Raise e
  end.

Notation "x <- r ;; k" := (bind r (fun x => k))
  (at level 61, r at next level, right associativity).

Definition returns {A : Type} (r : result A) : Prop := exists a, r = Ok a.
Definition raises {A : Type} (r : result A) : Prop := exists e, r = Raise e.

(** ** Python strings *)

(** [str.lower] on the bytes of the name: the upper-case ASCII letters are
    shifted, every other byte is kept. *)
Definition lower_ascii (c : ascii) : ascii :=
  let n := nat_of_ascii c in
  if (Nat.leb 65 n && Nat.leb n 90)%bool then ascii_of_nat (n + 32) else c.

Fixpoint lower (s : string) : string :=
  match s with
  | EmptyString => EmptyString
  | String c s' => String (lower_ascii c) (lower s')
  end.

Fixpoint startswith (p s : string) : bool :=
  match p, s with
  | EmptyString, _ => true
  | String a p', String b s' => (Ascii.eqb a b && startswith p' s')%bool
  | String _ _, EmptyString => false
  end.

(** [sub in s] *)
Fixpoint str_in (sub s : string) : bool :=
  (startswith sub s ||
   match s with
   | EmptyString => false
   | String _ s' => str_in sub s'
   end)%bool.

Fixpoint drop_chars (p s : string) : string :=
  match p, s with
  | String _ p', String _ s' => drop_chars p' s'
  | _, _ => s
  end.

(** [s.removeprefix(p)] *)
Definition removeprefix (p s : string) : string :=
  if startswith p s then drop_chars p s else s.

Fixpoint zeros (n : nat) : string :=
  match n with
  | O => EmptyString
  | S n' => String "0" (zeros n')
  end.

(** A Python string is held by the bytes of its UTF-8 form: every byte
    but a continuation byte (10xxxxxx) starts a character. *)
Definition is_continuation (c : ascii) : bool :=
  let n := nat_of_ascii c in
  (Nat.leb 128 n && Nat.ltb n 192)%bool.

(** [len(s)]: the number of characters. *)
Fixpoint len (s : string) : nat :=
  match s with
  | EmptyString => O
  | String c s' => if is_continuation c then len s' else S (len s')
  end.

(** [s.zfill(width)]: left padding with zeros up to [width] characters,
    after a leading sign. *)
Definition zfill (s : string) (width : nat) : string :=
  let fill := (width - len s)%nat in
  match s with
  | String c rest =>
      if (Ascii.eqb c "+" || Ascii.eqb c "-")%bool
      then String c (zeros fill ++ rest)
      else zeros fill ++ s
  | EmptyString => zeros fill
  end.

Definition in_list (c : string) (l : list string) : bool :=
  existsb (String.eqb c) l.

(** ** Dates and business days *)

Module Calendar.

(** A [datetime.date] is represented by [date.toordinal()], the day
    number in the proleptic Gregorian calendar (0001-01-01 is day 1). *)
Definition date := Z.

Definition _is_leap (year : Z) : bool :=
  ((year mod 4 =? 0) && (negb (year mod 100 =? 0) || (year mod 400 =? 0)))%bool.

Definition _days_before_year (year : Z) : Z :=
  let y := year - 1 in
  y * 365 + y / 4 - y / 100 + y / 400.

Definition _DAYS_IN_MONTH : list Z :=
  [31; 28; 31; 30; 31; 30; 31; 31; 30; 31; 30; 31].

Definition _days_in_month (year month : Z) : Z :=
  if ((month =? 2) && _is_leap year)%bool then 29
  else nth (Z.to_nat (month - 1)) _DAYS_IN_MONTH 0.

Definition _days_before_month (year month : Z) : Z :=
  fold_right Z.add 0 (firstn (Z.to_nat (month - 1)) _DAYS_IN_MONTH)
  + (if ((2 <? month) && _is_leap year)%bool then 1 else 0).

Definition _ymd2ord (year month day : Z) : date :=
  _days_before_year year + _days_before_month year month + day.

(** [date.weekday()]: Monday is 0, Sunday is 6. *)
Definition weekday (d : date) : Z := (d + 6) mod 7.

(** [pandas.tseries.offsets.BusinessDay]: the day shift for an offset of
    [n] business days applied on week day [wday], once whole weeks have
    been taken out. *)
Definition _adjust_ndays (self_n wday weeks : Z) : Z :=
  let n := self_n in
  let n := if ((n <=? 0) && (4 <? wday))%bool then n + 1 else n in
  let n := n - 5 * weeks in
  if ((n =? 0) && (4 <? wday))%bool then 4 - wday
  else if 4 <? wday then (7 - wday) + (n - 1)
  else if wday + n <=? 4 then n
  else n + 2.

(** [other + BDay(n)] on a timestamp at midnight. *)
Definition BDay_apply (n : Z) (other : date) : date :=
  let wday := weekday other in
  let weeks := n / 5 in
  let days := _adjust_ndays n wday weeks in
  other + (7 * weeks + days).

(** [date.max.toordinal()] *)
Definition _MAXORDINAL : Z := 3652059.

(** The ordinals of the dates, from [date.min] to [date.max]. *)
Definition is_date (d : Z) : bool := ((1 <=? d) && (d <=? _MAXORDINAL))%bool.

(** [Timestamp.date()]: a timestamp may lie outside the years 1 to 9999
    of [datetime.date], and then has no date. *)
Definition Timestamp_date (t : Z) : result date :=
  if is_date t then Ok t else Raise NotImplementedError.

(** [(pd.Timestamp(hoy) - BDay(1)).date()] for a date [hoy];
    subtracting an offset adds its negation. *)
Definition ultimo_dia_habil (hoy : date) : result date :=
  Timestamp_date (BDay_apply (- (1)) hoy).

Definition is_business_day (d : date) : bool := weekday d <=? 4.

End Calendar.

(** ** JSON values and Python dictionaries *)

(** A Python [float] other than NaN: the binary64 number [m * 2^e], or an
    infinity.  One number has several such writings and the two zeros are
    not told apart; what is computed from a float depends on the number
    only. *)
Inductive float64 : Type :=
| Finite (m e : Z)
| Infinite (negative : bool).

(** [float(n)] for an integer: the nearest number with 53 bits of
    mantissa, a tie going to the even one. *)
Definition float_of_int (n : Z) : float64 :=
  let a := Z.abs n in
  let k := Z.log2 a - 52 in
  if k <=? 0 then Finite n 0
  else
    let q := Z.shiftr a k in
    let r := a - Z.shiftl q k in
    let half := Z.shiftl 1 (k - 1) in
    let q := if ((half <? r) || ((r =? half) && Z.odd q))%bool
             then q + 1 else q in
    Finite (Z.sgn n * q) k.

(** What [resp.json()] yields and what a cell of a frame holds.  [VNull]
    stands for every missing value ([None], [NaN], [NaT]: whatever
    [pandas.isna] accepts); [VNum] is a Python [int] and [VFloat] a
    [float]; [VTime] is a [pandas.Timestamp], in nanoseconds since the
    epoch. *)
Inductive value : Type :=
| VNull
| VBool (b : bool)
| VNum (n : Z)
| VFloat (f : float64)
| VStr (s : string)
| VTime (t : Z)
| VList (l : list value)
| VDict (items : list (string * value)).

(** A [dict] with string keys, in insertion order. *)
Definition dict := list (string * value).

Definition is_dict (v : value) : bool :=
  match v with
  | VDict _ => true
  | _ => false
  end.

Fixpoint dict_get (k : string) (d : dict) : option value :=
  match d with
  | [] => None
  | (k', v) :: rest => if String.eqb k k' then Some v else dict_get k rest
  end.

(** [d[k] = v]: an existing key keeps its place, a new one goes last. *)
Fixpoint dict_set (d : dict) (k : string) (v : value) : dict :=
  match d with
  | [] => [(k, v)]
  | (k', v') :: rest =>
      if String.eqb k k' then (k', v) :: rest else (k', v') :: dict_set rest k v
  end.

(** [{**d, **items}] *)
Definition dict_update (d : dict) (items : list (string * value)) : dict :=
  fold_left (fun acc kv => dict_set acc (fst kv) (snd kv)) items d.

(** [{k: v for k, v in items}] *)
Definition dict_of_items (items : list (string * value)) : dict :=
  dict_update [] items.

Definition keys (d : dict) : list string := map fst d.

(** ** The two network calls *)

Module Http.

Record Config : Type := mkConfig {
  CLIENT_ID : string;
  CLIENT_SECRET : string;
  SERVICE_URL : string;
  CUSTOMER_ID : string
}.

Definition TOKEN_URL : string :=
  "https://auth.interbanking.com.ar/cas/oidc/accessToken".

(** [STMT_URL.format(account_number=...)] *)
Definition STMT_URL (account_number : string) : string :=
  "https://api-gw.interbanking.com.ar/api/prod/v1/accounts/"
    ++ account_number ++ "/statements".

Inductive Method : Type := GET | POST.

Record Request : Type := mkRequest {
  method : Method;
  url : string;
  params : list (string * string);
  headers : list (string * string);
  data : list (string * string)
}.

(** A response: its status and its body once decoded; [None] is a body
    that is not JSON, on which [resp.json()] raises. *)
Record Response : Type := mkResponse {
  status_code : Z;
  json_body : option value
}.

(** The remote side: what it answers to a request, given the requests
    it has already received.  An exception is a failed connection. *)
Definition Network := list Request -> Request -> result Response.

(** A computation that talks to the network: it reads the log of the
    requests sent so far and extends it. *)
Definition IO (A : Type) := list Request -> result A * list Request.

Definition io_ret {A : Type} (r : result A) : IO A := fun log => (r, log).

Definition io_bind {A B : Type} (m : IO A) (k : A -> IO B) : IO B :=
  fun log =>
    match m log with
    | (Ok a, log') => k a log'
    | (Raise e, log') => (Raise e, log')
    end.

(** [requests.post] and [requests.get]: one request on the wire. *)
Definition requests_send (net : Network) (req : Request) : IO Response :=
  fun log => (net log req, (log ++ [req])%list).

(** [Response.raise_for_status] *)
Definition raise_for_status (resp : Response) : result unit :=
  let s := status_code resp in
  if ((400 <=? s) && (s <? 500))%bool then Raise HTTPError
  else if ((500 <=? s) && (s <? 600))%bool then Raise HTTPError
  else Ok tt.

(** [Response.json] *)
Definition json (resp : Response) : result value :=
  match json_body resp with
  | Some v => Ok v
  | None => Raise JSONDecodeError
  end.

(** [v[k]] for a string [k] *)
Definition getitem (v : value) (k : string) : result value :=
  match v with
  | VDict items =>
      match dict_get k items with
      | Some x => Ok x
      | None => Raise KeyError
      end
  | _ => Raise TypeError
  end.

Definition token_request (cfg : Config) : Request :=
  {| method := POST;
     url := TOKEN_URL;
     params := [("scope", "info-financiera");
                ("client_id", CLIENT_ID cfg);
                ("client_secret", CLIENT_SECRET cfg)];
     headers := [("service", SERVICE_URL cfg)];
     data := [("grant_type", "client_credentials")] |}.

Definition obtener_token (cfg : Config) (net : Network) : IO value :=
  io_bind (requests_send net (token_request cfg)) (fun resp =>
  io_ret (_ <- raise_for_status resp ;;
          body <- json resp ;;
          getitem body "access_token")).

Definition statement_request (cfg : Config)
    (token account_number bank_number fecha : string) : Request :=
  {| method := GET;
     url := STMT_URL account_number;
     params := [("account-type", "CC");
                ("bank-number", zfill bank_number 3);
                ("currency", "ARS");
                ("customer-id", CUSTOMER_ID cfg);
                ("date-since", fecha);
                ("date-until", fecha)];
     headers := [("Authorization", "Bearer " ++ token);
                 ("client_id", CLIENT_ID cfg)];
     data := [] |}.

Definition descargar_extractos (cfg : Config) (net : Network)
    (token account_number bank_number fecha : string) : IO value :=
  io_bind
    (requests_send net
       (statement_request cfg token account_number bank_number fecha))
    (fun resp =>
  io_ret (_ <- raise_for_status resp ;;
          data <- json resp ;;
          Ok (match data with
              | VDict items =>
                  match dict_get "statements" items with
                  | Some v => v
                  | None => VList []
                  end
              | _ => data
              end))).

(** The statuses on which [raise_for_status] raises. *)
Definition error_status (s : Z) : Prop := 400 <= s < 600.

(** A row of [bancos.xlsx]. *)
Record Account : Type := mkAccount {
  bank_number : string;
  account_number : string;
  Entidad : option string
}.

(** [b.get("Entidad", b.bank_number)] *)
Definition entidad (b : Account) : string :=
  match Entidad b with
  | Some e => e
  | None => bank_number b
  end.

Section Run.

Variable cfg : Config.
Variable net : Network.

(** What the loop does with the statements of one account once they
    are downloaded: normalizing, then writing the spreadsheet or
    noting the account as without movements.  It may raise. *)
Variable exportar : string -> value -> result unit.

(** [str(token)], as the f-string of the [Authorization] header takes
    it. *)
Variable str : value -> string.

(** The loop of [main] over the accounts, in the order of the sheet. *)
Fixpoint procesar (token fecha : string) (bancos : list Account)
  : IO unit :=
  match bancos with
  | [] => io_ret (Ok tt)
  | b :: rest =>
      io_bind
        (descargar_extractos cfg net token (account_number b)
           (bank_number b) fecha)
        (fun movs =>
      io_bind (io_ret (exportar (entidad b) movs)) (fun _ =>
      procesar token fecha rest))
  end.

(** [main], as far as the network is concerned: one token, then the
    accounts one after the other; [fecha] is the ISO form of the last
    business day. *)
Definition main (fecha : string) (bancos : list Account) : IO unit :=
  io_bind (obtener_token cfg net) (fun token =>
  procesar (str token) fecha bancos).

End Run.

End Http.

(** ** pandas: frames *)

(** A [DataFrame]: the column labels and the rows, each row with its index
    label and one cell per column. *)
Record DataFrame : Type := mkDataFrame {
  columns : list string;
  rows : list (nat * list value)
}.

Definition index (df : DataFrame) : list nat := map fst (rows df).
Definition values (df : DataFrame) : list (list value) := map snd (rows df).

(** [pd.DataFrame()] *)
Definition DataFrame_empty : DataFrame := mkDataFrame [] [].

(** [df.empty]: some axis has length zero. *)
Definition empty (df : DataFrame) : bool :=
  match columns df, rows df with
  | [], _ => true
  | _, [] => true
  | _, _ => false
  end.

(** *** [pd.json_normalize] *)

(** [_normalise_json]: the leaves of a nested dictionary, each under the
    dotted path of its keys, written into [normalized_dict]. *)
Fixpoint _normalise_json (data : value) (key_string : string)
    (normalized_dict : dict) {struct data} : dict :=
  match data with
  | VDict items =>
      (fix loop (items : list (string * value)) (acc : dict) {struct items}
         : dict :=
         match items with
         | [] => acc
         | (key, v) :: rest =>
             let new_key := key_string ++ "." ++ key in
             let new_key :=
               if String.eqb key_string "" then removeprefix "." new_key
               else new_key in
             loop rest (_normalise_json v new_key acc)
         end) items normalized_dict
  | _ => dict_set normalized_dict key_string data
  end.

(** [_normalise_json_ordered]: the top-level fields first, the flattened
    nested ones after them. *)
Definition _normalise_json_ordered (data : dict) : dict :=
  let top_dict_ :=
    dict_of_items (filter (fun kv => negb (is_dict (snd kv))) data) in
  let nested_dict_ :=
    _normalise_json
      (VDict (dict_of_items (filter (fun kv => is_dict (snd kv)) data)))
      "" [] in
  dict_update top_dict_ nested_dict_.

Definition _simple_json_normalize (ds : list dict) : list dict :=
  map _normalise_json_ordered ds.

(** The labels of a list, each kept at its first occurrence. *)
Fixpoint unique_from (seen l : list string) : list string :=
  match l with
  | [] => []
  | x :: rest =>
      if in_list x seen then unique_from seen rest
      else x :: unique_from (x :: seen) rest
  end.

(** The column labels of [DataFrame(list_of_dicts)]: every key, in the
    order of its first appearance. *)
Definition fast_unique_multiple_list_gen (gen : list (list string))
  : list string :=
  unique_from [] (concat gen).

Definition cell_of (r : dict) (c : string) : value :=
  match dict_get c r with
  | Some v => v
  | None => VNull
  end.

Definition INT64_MIN : Z := - 2 ^ 63.
Definition INT64_MAX : Z := 2 ^ 63 - 1.
Definition UINT64_MAX : Z := 2 ^ 64 - 1.

Definition is_null (v : value) : bool :=
  match v with
  | VNull => true
  | _ => false
  end.

Definition is_float (v : value) : bool :=
  match v with
  | VFloat _ => true
  | _ => false
  end.

Definition is_number_or_null (v : value) : bool :=
  match v with
  | VNull => true
  | VNum _ => true
  | VFloat _ => true
  | _ => false
  end.

(** An integer that fits [int64] or [uint64]. *)
Definition int_fits (v : value) : bool :=
  match v with
  | VNum n => ((INT64_MIN <=? n) && (n <=? UINT64_MAX))%bool
  | _ => true
  end.

Definition is_uint (v : value) : bool :=
  match v with
  | VNum n => INT64_MAX <? n
  | _ => false
  end.

Definition is_sint (v : value) : bool :=
  match v with
  | VNum n => n <? 0
  | _ => false
  end.

(** The columns that [maybe_convert_objects] turns into [float64]: those
    of numbers and missing values only, with a [float] or a missing value
    among them, whose integers fit one 64-bit type. *)
Definition float64_column (objects : list value) : bool :=
  (forallb is_number_or_null objects
   && (existsb is_float objects || existsb is_null objects)
   && forallb int_fits objects
   && negb (existsb is_uint objects && existsb is_sint objects))%bool.

Definition astype_float (v : value) : value :=
  match v with
  | VNum n => VFloat (float_of_int n)
  | _ => v
  end.

(** [lib.maybe_convert_objects] on a column of cells: in a [float64]
    column the integers become floats; the cells of any other column
    ([int64], [uint64], [bool], [datetime64], [object]) are kept. *)
Definition maybe_convert_objects (objects : list value) : list value :=
  if float64_column objects then map astype_float objects else objects.

(** [DataFrame(list_of_dicts)]: a default integer index, a missing value
    wherever a record has no such key, and each column stored under the
    type inferred from its cells. *)
Definition DataFrame_of_records (data : list dict) : DataFrame :=
  let cols := fast_unique_multiple_list_gen (map keys data) in
  let arrays :=
    map (fun c => maybe_convert_objects (map (fun r => cell_of r c) data))
      cols in
  mkDataFrame cols
    (combine (seq 0 (length data))
             (map (fun i => map (fun a => nth i a VNull) arrays)
                (seq 0 (length data)))).

Definition json_normalize (data : list dict) : DataFrame :=
  DataFrame_of_records (_simple_json_normalize data).

(** *** Column labels *)

Fixpoint lookup_label (c : string) (m : list (string * string))
  : option string :=
  match m with
  | [] => None
  | (k, v) :: rest => if String.eqb c k then Some v else lookup_label c rest
  end.

Definition rename_label (m : list (string * string)) (c : string) : string :=
  match lookup_label c m with
  | Some v => v
  | None => c
  end.

(** [df.rename(columns=m)] *)
Definition rename (m : list (string * string)) (df : DataFrame) : DataFrame :=
  mkDataFrame (map (rename_label m) (columns df)) (rows df).

(** [c in df.columns] *)
Definition has_column (c : string) (df : DataFrame) : bool :=
  in_list c (columns df).

Fixpoint position (c : string) (cols : list string) : nat :=
  match cols with
  | [] => O
  | c' :: rest => if String.eqb c c' then O else S (position c rest)
  end.

Definition column_values (c : string) (df : DataFrame) : list value :=
  map (fun r => nth (position c (columns df)) (snd r) VNull) (rows df).

(** [df[c]] where a [Series] is wanted: with a repeated label the result
    is a frame, which [pd.to_datetime] refuses. *)
Definition getitem_series (c : string) (df : DataFrame)
  : result (list value) :=
  if Nat.eqb (count_occ string_dec (columns df) c) 1
  then Ok (column_values c df)
  else Raise ValueError.

Fixpoint set_nth (n : nat) (cells : list value) (v : value) : list value :=
  match n, cells with
  | _, [] => []
  | O, _ :: rest => v :: rest
  | S n', x :: rest => x :: set_nth n' rest v
  end.

Fixpoint assign_cells (pos : nat) (rs : list (nat * list value))
    (vals : list value) : list (nat * list value) :=
  match rs with
  | [] => []
  | (i, cells) :: rest =>
      (i, set_nth pos cells (hd VNull vals)) :: assign_cells pos rest (tl vals)
  end.

(** [df[c] = series] for an existing column, the series carrying the
    index of the frame. *)
Definition setitem (c : string) (series : list value) (df : DataFrame)
  : DataFrame :=
  mkDataFrame (columns df)
    (assign_cells (position c (columns df)) (rows df) series).

(** *** Sorting *)

Definition time_cell (t : option Z) : value :=
  match t with
  | Some t => VTime t
  | None => VNull
  end.

Definition time_key (v : value) : option Z :=
  match v with
  | VTime t => Some t
  | _ => None
  end.

Definition is_some {A : Type} (o : option A) : bool :=
  match o with
  | Some _ => true
  | None => false
  end.

(** [a.take(indexer)] *)
Definition take {A : Type} (l : list A) (indexer : list nat) : list A :=
  flat_map (fun i => match nth_error l i with
                     | Some x => [x]
                     | None => []
                     end) indexer.

Fixpoint somes {A : Type} (l : list (option A)) : list A :=
  match l with
  | [] => []
  | Some x :: rest => x :: somes rest
  | None :: rest => somes rest
  end.

(** *** Duplicates *)

(** What [factorize] compares: the hashable scalars, a Boolean or a float
    counting as the integer it equals and all missing values as one.
    [LFrac m e] is the number [m * 2^e] for an odd [m] and a negative
    [e]. *)
Inductive label : Type :=
| LNull
| LNum (n : Z)
| LFrac (m e : Z)
| LInf (negative : bool)
| LStr (s : string)
| LTime (t : Z).

Definition label_eqb (a b : label) : bool :=
  match a, b with
  | LNull, LNull => true
  | LNum x, LNum y => x =? y
  | LFrac m e, LFrac m' e' => ((m =? m') && (e =? e'))%bool
  | LInf x, LInf y => Bool.eqb x y
  | LStr x, LStr y => String.eqb x y
  | LTime x, LTime y => x =? y
  | _, _ => false
  end.

(** [m * 2^e] with the factors of two taken out of [m] while [e] is
    negative. *)
Fixpoint reduce (fuel : nat) (m e : Z) : Z * Z :=
  match fuel with
  | O => (m, e)
  | S fuel' =>
      if ((e <? 0) && Z.even m)%bool then reduce fuel' (m / 2) (e + 1)
      else (m, e)
  end.

Definition float_label (f : float64) : label :=
  match f with
  | Infinite negative => LInf negative
  | Finite m e =>
      if m =? 0 then LNum 0
      else if 0 <=? e then LNum (Z.shiftl m e)
      else
        let '(m', e') := reduce (Z.to_nat (- e)) m e in
        if e' =? 0 then LNum m' else LFrac m' e'
  end.

(** Lists and dictionaries are not hashable. *)
Definition factorize_value (v : value) : result label :=
  match v with
  | VNull => Ok LNull
  | VBool b => Ok (LNum (if b then 1 else 0))
  | VNum n => Ok (LNum n)
  | VFloat f => Ok (float_label f)
  | VStr s => Ok (LStr s)
  | VTime t => Ok (LTime t)
  | VList _ => Raise TypeError
  | VDict _ => Raise TypeError
  end.

Fixpoint mapM {A B : Type} (f : A -> result B) (l : list A)
  : result (list B) :=
  match l with
  | [] => Ok []
  | x :: rest => y <- f x ;; ys <- mapM f rest ;; Ok (y :: ys)
  end.

Fixpoint labels_eqb (a b : list label) : bool :=
  match a, b with
  | [], [] => true
  | x :: a', y :: b' => (label_eqb x y && labels_eqb a' b')%bool
  | _, _ => false
  end.

(** The cells of a row that sit under a label of [subset]. *)
Fixpoint subset_cells (subset cols : list string) (cells : list value)
  : list value :=
  match cols, cells with
  | c :: cs, v :: vs =>
      if in_list c subset then v :: subset_cells subset cs vs
      else subset_cells subset cs vs
  | _, _ => []
  end.

(** The labels of the [subset] cells of one row. *)
Definition row_labels (subset cols : list string) (cells : list value)
  : result (list label) :=
  mapM factorize_value (subset_cells subset cols cells).

(** [get_group_index]: for each row, the labels of its [subset] cells. *)
Definition group_index (subset : list string) (df : DataFrame)
  : result (list (list label)) :=
  mapM (row_labels subset (columns df)) (values df).

(** [duplicated(ids, keep="first")]: a row is marked when an earlier one
    has the same group. *)
Fixpoint duplicated_from (seen ids : list (list label)) : list bool :=
  match ids with
  | [] => []
  | k :: rest =>
      if existsb (labels_eqb k) seen then true :: duplicated_from seen rest
      else false :: duplicated_from (k :: seen) rest
  end.

(** [df.duplicated(subset)]: unpacking the factorized columns fails when
    [subset] selects none. *)
Definition duplicated (subset : list string) (df : DataFrame)
  : result (list bool) :=
  if empty df then Ok []
  else match subset with
       | [] => Raise ValueError
       | _ => ids <- group_index subset df ;; Ok (duplicated_from [] ids)
       end.

(** [df[mask]] *)
Definition select {A : Type} (l : list A) (mask : list bool) : list A :=
  map fst (filter snd (combine l mask)).

(** [df.drop_duplicates(subset=subset)] *)
Definition drop_duplicates (subset : list string) (df : DataFrame)
  : result DataFrame :=
  if empty df then Ok df
  else
    mask <- duplicated subset df ;;
    Ok (mkDataFrame (columns df) (select (rows df) (map negb mask))).

(** [df.reset_index(drop=True)] *)
Definition reset_index (df : DataFrame) : DataFrame :=
  mkDataFrame (columns df)
    (combine (seq 0 (length (rows df))) (values df)).

(** ** The normalizer *)

Definition mapping : list (string * string) :=
  [("description", "Concepto");
   ("debitAmount", "Debito");
   ("creditAmount", "Credito");
   ("balance", "Saldo");
   ("bankId", "Banco")].

Definition KEY_COLUMNS : list string :=
  ["Fecha"; "Concepto"; "Debito"; "Credito"; "Saldo"].

(** ["date" in c.lower()] *)
Definition is_date_label (c : string) : bool := str_in "date" (lower c).

(** The positions of a column whose cell satisfies [p]. *)
Definition positions_where (p : option Z -> bool) (items : list (option Z))
  : list nat :=
  filter (fun i => p (nth i items None)) (seq 0 (length items)).

Section Normalizer.

(** [pd.to_datetime] on a column: the parsed instants ([None] is [NaT]),
    or a failure when some value cannot be read as a date. *)
Variable to_datetime : list value -> option (list (option Z)).

(** [ndarray.argsort(kind="quicksort")]: some permutation that puts the
    array in order; which one, among equal elements, is not fixed. *)
Variable argsort : list Z -> list nat.

(** [nargsort(items, na_position="last")] *)
Definition nargsort (items : list (option Z)) : list nat :=
  let non_nan_idx := positions_where is_some items in
  let nan_idx := positions_where (fun o => negb (is_some o)) items in
  let non_nans := somes items in
  (take non_nan_idx (argsort non_nans) ++ nan_idx)%list.

(** [df.sort_values(by)] on a column of timestamps *)
Definition sort_values (by_ : string) (df : DataFrame) : DataFrame :=
  let k := map time_key (column_values by_ df) in
  mkDataFrame (columns df) (take (rows df) (nargsort k)).

Definition estandarizar (movs : list dict) : result DataFrame :=
  match movs with
  | [] => Ok DataFrame_empty
  | _ =>
      let df := json_normalize movs in
      let date_cols := filter is_date_label (columns df) in
      let df :=
        match date_cols with
        | c :: _ => rename [(c, "Fecha")] df
        | [] => df
        end in
      let df :=
        rename (filter (fun kv => has_column (fst kv) df) mapping) df in
      df <- (if has_column "Fecha" df then
               col <- getitem_series "Fecha" df ;;
               match to_datetime col with
               | Some ts =>
                   Ok (sort_values "Fecha"
                         (setitem "Fecha" (map time_cell ts) df))
               | None => Raise DateParseError
               end
             else Ok df) ;;
      let key_cols := filter (fun c => has_column c df) KEY_COLUMNS in
      df <- drop_duplicates key_cols df ;;
      Ok (reset_index df)
  end.

(** The stages of [estandarizar], named for the statements: typing and
    sorting of the date column (lines 80 to 82). *)
Definition parse_and_sort (df : DataFrame) : result DataFrame :=
  if has_column "Fecha" df then
    col <- getitem_series "Fecha" df ;;
    match to_datetime col with
    | Some ts =>
        Ok (sort_values "Fecha" (setitem "Fecha" (map time_cell ts) df))
    | None => Raise DateParseError
    end
  else Ok df.

End Normalizer.

(** The earlier stages: the date-like labels, flattening with the two
    renamings (lines 68 to 79), and the columns compared by
    [drop_duplicates] (line 83). *)
Definition date_cols (df : DataFrame) : list string :=
  filter is_date_label (columns df).

Definition rename_date (df : DataFrame) : DataFrame :=
  match date_cols df with
  | c :: _ => rename [(c, "Fecha")] df
  | [] => df
  end.

Definition rename_mapping (df : DataFrame) : DataFrame :=
  rename (filter (fun kv => has_column (fst kv) df) mapping) df.

Definition renamed (movs : list dict) : DataFrame :=
  rename_mapping (rename_date (json_normalize movs)).

Definition key_cols (df : DataFrame) : list string :=
  filter (fun c => has_column c df) KEY_COLUMNS.

(** ** Instances of the two library functions *)

(** An insertion sort on (key, position) pairs: a stable [argsort]. *)
Fixpoint insert_key (x : Z * nat) (l : list (Z * nat)) : list (Z * nat) :=
  match l with
  | [] => [x]
  | y :: rest =>
      if fst x <=? fst y then x :: y :: rest else y :: insert_key x rest
  end.

Definition argsort_stable (a : list Z) : list nat :=
  map snd (fold_right insert_key [] (combine a (seq 0 (length a)))).

Definition digit (c : ascii) : option Z :=
  let n := Z.of_nat (nat_of_ascii c) in
  if ((48 <=? n) && (n <=? 57))%bool then Some (n - 48) else None.

Fixpoint number (s : string) (acc : Z) : option Z :=
  match s with
  | EmptyString => Some acc
  | String c rest =>
      match digit c with
      | Some d => number rest (10 * acc + d)
      | None => None
      end
  end.

Definition NANOS_PER_DAY : Z := 86400 * 1000000000.

(** The instant of an ISO calendar date [YYYY-MM-DD], in nanoseconds since
    1970-01-01. *)
Definition parse_iso_date (s : string) : option Z :=
  if (Nat.eqb (String.length s) 10
      && String.eqb (substring 4 1 s) "-"
      && String.eqb (substring 7 1 s) "-")%bool
  then
    match number (substring 0 4 s) 0, number (substring 5 2 s) 0,
          number (substring 8 2 s) 0 with
    | Some y, Some m, Some d =>
        if ((1 <=? y) && (1 <=? m) && (m <=? 12) && (1 <=? d)
            && (d <=? Calendar._days_in_month y m))%bool
        then Some ((Calendar._ymd2ord y m d - Calendar._ymd2ord 1970 1 1)
                   * NANOS_PER_DAY)
        else None
    | _, _, _ => None
    end
  else None.

Definition to_datetime_value (v : value) : option (option Z) :=
  match v with
  | VNull => Some None
  | VTime t => Some (Some t)
  | VNum n => Some (Some n)
  | VFloat (Finite m e) =>
      Some (Some (if 0 <=? e then Z.shiftl m e else Z.quot m (2 ^ (- e))))
  | VStr s => option_map Some (parse_iso_date s)
  | _ => None
  end.

(** A reading of [pd.to_datetime] for columns of ISO dates, numbers
    (nanoseconds, a float cut to its integer part), timestamps and missing
    values. *)
Fixpoint to_datetime_iso (col : list value) : option (list (option Z)) :=
  match col with
  | [] => Some []
  | v :: rest =>
      match to_datetime_value v, to_datetime_iso rest with
      | Some t, Some ts => Some (t :: ts)
      | _, _ => None
      end
  end.

(** Modelled from the spec: the re-flattening of a normalized frame into a
    record list, one dictionary per row from the column labels to the
    cells, as [df.to_dict("records")] builds it. *)
Definition to_records (df : DataFrame) : list dict :=
  map (fun r => dict_of_items (combine (columns df) (snd r))) (rows df).

(** ** Vocabulary of the statements *)


(** What is known of [argsort]: it returns the positions of the array,
    each once, in an order that sorts it. *)
Definition argsort_spec (argsort : list Z -> list nat) : Prop :=
  forall a,
    Permutation (argsort a) (seq 0 (length a)) /\
    StronglySorted Z.le (take a (argsort a)).

(** What is known of [pd.to_datetime] on a column that already holds
    timestamps: it returns them. *)
Definition to_datetime_keeps_timestamps
    (to_datetime : list value -> option (list (option Z))) : Prop :=
  forall ts, to_datetime (map time_cell ts) = Some ts.


(** The cell that the frame built from the records [data] holds for the
    record [r] in the column [c]: the value of the record, as a float
    when the column is stored as [float64]. *)
Definition stored (data : list dict) (r : dict) (c : string) : value :=
  if float64_column (map (fun r' => cell_of r' c) data)
  then astype_float (cell_of r c)
  else cell_of r c.

(** A frame that is stored the same way when it is built again from its
    own cells: no column would change its integers into floats. *)
Definition storage_stable (df : DataFrame) : Prop :=
  forall c, In c (columns df) ->
            maybe_convert_objects (column_values c df) = column_values c df.


(** The label a flattened column ends with: [Fecha] for the first
    date-like one, the canonical name for a known provider field, its own
    name otherwise. *)
Definition final_label (first_date : option string) (c : string) : string :=
  match first_date with
  | Some c0 => if String.eqb c c0 then "Fecha" else rename_label mapping c
  | None => rename_label mapping c
  end.

(** A dictionary without nested dictionaries. *)
Definition flat_dict (d : dict) : Prop :=
  Forall (fun kv => is_dict (snd kv) = false) d.

(** ** Data for the examples *)

Definition demo_config : Http.Config :=
  Http.mkConfig "id" "secret" "https://localhost/callback" "42".

Definition demo_statement : value :=
  VDict [("description", VStr "Pago"); ("debitAmount", VNum 100);
         ("valueDate", VStr "2024-06-07")].

Definition demo_two_dates : list dict :=
  [[("bookingDate", VStr "2024-06-06"); ("description", VStr "Pago");
    ("valueDate", VStr "2024-06-07")]].


Definition demo_unordered : list dict :=
  [[("valueDate", VStr "2024-06-07"); ("description", VStr "b")];
   [("valueDate", VStr "2024-06-05"); ("description", VStr "a")];
   [("description", VStr "c")]].

Definition demo_duplicates : list dict :=
  [[("valueDate", VStr "2024-06-07"); ("description", VStr "Pago");
    ("debitAmount", VNum 100); ("bankId", VStr "011")];
   [("valueDate", VStr "2024-06-05"); ("description", VStr "Cobro");
    ("creditAmount", VNum 30)];
   [("valueDate", VStr "2024-06-07"); ("description", VStr "Pago");
    ("debitAmount", VNum 100); ("bankId", VStr "007")]].

(** ** Dates as text *)

(** [date.isoformat], on the representation of a date by its ordinal: the
    conversion of an ordinal into year, month and day is that of
    [datetime] ([_ord2ymd]). *)
Module Datetime.
Import Calendar.

Fixpoint digits (fuel : nat) (n : Z) (acc : string) : string :=
  match fuel with
  | O => acc
  | S fuel' =>
      let acc' := String (ascii_of_nat (Z.to_nat (48 + n mod 10))) acc in
      if n <? 10 then acc' else digits fuel' (n / 10) acc'
  end.

(** [str(n)] for an integer: a binary number has at least as many
    digits as the decimal one. *)
Definition str_int (n : Z) : string :=
  if n <? 0
  then String "-" (digits (S (Z.to_nat (Z.log2 (- n)))) (- n) "")
  else digits (S (Z.to_nat (Z.log2 n))) n "".

(** ["%0<width>d" % n] *)
Definition fmt_d (width : nat) (n : Z) : string := zfill (str_int n) width.

Definition _DI400Y : Z := _days_before_year 401.
Definition _DI100Y : Z := _days_before_year 101.
Definition _DI4Y : Z := _days_before_year 5.

(** [_DAYS_BEFORE_MONTH[month]] *)
Definition _DAYS_BEFORE_MONTH (month : Z) : Z :=
  fold_right Z.add 0 (firstn (Z.to_nat (month - 1)) _DAYS_IN_MONTH).

Definition _ord2ymd (n : Z) : Z * Z * Z :=
  let n := n - 1 in
  let n400 := n / _DI400Y in
  let n := n mod _DI400Y in
  let year := n400 * 400 + 1 in
  let n100 := n / _DI100Y in
  let n := n mod _DI100Y in
  let n4 := n / _DI4Y in
  let n := n mod _DI4Y in
  let n1 := n / 365 in
  let n := n mod 365 in
  let year := year + (n100 * 100 + n4 * 4 + n1) in
  if ((n1 =? 4) || (n100 =? 4))%bool then (year - 1, 12, 31)
  else
    let leapyear := ((n1 =? 3) && (negb (n4 =? 24) || (n100 =? 3)))%bool in
    let month := Z.shiftr (n + 50) 5 in
    let preceding :=
      _DAYS_BEFORE_MONTH month
      + (if ((2 <? month) && leapyear)%bool then 1 else 0) in
    let '(month, preceding) :=
      if n <? preceding
      then
        let month := month - 1 in
        (month,
         preceding
         - (nth (Z.to_nat (month - 1)) _DAYS_IN_MONTH 0
            + (if ((month =? 2) && leapyear)%bool then 1 else 0)))
      else (month, preceding) in
    let n := n - preceding in
    (year, month, n + 1).

(** ["%04d-%02d-%02d" % (year, month, day)] *)
Definition isoformat (d : date) : string :=
  let '(year, month, day) := _ord2ymd d in
  fmt_d 4 year ++ "-" ++ fmt_d 2 month ++ "-" ++ fmt_d 2 day.

End Datetime.

(** Checks of [_ord2ymd] and of the formats by enumeration, for the
    proofs about [isoformat]. *)
Module DateCheck.
Import Calendar Datetime.

(** The month and the day that [_ord2ymd] computes from the day number
    within the year. *)
Definition month_day (leapyear : bool) (n : Z) : Z * Z :=
  let month := Z.shiftr (n + 50) 5 in
  let preceding :=
    _DAYS_BEFORE_MONTH month
    + (if ((2 <? month) && leapyear)%bool then 1 else 0) in
  let '(month, preceding) :=
    if n <? preceding
    then
      let month := month - 1 in
      (month,
       preceding
       - (nth (Z.to_nat (month - 1)) _DAYS_IN_MONTH 0
          + (if ((month =? 2) && leapyear)%bool then 1 else 0)))
    else (month, preceding) in
  (month, n - preceding + 1).

Definition month_day_ok (leapyear : bool) (n : Z) : bool :=
  let '(m, d) := month_day leapyear n in
  ((1 <=? m) && (m <=? 12) && (1 <=? d)
   && (d <=? (if ((m =? 2) && leapyear)%bool then 29
              else nth (Z.to_nat (m - 1)) _DAYS_IN_MONTH 0))
   && (_DAYS_BEFORE_MONTH m
       + (if ((2 <? m) && leapyear)%bool then 1 else 0) + d =? n + 1))%bool.

Definition fmt_ok (width : nat) (n : Z) : bool :=
  (Nat.eqb (String.length (fmt_d width n)) width
   && match number (fmt_d width n) 0 with
      | Some v => v =? n
      | None => false
      end)%bool.

End DateCheck.

(** ** The script: start-up and [main] *)

Module Script.
Import Http.

Definition nl : string := String (ascii_of_nat 10) EmptyString.

(** *** Section 1 of the script: the environment *)

(** [not v] for what [os.getenv] returns. *)
Definition not_set (v : option string) : bool :=
  match v with
  | None => true
  | Some s => String.eqb s ""
  end.

Definition AVISO : string :=
  "⚠️  Define en .env: IB_CLIENT_ID, IB_CLIENT_SECRET y CUSTOMER_ID".

(** What the start-up leads to: the message and the code of
    [sys.exit], or the configuration the functions read. *)
Inductive Startup : Type :=
| Exit (message : string) (code : Z)
| Start (cfg : Config).

(** The environment is read once [load_dotenv] has filled it. *)
Definition entorno (getenv : string -> option string) : Startup :=
  let client_id := getenv "IB_CLIENT_ID" in
  let client_secret := getenv "IB_CLIENT_SECRET" in
  let service_url :=
    match getenv "IB_SERVICE_URL" with
    | Some s => s
    | None => "https://localhost/callback"
    end in
  let customer_id := getenv "CUSTOMER_ID" in
  if (not_set client_id || not_set client_secret || not_set customer_id)%bool
  then Exit AVISO 1
  else
    match client_id, client_secret, customer_id with
    | Some i, Some s, Some c =>
        Start {| CLIENT_ID := i; CLIENT_SECRET := s;
                 SERVICE_URL := service_url; CUSTOMER_ID := c |}
    | _, _, _ => Exit AVISO 1
    end.

(** *** What a run does *)

(** The actions of a run on the console, the disk and the network.
    [WriteText] is a [with open(path, "w")] block: the file opened,
    written and closed. *)
Inductive Event : Type :=
| Print (text : string)
| Makedirs (path : string)
| Sent (req : Request)
| ToExcel (df : DataFrame) (path : string)
| WriteText (path : string) (text : string).

Definition Trace := list Event.

Definition requests (tr : Trace) : list Request :=
  flat_map (fun e => match e with Sent req => [req] | _ => [] end) tr.

Definition directories (tr : Trace) : list string :=
  flat_map (fun e => match e with Makedirs path => [path] | _ => [] end) tr.

Definition workbooks (tr : Trace) : list (string * DataFrame) :=
  flat_map
    (fun e => match e with ToExcel df path => [(path, df)] | _ => [] end) tr.

Definition text_files (tr : Trace) : list (string * string) :=
  flat_map
    (fun e =>
       match e with WriteText path text => [(path, text)] | _ => [] end) tr.

(** A computation of the script: it extends the trace of the actions
    attempted so far; an action that raises is the last one. *)
Definition Run (A : Type) := Trace -> result A * Trace.

Definition run_ret {A : Type} (r : result A) : Run A := fun tr => (r, tr).

Definition run_bind {A B : Type} (m : Run A) (k : A -> Run B) : Run B :=
  fun tr =>
    match m tr with
    | (Ok a, tr') => k a tr'
    | (Raise e, tr') => (Raise e, tr')
    end.

(** The names of the two folders and of a spreadsheet. *)
Definition carpeta_mov (fecha : string) : string := "Movimientos " ++ fecha.

Definition carpeta_nomov (fecha : string) : string :=
  "Sin movimientos " ++ fecha.

Definition filename (entidad fecha : string) : string :=
  entidad ++ " Movimientos - Fecha " ++ fecha ++ ".xlsx".

(** [if not movs] *)
Definition falsy (v : value) : bool :=
  match v with
  | VNull => true
  | VBool b => negb b
  | VNum n => n =? 0
  | VFloat (Finite m _) => m =? 0
  | VFloat (Infinite _) => false
  | VStr s => String.eqb s ""
  | VTime _ => false
  | VList l => match l with [] => true | _ => false end
  | VDict items => match items with [] => true | _ => false end
  end.

Fixpoint dicts (l : list value) : option (list dict) :=
  match l with
  | [] => Some []
  | VDict d :: rest => option_map (cons d) (dicts rest)
  | _ :: _ => None
  end.

Section Main.

Variable cfg : Config.
Variable net : Network.

(** Whether an action on the console or the disk succeeds, after the
    actions before it. *)
Variable system : Trace -> Event -> result unit.

(** [pd.read_excel("bancos.xlsx", dtype=str)] with its columns
    renamed: the rows of the sheet, which has the columns of the
    bank number and of the account, every cell a string.  The column
    of the entity is there for every row or for none. *)
Variable read_excel : result (list Account).

Variable to_datetime : list value -> option (list (option Z)).
Variable argsort : list Z -> list nat.

(** [estandarizar] on a JSON value that is neither a list of
    mappings nor a mapping: what [json_normalize] makes of it is not
    embedded. *)
Variable estandarizar_otros : value -> result DataFrame.

Variable str : value -> string.

(** [os.path.join] *)
Variable path_join : string -> string -> string.

Definition ruta (entidad fecha : string) : string :=
  path_join (carpeta_mov fecha) (filename entidad fecha).

Definition log_path (fecha : string) : string :=
  path_join (carpeta_nomov fecha) "log.txt".

Definition perform (e : Event) : Run unit :=
  fun tr => (system tr e, (tr ++ [e])%list).

(** A network call: the requests it puts on the wire follow those of
    the trace. *)
Definition call {A : Type} (m : IO A) : Run A :=
  fun tr =>
    let '(r, log) := m (requests tr) in
    (r, (tr ++ map Sent (skipn (length (requests tr)) log))%list).

(** [estandarizar(movs)] on what [descargar_extractos] returned;
    [json_normalize] takes a mapping as a list of one record. *)
Definition estandarizar_json (movs : value) : result DataFrame :=
  if falsy movs then Ok DataFrame_empty
  else
    match movs with
    | VDict d => estandarizar to_datetime argsort [d]
    | VList l =>
        match dicts l with
        | Some ds => estandarizar to_datetime argsort ds
        | None => estandarizar_otros movs
        end
    | _ => estandarizar_otros movs
    end.

(** The body of the [for] loop of [main]; it returns [sin_mov]. *)
Definition cuenta (token fecha : string) (b : Account)
    (sin_mov : list string) : Run (list string) :=
  let entidad := entidad b in
  run_bind
    (call (descargar_extractos cfg net token (account_number b)
             (bank_number b) fecha))
    (fun movs =>
  run_bind (run_ret (estandarizar_json movs)) (fun df =>
  run_bind
    (if empty df
     then
       run_bind (perform (Print (entidad ++ ": 0 movimientos")))
         (fun _ =>
       run_ret (Ok (sin_mov ++ [entidad])%list))
     else
       run_bind
         (perform
            (Print (entidad ++ ": "
                    ++ Datetime.str_int (Z.of_nat (length (rows df)))
                    ++ " movimientos — exportando…")))
         (fun _ =>
       run_bind (perform (ToExcel df (ruta entidad fecha))) (fun _ =>
       run_bind
         (perform
            (Print ("  ✔️  Guardado en «" ++ ruta entidad fecha ++ "»")))
         (fun _ =>
       run_ret (Ok sin_mov)))))
    (fun sin_mov =>
  run_bind (perform (Print "")) (fun _ =>
  run_ret (Ok sin_mov))))).

Fixpoint cuentas (token fecha : string) (bancos : list Account)
    (sin_mov : list string) : Run (list string) :=
  match bancos with
  | [] => run_ret (Ok sin_mov)
  | b :: rest =>
      run_bind (cuenta token fecha b sin_mov)
        (fun sin_mov => cuentas token fecha rest sin_mov)
  end.

(** What [log.txt] receives. *)
Definition log_text (fecha : string) (sin_mov : list string) : string :=
  ("Bancos sin movimientos en " ++ fecha ++ nl)
  ++ ("===============================" ++ nl)
  ++ String.concat "" (map (fun ent => ent ++ nl) sin_mov).

(** [main()], run on the day [hoy]. *)
Definition main (hoy : Calendar.date) : Run unit :=
  run_bind (run_ret read_excel) (fun bancos =>
  run_bind (run_ret (Calendar.ultimo_dia_habil hoy)) (fun dia =>
  let fecha := Datetime.isoformat dia in
  run_bind (perform (Makedirs (carpeta_mov fecha))) (fun _ =>
  run_bind (perform (Makedirs (carpeta_nomov fecha))) (fun _ =>
  run_bind (call (obtener_token cfg net)) (fun token =>
  run_bind (cuentas (str token) fecha bancos []) (fun sin_mov =>
  run_bind
    (perform (WriteText (log_path fecha) (log_text fecha sin_mov)))
    (fun _ =>
  perform
    (Print ("Log de bancos sin movimientos guardado en «" ++ log_path fecha
            ++ "»"))))))))).

End Main.

(** How the process ends. *)
Inductive Outcome : Type :=
| Done
| Exited (code : Z)
| Failed (e : exn).

(** The script run as a program: the start-up, then [main]. *)
Definition script (getenv : string -> option string) (net : Network)
    (system : Trace -> Event -> result unit)
    (read_excel : result (list Account))
    (to_datetime : list value -> option (list (option Z)))
    (argsort : list Z -> list nat)
    (estandarizar_otros : value -> result DataFrame)
    (str : value -> string) (path_join : string -> string -> string)
    (hoy : Calendar.date) : Outcome * Trace :=
  match entorno getenv with
  | Exit message code =>
      match system [] (Print message) with
      | Ok _ => (Exited code, [Print message])
      | Raise e => (Failed e, [Print message])
      end
  | Start cfg =>
      match main cfg net system read_excel to_datetime argsort
              estandarizar_otros str path_join hoy [] with
      | (Ok _, tr) => (Done, tr)
      | (Raise e, tr) => (Failed e, tr)
      end
  end.

End Script.

(** A world for the examples: the provider knows one account. *)
Module ScriptDemo.
Import Http Script.

Definition getenv (name : string) : option string :=
  if String.eqb name "IB_CLIENT_ID" then Some "id"
  else if String.eqb name "IB_CLIENT_SECRET" then Some "secret"
  else if String.eqb name "CUSTOMER_ID" then Some "42"
  else None.

Definition net : Network :=
  fun _ req =>
    match method req with
    | POST =>
        Ok (mkResponse 200 (Some (VDict [("access_token", VStr "tok")])))
    | GET =>
        if String.eqb (url req) (STMT_URL "123")
        then Ok (mkResponse 200
                   (Some (VDict [("statements", VList [demo_statement])])))
        else Ok (mkResponse 200 (Some (VList [])))
    end.

Definition system : Trace -> Event -> result unit := fun _ _ => Ok tt.

Definition bancos : list Account :=
  [mkAccount "7" "123" (Some "Banco A");
   mkAccount "11" "456" (Some "Banco B")].

Definition estandarizar_otros (v : value) : result DataFrame :=
  Raise TypeError.

Definition str (v : value) : string :=
  match v with
  | VStr s => s
  | _ => ""
  end.

Definition path_join (a b : string) : string := a ++ "/" ++ b.

Definition hoy : Calendar.date := Calendar._ymd2ord 2024 6 10.

Definition run : Outcome * Trace :=
  script getenv net system (Ok bancos) to_datetime_iso argsort_stable
    estandarizar_otros str path_join hoy.

End ScriptDemo.
(** * Properties *)

(** ** The business-day calculator *)

Module CalendarFacts.
Import Calendar.

Lemma weekday_range (d : date) : 0 <= weekday d <= 6.
Proof. unfold weekday. pose proof (Z.mod_pos_bound (d + 6) 7). lia. Qed.

Lemma weekday_shift (d k : Z) : weekday (d + k) = (weekday d + k) mod 7.
Proof.
  unfold weekday.
  replace (d + k + 6) with ((d + 6) + k) by lia.
  now rewrite Z.add_mod_idemp_l by lia.
Qed.

Lemma weekday_cases (d : date) :
  weekday d = 0 \/ weekday d = 1 \/ weekday d = 2 \/ weekday d = 3 \/
  weekday d = 4 \/ weekday d = 5 \/ weekday d = 6.
Proof. pose proof (weekday_range d). lia. Qed.

(** The shift that [BDay(-1)] applies, by week day. *)
Lemma BDay_shift (d : date) :
  BDay_apply (- (1)) d =
  d - (if weekday d =? 0 then 3 else if weekday d =? 6 then 2 else 1).
Proof.
  unfold BDay_apply, _adjust_ndays.
  change (- (1) / 5) with (- (1)).
  destruct (weekday_cases d) as [H | [H | [H | [H | [H | [H | H]]]]]];
    rewrite H; cbn; lia.
Qed.

Lemma BDay_weekday (d : date) :
  weekday (BDay_apply (- (1)) d) =
  if (weekday d =? 0) || (5 <=? weekday d) then 4 else weekday d - 1.
Proof.
  rewrite BDay_shift.
  unfold Z.sub at 1. rewrite weekday_shift.
  destruct (weekday_cases d) as [H | [H | [H | [H | [H | [H | H]]]]]];
    rewrite H; reflexivity.
Qed.

Lemma BDay_business_day (d : date) :
  is_business_day (BDay_apply (- (1)) d) = true.
Proof.
  unfold is_business_day. rewrite BDay_weekday. apply Z.leb_le.
  destruct (weekday_cases d) as [H | [H | [H | [H | [H | [H | H]]]]]];
    rewrite H; cbn; lia.
Qed.

Lemma BDay_earlier (d : date) :
  d - 3 <= BDay_apply (- (1)) d < d.
Proof.
  rewrite BDay_shift.
  destruct (weekday d =? 0), (weekday d =? 6); lia.
Qed.

(** No business day lies strictly between the shifted day and the
    input. *)
Lemma no_business_day_between (d b : date) :
  BDay_apply (- (1)) d < b -> b < d -> is_business_day b = false.
Proof.
  rewrite BDay_shift. unfold is_business_day.
  intros Hlo Hhi. apply Z.leb_gt.
  pose proof (weekday_range d) as Hr.
  destruct (weekday d =? 0) eqn:H0.
  - apply Z.eqb_eq in H0.
    assert (Hb : b = d + - (1) \/ b = d + - (2)) by lia.
    destruct Hb as [-> | ->]; rewrite weekday_shift, H0; cbn; lia.
  - destruct (weekday d =? 6) eqn:H6.
    + apply Z.eqb_eq in H6.
      assert (Hb : b = d + - (1)) by lia.
      subst b. rewrite weekday_shift, H6. cbn. lia.
    + lia.
Qed.

Lemma is_date_iff (d : Z) : is_date d = true <-> 1 <= d <= _MAXORDINAL.
Proof.
  unfold is_date. rewrite andb_true_iff, Z.leb_le, Z.leb_le. reflexivity.
Qed.

(** The calculator has a result for every date but the first, a Monday
    with no date three days before it. *)
Lemma ultimo_dia_habil_returns (d : date) :
  is_date d = true -> d <> 1 ->
  ultimo_dia_habil d = Ok (BDay_apply (- (1)) d) /\
  is_date (BDay_apply (- (1)) d) = true.
Proof.
  intros Hd H1. apply is_date_iff in Hd. unfold _MAXORDINAL in Hd.
  assert (Hr : is_date (BDay_apply (- (1)) d) = true).
  { apply is_date_iff. unfold _MAXORDINAL.
    pose proof (BDay_earlier d) as He.
    split; [| lia].
    destruct (Z.eq_dec d 2) as [-> | H2]; [vm_compute; discriminate |].
    destruct (Z.eq_dec d 3) as [-> | H3]; [vm_compute; discriminate |].
    lia. }
  split; [| exact Hr].
  unfold ultimo_dia_habil, Timestamp_date. now rewrite Hr.
Qed.

Lemma ultimo_dia_habil_Ok (d r : date) :
  ultimo_dia_habil d = Ok r ->
  r = BDay_apply (- (1)) d /\ is_date r = true.
Proof.
  unfold ultimo_dia_habil, Timestamp_date.
  destruct (is_date (BDay_apply (- (1)) d)) eqn:E; [| discriminate].
  intro H. injection H as <-. auto.
Qed.

End CalendarFacts.

(** The first date of the calendar, 0001-01-01, is a Monday: the Friday
    before it is no date and the calculator raises. *)
Lemma ultimo_dia_habil_raises_on_first_date :
  Calendar.is_date (Calendar._ymd2ord 1 1 1) = true /\
  Calendar.weekday (Calendar._ymd2ord 1 1 1) = 0 /\
  Calendar.ultimo_dia_habil (Calendar._ymd2ord 1 1 1)
  = Raise NotImplementedError.
Proof. repeat split. Qed.

(** C1. For every calendar date other than the first one the calculator
    returns the previous business day of the Monday-to-Friday calendar: a
    date, a business day strictly before the input with no business day
    in between.  On a Monday, a Saturday or a Sunday that day is the
    preceding Friday (the Friday of the seven days before the input);
    from Tuesday to Friday it is the previous calendar day.  2024-06-10
    maps to 2024-06-07 and 2024-06-12 to 2024-06-11. *)
Theorem ultimo_dia_habil_previous_business_day (d : Calendar.date) :
  Calendar.is_date d = true ->
  d <> Calendar._ymd2ord 1 1 1 ->
  exists r,
    Calendar.ultimo_dia_habil d = Ok r /\
    Calendar.is_date r = true /\
    (r < d /\ Calendar.is_business_day r = true /\
     forall b, b < d -> Calendar.is_business_day b = true -> b <= r) /\
    (Calendar.weekday d = 0 \/ Calendar.weekday d = 5 \/
     Calendar.weekday d = 6 ->
     Calendar.weekday r = 4 /\ d - 7 <= r < d) /\
    (1 <= Calendar.weekday d <= 4 -> r = d - 1) /\
    Calendar.ultimo_dia_habil (Calendar._ymd2ord 2024 6 10)
    = Ok (Calendar._ymd2ord 2024 6 7) /\
    Calendar.ultimo_dia_habil (Calendar._ymd2ord 2024 6 12)
    = Ok (Calendar._ymd2ord 2024 6 11).
Proof.
  intros Hd H1.
  destruct (CalendarFacts.ultimo_dia_habil_returns d Hd H1) as [Hr Hdate].
  exists (Calendar.BDay_apply (- (1)) d).
  split; [exact Hr |]. split; [exact Hdate |].
  pose proof (CalendarFacts.weekday_range d) as Hw.
  pose proof (CalendarFacts.BDay_shift d) as Hs.
  pose proof (CalendarFacts.BDay_weekday d) as Hwd.
  pose proof (CalendarFacts.BDay_earlier d) as He.
  split; [split; [lia | split] | split; [| split; [| split]]].
  - apply CalendarFacts.BDay_business_day.
  - intros b Hb Hbd.
    destruct (Z_le_gt_dec b (Calendar.BDay_apply (- (1)) d)) as [Hle | Hgt];
      [exact Hle |].
    rewrite (CalendarFacts.no_business_day_between d b) in Hbd by lia.
    discriminate.
  - intros H. split; [| lia].
    rewrite Hwd. destruct H as [H | [H | H]]; rewrite H; reflexivity.
  - intros [Hlo Hhi]. rewrite Hs.
    destruct (Calendar.weekday d =? 0) eqn:H0; [apply Z.eqb_eq in H0; lia |].
    destruct (Calendar.weekday d =? 6) eqn:H6; [apply Z.eqb_eq in H6; lia |].
    reflexivity.
  - reflexivity.
  - reflexivity.
Qed.

Lemma ultimo_dia_habil_previous_business_day_witness :
  exists r,
    Calendar.ultimo_dia_habil (Calendar._ymd2ord 2024 6 10) = Ok r /\
    Calendar.weekday r = 4 /\
    Calendar._ymd2ord 2024 6 10 - 7 <= r < Calendar._ymd2ord 2024 6 10.
Proof.
  destruct (ultimo_dia_habil_previous_business_day
              (Calendar._ymd2ord 2024 6 10) eq_refl
              ltac:(vm_compute; discriminate))
    as (r & Hr & _ & _ & Hfri & _).
  exists r. split; [exact Hr |].
  apply Hfri. left. reflexivity.
Defined.

(** On the first date of the calendar the calculator has no result, so
    none that is earlier than the input. *)
Lemma ultimo_dia_habil_no_result_on_first_date :
  Calendar.is_date 1 = true /\
  ~ exists r, Calendar.ultimo_dia_habil 1 = Ok r /\ r < 1.
Proof.
  split; [reflexivity |]. intros (r & H & _). discriminate H.
Qed.

(** C10. For every calendar date other than the first one the result is
    strictly earlier than the input and falls on a Monday to Friday, never
    on a Saturday or a Sunday; a Saturday and the Sunday after it map to
    the same day, the Friday before them. *)
Theorem ultimo_dia_habil_earlier_weekday (d : Calendar.date) :
  Calendar.is_date d = true ->
  d <> 1 ->
  exists r,
    Calendar.ultimo_dia_habil d = Ok r /\
    r < d /\
    0 <= Calendar.weekday r <= 4 /\
    Calendar.weekday r <> 5 /\ Calendar.weekday r <> 6 /\
    (Calendar.weekday d = 5 ->
     Calendar.weekday (d + 1) = 6 /\
     Calendar.is_date (d + 1) = true /\
     Calendar.ultimo_dia_habil (d + 1) = Ok r /\
     r = d - 1 /\ Calendar.weekday r = 4).
Proof.
  intros Hd H1.
  destruct (CalendarFacts.ultimo_dia_habil_returns d Hd H1) as [Hr _].
  exists (Calendar.BDay_apply (- (1)) d). split; [exact Hr |].
  pose proof (CalendarFacts.weekday_range d) as Hrg.
  pose proof (CalendarFacts.BDay_shift d) as Hs.
  pose proof (CalendarFacts.BDay_earlier d) as He.
  pose proof (CalendarFacts.BDay_business_day d) as Hb.
  unfold Calendar.is_business_day in Hb. apply Z.leb_le in Hb.
  pose proof (CalendarFacts.weekday_range (Calendar.BDay_apply (- (1)) d))
    as Hrr.
  split; [lia |]. split; [lia |]. split; [lia |]. split; [lia |].
  intro H5.
  assert (H6 : Calendar.weekday (d + 1) = 6).
  { rewrite CalendarFacts.weekday_shift, H5. reflexivity. }
  assert (Hd1 : Calendar.is_date (d + 1) = true).
  { apply CalendarFacts.is_date_iff. apply CalendarFacts.is_date_iff in Hd.
    split; [lia |].
    destruct (Z.eq_dec d Calendar._MAXORDINAL) as [-> | Hne];
      [vm_compute in H5; discriminate | lia]. }
  split; [exact H6 |]. split; [exact Hd1 |].
  destruct (CalendarFacts.ultimo_dia_habil_returns (d + 1) Hd1) as [Hr1 _].
  { apply CalendarFacts.is_date_iff in Hd. lia. }
  rewrite Hr1, (CalendarFacts.BDay_shift (d + 1)), H6.
  rewrite CalendarFacts.BDay_weekday, Hs, H5. cbn.
  split; [f_equal; lia | split; [lia | reflexivity]].
Qed.

Lemma ultimo_dia_habil_earlier_weekday_witness :
  exists r,
    Calendar.ultimo_dia_habil (Calendar._ymd2ord 2024 6 8) = Ok r /\
    Calendar.ultimo_dia_habil (Calendar._ymd2ord 2024 6 8 + 1) = Ok r /\
    Calendar.weekday r = 4.
Proof.
  destruct (ultimo_dia_habil_earlier_weekday (Calendar._ymd2ord 2024 6 8)
              eq_refl ltac:(vm_compute; discriminate))
    as (r & Hr & _ & _ & _ & _ & H).
  destruct (H eq_refl) as (_ & _ & H1 & _ & H2).
  exists r. auto.
Defined.

(** ** The token acquirer and the statement fetcher *)

Module HttpFacts.
Import Http.

Ltac zbool :=
  repeat match goal with
    | H : (_ && _)%bool = true |- _ =>
        apply andb_true_iff in H; destruct H
    | H : (_ && _)%bool = false |- _ =>
        apply andb_false_iff in H; destruct H
    | H : (_ <=? _) = true |- _ => apply Z.leb_le in H
    | H : (_ <=? _) = false |- _ => apply Z.leb_gt in H
    | H : (_ <? _) = true |- _ => apply Z.ltb_lt in H
    | H : (_ <? _) = false |- _ => apply Z.ltb_ge in H
    end.

Lemma raise_for_status_ok (resp : Response) :
  raise_for_status resp = Ok tt <-> ~ error_status (status_code resp).
Proof.
  unfold raise_for_status, error_status.
  destruct ((400 <=? status_code resp) && (status_code resp <? 500))%bool
    eqn:E1;
    [| destruct ((500 <=? status_code resp) && (status_code resp <? 600))%bool
         eqn:E2];
    (split; [try discriminate; intros _ ? | try reflexivity; intro Hn]);
    zbool; try lia; exfalso; apply Hn; lia.
Qed.

Lemma raise_for_status_error (resp : Response) :
  error_status (status_code resp) -> raise_for_status resp = Raise HTTPError.
Proof.
  unfold raise_for_status, error_status. intro H.
  destruct ((400 <=? status_code resp) && (status_code resp <? 500))%bool
    eqn:E1; [reflexivity |].
  destruct ((500 <=? status_code resp) && (status_code resp <? 600))%bool
    eqn:E2; [reflexivity |].
  zbool; lia.
Qed.

(** Each function puts exactly one request on the wire. *)
Lemma obtener_token_log cfg net log :
  snd (obtener_token cfg net log) = (log ++ [token_request cfg])%list.
Proof.
  unfold obtener_token, io_bind, requests_send, io_ret.
  destruct (net log (token_request cfg)); reflexivity.
Qed.

Lemma descargar_extractos_log cfg net token account bank fecha log :
  snd (descargar_extractos cfg net token account bank fecha log)
  = (log ++ [statement_request cfg token account bank fecha])%list.
Proof.
  unfold descargar_extractos, io_bind, requests_send, io_ret.
  destruct (net log (statement_request cfg token account bank fecha));
    reflexivity.
Qed.

Lemma descargar_extractos_result cfg net token account bank fecha log :
  fst (descargar_extractos cfg net token account bank fecha log) =
  (resp <- net log (statement_request cfg token account bank fecha) ;;
   _ <- raise_for_status resp ;;
   body <- json resp ;;
   Ok (match body with
       | VDict items =>
           match dict_get "statements" items with
           | Some v => v
           | None => VList []
           end
       | _ => body
       end)).
Proof.
  unfold descargar_extractos, io_bind, requests_send, io_ret.
  destruct (net log (statement_request cfg token account bank fecha));
    reflexivity.
Qed.

Lemma obtener_token_result cfg net log :
  fst (obtener_token cfg net log) =
  (resp <- net log (token_request cfg) ;;
   _ <- raise_for_status resp ;;
   body <- json resp ;;
   getitem body "access_token").
Proof.
  unfold obtener_token, io_bind, requests_send, io_ret.
  destruct (net log (token_request cfg)); reflexivity.
Qed.

(** In the run, a failed call is the end of it. *)
Lemma main_token_failure cfg net exportar str fecha bancos log e :
  fst (obtener_token cfg net log) = Raise e ->
  main cfg net exportar str fecha bancos log
  = (Raise e, (log ++ [token_request cfg])%list).
Proof.
  intro H. unfold main, io_bind.
  pose proof (obtener_token_log cfg net log) as Hlog.
  destruct (obtener_token cfg net log) as [[v | e'] log']; cbn in H, Hlog;
    [discriminate |].
  now injection H as ->; subst.
Qed.

Lemma procesar_fetch_failure cfg net exportar token fecha b rest log e :
  fst (descargar_extractos cfg net token (account_number b)
         (bank_number b) fecha log) = Raise e ->
  procesar cfg net exportar token fecha (b :: rest) log
  = (Raise e,
     (log ++ [statement_request cfg token (account_number b)
                (bank_number b) fecha])%list).
Proof.
  intro H. cbn [procesar]. unfold io_bind at 1.
  pose proof (descargar_extractos_log cfg net token (account_number b)
                (bank_number b) fecha log) as Hlog.
  destruct (descargar_extractos cfg net token (account_number b)
              (bank_number b) fecha log) as [[v | e'] log'];
    cbn in H, Hlog; [discriminate |].
  now injection H as ->; subst.
Qed.

End HttpFacts.

(** C8. For every successful response of the statement endpoint (no error
    status, a JSON body), the fetcher returns the value stored under the
    [statements] key when the body is a mapping that has the key, and the
    body itself when the body is a list.  (A mapping without the key gives
    the empty list.) *)
Theorem descargar_extractos_statements
    (cfg : Http.Config) (net : Http.Network)
    (token account bank fecha : string) (log : list Http.Request)
    (resp : Http.Response) (body : value) :
  net log (Http.statement_request cfg token account bank fecha) = Ok resp ->
  ~ Http.error_status (Http.status_code resp) ->
  Http.json_body resp = Some body ->
  let out := fst (Http.descargar_extractos cfg net token account bank fecha log) in
  (forall items stmts,
      body = VDict items -> dict_get "statements" items = Some stmts ->
      out = Ok stmts) /\
  (forall l, body = VList l -> out = Ok (VList l)) /\
  (forall items,
      body = VDict items -> dict_get "statements" items = None ->
      out = Ok (VList [])).
Proof.
  intros Hnet Hst Hbody out. subst out.
  rewrite HttpFacts.descargar_extractos_result, Hnet. cbn [bind].
  apply HttpFacts.raise_for_status_ok in Hst. rewrite Hst. cbn [bind].
  unfold Http.json. rewrite Hbody. cbn [bind].
  split; [| split].
  - intros items stmts -> Hget. cbn. now rewrite Hget.
  - intros l ->. reflexivity.
  - intros items -> Hget. cbn. now rewrite Hget.
Qed.

Lemma descargar_extractos_statements_witness :
  fst (Http.descargar_extractos demo_config
         (fun _ _ => Ok (Http.mkResponse 200
                           (Some (VDict [("statements", VList [demo_statement])]))))
         "tok" "123" "7" "2024-06-07" [])
  = Ok (VList [demo_statement]).
Proof.
  refine (proj1 (descargar_extractos_statements demo_config
            (fun _ _ => Ok (Http.mkResponse 200
                              (Some (VDict [("statements", VList [demo_statement])]))))
            "tok" "123" "7" "2024-06-07" []
            (Http.mkResponse 200
               (Some (VDict [("statements", VList [demo_statement])])))
            (VDict [("statements", VList [demo_statement])])
            eq_refl _ eq_refl)
          [("statements", VList [demo_statement])] (VList [demo_statement])
          eq_refl eq_refl).
  unfold Http.error_status. cbn. lia.
Defined.

(** C9, as stated, fails: a response with a successful status whose body
    is not JSON makes the fetcher raise, so a successful status alone does
    not make the function return. *)
Lemma descargar_extractos_raises_on_non_json_body :
  let net : Http.Network := fun _ _ => Ok (Http.mkResponse 200 None) in
  ~ Http.error_status 200 /\
  fst (Http.descargar_extractos demo_config net "tok" "123" "7" "2024-06-07" [])
  = Raise JSONDecodeError.
Proof.
  split.
  - unfold Http.error_status. lia.
  - reflexivity.
Qed.

(** C9, amended. Each of the two functions sends exactly one request,
    whatever the outcome (no retry), and lets every error through: it
    raises when the remote side answers with an error status (400 to 599),
    and the token acquirer raises when the body has no [access_token]
    field.  The fetcher returns if and only if the call is answered, the
    status is not an error status and the body is JSON; the token acquirer
    returns if and only if, in addition, the body is a mapping with an
    [access_token] field, whose value it returns.  In the run, a failure
    of either call is the end of it: [main] raises the same error and no
    further request is sent. *)
Theorem network_calls_propagate_errors
    (cfg : Http.Config) (net : Http.Network)
    (token account bank fecha : string) (log : list Http.Request) :
  let tok := Http.obtener_token cfg net log in
  let treq := Http.token_request cfg in
  let stm := Http.descargar_extractos cfg net token account bank fecha log in
  let sreq := Http.statement_request cfg token account bank fecha in
  (snd tok = (log ++ [treq])%list /\ snd stm = (log ++ [sreq])%list) /\
  (forall resp, net log treq = Ok resp ->
                Http.error_status (Http.status_code resp) ->
                fst tok = Raise HTTPError) /\
  (forall resp, net log sreq = Ok resp ->
                Http.error_status (Http.status_code resp) ->
                fst stm = Raise HTTPError) /\
  (forall resp, net log treq = Ok resp ->
                (forall items, Http.json_body resp = Some (VDict items) ->
                               dict_get "access_token" items = None) ->
                raises (fst tok)) /\
  (forall v, fst tok = Ok v <->
             exists resp items,
               net log treq = Ok resp /\
               ~ Http.error_status (Http.status_code resp) /\
               Http.json_body resp = Some (VDict items) /\
               dict_get "access_token" items = Some v) /\
  (returns (fst stm) <->
   exists resp body,
     net log sreq = Ok resp /\
     ~ Http.error_status (Http.status_code resp) /\
     Http.json_body resp = Some body) /\
  (forall exportar str bancos e,
      fst tok = Raise e ->
      Http.main cfg net exportar str fecha bancos log
      = (Raise e, (log ++ [treq])%list)) /\
  (forall exportar b rest e,
      Http.account_number b = account -> Http.bank_number b = bank ->
      fst stm = Raise e ->
      Http.procesar cfg net exportar token fecha (b :: rest) log
      = (Raise e, (log ++ [sreq])%list)).
Proof.
  intros tok treq stm sreq.
  assert (Hmain : forall exportar str bancos e,
             fst tok = Raise e ->
             Http.main cfg net exportar str fecha bancos log
             = (Raise e, (log ++ [treq])%list)).
  { intros. now apply HttpFacts.main_token_failure. }
  assert (Hloop : forall exportar b rest e,
             Http.account_number b = account -> Http.bank_number b = bank ->
             fst stm = Raise e ->
             Http.procesar cfg net exportar token fecha (b :: rest) log
             = (Raise e, (log ++ [sreq])%list)).
  { intros exportar b rest e Ha Hb He. subst stm sreq account bank.
    now apply HttpFacts.procesar_fetch_failure. }
  revert Hmain Hloop. subst tok stm.
  rewrite HttpFacts.obtener_token_log, HttpFacts.descargar_extractos_log.
  rewrite HttpFacts.obtener_token_result, HttpFacts.descargar_extractos_result.
  fold treq sreq. intros Hmain Hloop.
  split; [split; reflexivity |].
  split; [| split; [| split; [| split; [| split; [| split]]]]];
    [| | | | | exact Hmain | exact Hloop].
  - intros resp -> Herr. cbn [bind].
    now rewrite HttpFacts.raise_for_status_error.
  - intros resp -> Herr. cbn [bind].
    now rewrite HttpFacts.raise_for_status_error.
  - intros resp -> Hno. cbn [bind].
    destruct (Http.raise_for_status resp) as [[] | e]; [| now exists e].
    cbn [bind]. unfold Http.json.
    destruct (Http.json_body resp) as [body |] eqn:Hb;
      [| now exists JSONDecodeError].
    cbn [bind]. unfold Http.getitem.
    destruct body; try (now exists TypeError).
    rewrite (Hno items eq_refl). now exists KeyError.
  - intro v. split.
    + destruct (net log treq) as [resp | e]; [| discriminate].
      cbn [bind].
      destruct (Http.raise_for_status resp) as [[] | e] eqn:Hs;
        [| discriminate].
      cbn [bind]. unfold Http.json.
      destruct (Http.json_body resp) as [body |] eqn:Hb; [| discriminate].
      cbn [bind]. unfold Http.getitem.
      destruct body; try discriminate.
      destruct (dict_get "access_token" items) as [x |] eqn:Hg;
        [| discriminate].
      intro H. injection H as <-.
      exists resp, items.
      apply HttpFacts.raise_for_status_ok in Hs. auto.
    + intros (resp & items & -> & Hs & Hb & Hg). cbn [bind].
      apply HttpFacts.raise_for_status_ok in Hs. rewrite Hs. cbn [bind].
      unfold Http.json. rewrite Hb. cbn. now rewrite Hg.
  - split.
    + intros [v Hv].
      destruct (net log sreq) as [resp | e]; [| discriminate].
      cbn [bind] in Hv.
      destruct (Http.raise_for_status resp) as [[] | e] eqn:Hs;
        [| discriminate].
      cbn [bind] in Hv. unfold Http.json in Hv.
      destruct (Http.json_body resp) as [body |] eqn:Hb; [| discriminate].
      exists resp, body.
      apply HttpFacts.raise_for_status_ok in Hs. auto.
    + intros (resp & body & -> & Hs & Hb). cbn [bind].
      apply HttpFacts.raise_for_status_ok in Hs. rewrite Hs. cbn [bind].
      unfold Http.json. rewrite Hb. cbn [bind]. eexists. reflexivity.
Qed.

Lemma network_calls_propagate_errors_witness :
  fst (Http.obtener_token demo_config
         (fun _ _ => Ok (Http.mkResponse 503 None)) [])
  = Raise HTTPError /\
  fst (Http.descargar_extractos demo_config
         (fun _ _ => Ok (Http.mkResponse 503 None))
         "tok" "123" "7" "2024-06-07" [])
  = Raise HTTPError /\
  fst (Http.obtener_token demo_config
         (fun _ _ => Ok (Http.mkResponse 200
                           (Some (VDict [("access_token", VStr "abc")])))) [])
  = Ok (VStr "abc") /\
  Http.main demo_config (fun _ _ => Ok (Http.mkResponse 503 None))
    (fun _ _ => Ok tt) (fun _ => "abc") "2024-06-07"
    [Http.mkAccount "7" "123" None] []
  = (Raise HTTPError, [Http.token_request demo_config]).
Proof.
  pose proof (network_calls_propagate_errors demo_config
                (fun _ _ => Ok (Http.mkResponse 503 None))
                "tok" "123" "7" "2024-06-07" []) as H.
  pose proof (network_calls_propagate_errors demo_config
                (fun _ _ => Ok (Http.mkResponse 200
                                  (Some (VDict [("access_token", VStr "abc")]))))
                "tok" "123" "7" "2024-06-07" []) as H'.
  cbv zeta in H, H'.
  destruct H as [_ [Ht [Hs [_ [_ [_ [Hmain _]]]]]]].
  destruct H' as [_ [_ [_ [_ [Hv _]]]]].
  assert (E : Http.error_status 503) by (unfold Http.error_status; lia).
  split; [exact (Ht _ eq_refl E) |].
  split; [exact (Hs _ eq_refl E) |].
  split.
  - apply (proj2 (Hv (VStr "abc"))).
    exists (Http.mkResponse 200 (Some (VDict [("access_token", VStr "abc")]))),
           [("access_token", VStr "abc")].
    split; [reflexivity |].
    split; [unfold Http.error_status; cbn; lia |].
    split; reflexivity.
  - apply Hmain. exact (Ht _ eq_refl E).
Defined.

(** ** Lists, positions and masks *)

Module ListFacts.

Lemma in_list_In (c : string) (l : list string) :
  in_list c l = true <-> In c l.
Proof.
  unfold in_list. rewrite existsb_exists. split.
  - intros [x [Hin Heq]]. apply String.eqb_eq in Heq. now subst.
  - intro H. exists c. split; [exact H | apply String.eqb_refl].
Qed.

Lemma in_list_not_In (c : string) (l : list string) :
  in_list c l = false <-> ~ In c l.
Proof.
  rewrite <- in_list_In. destruct (in_list c l); split; congruence.
Qed.

Lemma unique_from_In (l seen : list string) (x : string) :
  In x (unique_from seen l) <-> In x l /\ ~ In x seen.
Proof.
  revert seen. induction l as [| y l IH]; intro seen; cbn.
  - tauto.
  - destruct (in_list y seen) eqn:E.
    + apply in_list_In in E. rewrite IH. split.
      * intros [H1 H2]. auto.
      * intros [[-> | H1] H2]; [contradiction | auto].
    + apply in_list_not_In in E. cbn. rewrite IH. cbn. split.
      * intros [-> | [H1 H2]]; [auto |]. split; [auto |]. tauto.
      * intros [[-> | H1] H2]; [auto |].
        destruct (string_dec y x) as [-> | Hne]; [auto |].
        right. split; [exact H1 |]. intros [? | ?]; contradiction.
Qed.

Lemma unique_from_NoDup (l seen : list string) : NoDup (unique_from seen l).
Proof.
  revert seen. induction l as [| y l IH]; intro seen; cbn.
  - constructor.
  - destruct (in_list y seen); [apply IH |].
    constructor; [| apply IH].
    rewrite unique_from_In. cbn. tauto.
Qed.

Lemma unique_from_ext (l seen seen' : list string) :
  (forall x, In x seen <-> In x seen') ->
  unique_from seen l = unique_from seen' l.
Proof.
  revert seen seen'. induction l as [| y l IH]; intros seen seen' H; cbn.
  - reflexivity.
  - assert (E : in_list y seen = in_list y seen').
    { destruct (in_list y seen) eqn:E1; symmetry.
      - apply in_list_In. apply H. now apply in_list_In.
      - apply in_list_not_In. rewrite <- H. now apply in_list_not_In. }
    rewrite <- E. destruct (in_list y seen).
    + now apply IH.
    + f_equal. apply IH. intro x. cbn. rewrite H. tauto.
Qed.

Lemma unique_from_app (a b seen : list string) :
  unique_from seen (a ++ b)
  = (unique_from seen a ++ unique_from (a ++ seen) b)%list.
Proof.
  revert seen. induction a as [| y a IH]; intro seen; cbn.
  - reflexivity.
  - destruct (in_list y seen) eqn:E.
    + rewrite IH. f_equal. apply unique_from_ext.
      apply in_list_In in E. intro x. cbn. rewrite !in_app_iff.
      split; [tauto |]. intros [-> | H]; tauto.
    + cbn. rewrite IH. do 2 f_equal. apply unique_from_ext.
      intro x. cbn. rewrite !in_app_iff. cbn. tauto.
Qed.

Lemma unique_from_covered (l seen : list string) :
  (forall x, In x l -> In x seen) -> unique_from seen l = [].
Proof.
  revert seen. induction l as [| y l IH]; intros seen H; cbn.
  - reflexivity.
  - rewrite (proj2 (in_list_In y seen)) by (apply H; now left).
    apply IH. intros x Hx. apply H. now right.
Qed.

Lemma unique_from_NoDup_id (l seen : list string) :
  NoDup l -> (forall x, In x l -> ~ In x seen) -> unique_from seen l = l.
Proof.
  revert seen. induction l as [| y l IH]; intros seen Hnd H; cbn.
  - reflexivity.
  - inversion Hnd as [| ? ? Hy Hl]; subst.
    rewrite (proj2 (in_list_not_In y seen)) by (apply H; now left).
    f_equal. apply IH; [exact Hl |].
    intros x Hx [-> | Hs]; [contradiction |].
    apply (H x); [now right | exact Hs].
Qed.

(** *** [take] *)


Lemma take_In {A : Type} (l : list A) (idx : list nat) (x : A) :
  In x (take l idx) -> In x l.
Proof.
  unfold take. rewrite in_flat_map. intros [i [_ H]].
  destruct (nth_error l i) as [y |] eqn:E; [| contradiction].
  destruct H as [<- | []]. eapply nth_error_In; eauto.
Qed.

Lemma take_map {A B : Type} (f : A -> B) (l : list A) (idx : list nat) :
  take (map f l) idx = map f (take l idx).
Proof.
  unfold take. induction idx as [| i idx IH]; cbn; [reflexivity |].
  rewrite map_app, IH. f_equal.
  rewrite nth_error_map. now destruct (nth_error l i).
Qed.

Lemma take_in_range {A : Type} (d : A) (l : list A) (idx : list nat) :
  (forall i, In i idx -> (i < length l)%nat) ->
  take l idx = map (fun i => nth i l d) idx.
Proof.
  unfold take. induction idx as [| i idx IH]; intro H; cbn; [reflexivity |].
  rewrite IH by (intros j Hj; apply H; now right).
  assert (Hi : (i < length l)%nat) by (apply H; now left).
  destruct (nth_error l i) as [x |] eqn:E.
  - cbn. f_equal. symmetry. now apply nth_error_nth.
  - apply nth_error_None in E. lia.
Qed.

Lemma map_nth_seq {A : Type} (d : A) (l : list A) :
  map (fun i => nth i l d) (seq 0 (length l)) = l.
Proof.
  induction l as [| x l IH]; cbn; [reflexivity |].
  f_equal. rewrite <- seq_shift, map_map. exact IH.
Qed.

Lemma take_seq {A : Type} (l : list A) : take l (seq 0 (length l)) = l.
Proof.
  destruct l as [| d l']; [reflexivity |].
  rewrite (take_in_range d).
  - apply map_nth_seq.
  - intros i Hi. apply in_seq in Hi. lia.
Qed.

Lemma take_Permutation {A : Type} (l : list A) (idx idx' : list nat) :
  Permutation idx idx' -> Permutation (take l idx) (take l idx').
Proof.
  unfold take. intro H. induction H; cbn.
  - constructor.
  - now apply Permutation_app_head.
  - rewrite !app_assoc. apply Permutation_app_tail, Permutation_app_comm.
  - etransitivity; eauto.
Qed.

Lemma take_perm_seq {A : Type} (l : list A) (idx : list nat) :
  Permutation idx (seq 0 (length l)) -> Permutation (take l idx) l.
Proof.
  intro H. rewrite (take_Permutation l _ _ H), take_seq. reflexivity.
Qed.



(** *** Masks *)

Lemma select_In {A : Type} (l : list A) (mask : list bool) (x : A) :
  In x (select l mask) -> In x l.
Proof.
  unfold select. rewrite in_map_iff. intros [[y b] [<- H]].
  apply filter_In in H. destruct H as [H _].
  now apply in_combine_l in H.
Qed.

Lemma select_cons {A : Type} (x : A) (l : list A) (b : bool)
    (mask : list bool) :
  select (x :: l) (b :: mask)
  = if b then x :: select l mask else select l mask.
Proof. unfold select. cbn. now destruct b. Qed.

Lemma select_nil_r {A : Type} (l : list A) : select l [] = [].
Proof. unfold select. now destruct l. Qed.

Lemma select_nil_l {A : Type} (mask : list bool) : select (@nil A) mask = [].
Proof. reflexivity. Qed.

Lemma select_map {A B : Type} (f : A -> B) (l : list A) (mask : list bool) :
  select (map f l) mask = map f (select l mask).
Proof.
  revert mask. induction l as [| x l IH]; intros [| b mask];
    try reflexivity.
  cbn [map]. rewrite !select_cons, IH. now destruct b.
Qed.

Lemma select_all {A : Type} (l : list A) (mask : list bool) :
  length mask = length l -> Forall (fun b => b = true) mask ->
  select l mask = l.
Proof.
  revert mask. induction l as [| x l IH]; intros [| b mask] Hlen Hall;
    try discriminate; [reflexivity |].
  inversion Hall; subst. rewrite select_cons. f_equal.
  apply IH; [cbn in Hlen; lia | assumption].
Qed.


End ListFacts.

(** ** Frames through the normalizer *)

Module FrameFacts.
Import ListFacts.

Lemma map_snd_combine_seq {A : Type} (l : list A) (start n : nat) :
  n = length l -> map snd (combine (seq start n) l) = l.
Proof.
  intros ->. revert start. induction l as [| x l IH]; intro start; cbn;
    [reflexivity | now rewrite IH].
Qed.

Lemma map_fst_combine_seq {A : Type} (l : list A) (start n : nat) :
  n = length l -> map fst (combine (seq start n) l) = seq start n.
Proof.
  intros ->. revert start. induction l as [| x l IH]; intro start; cbn;
    [reflexivity | now rewrite IH].
Qed.

(** *** [json_normalize] *)

Lemma json_normalize_columns_NoDup (movs : list dict) :
  NoDup (columns (json_normalize movs)).
Proof. apply unique_from_NoDup. Qed.

Lemma map_seq_nth {A B : Type} (g : A -> B) (l : list A) (d : A) :
  map (fun i => g (nth i l d)) (seq 0 (length l)) = map g l.
Proof.
  induction l as [| x l IH]; [reflexivity |].
  cbn [length]. rewrite <- cons_seq. cbn [map nth].
  rewrite <- seq_shift, map_map. cbn [nth]. now rewrite IH.
Qed.

(** The cell of a converted column, read by position. *)
Lemma maybe_convert_objects_nth (data : list dict) (c : string) (i : nat) :
  (i < length data)%nat ->
  nth i (maybe_convert_objects (map (fun r => cell_of r c) data)) VNull
  = stored data (nth i data []) c.
Proof.
  intro Hi. unfold maybe_convert_objects, stored.
  destruct (float64_column (map (fun r => cell_of r c) data)).
  - rewrite map_map.
    rewrite (nth_indep _ VNull (astype_float (cell_of [] c)))
      by (now rewrite length_map).
    apply (map_nth (fun r => astype_float (cell_of r c))).
  - rewrite (nth_indep _ VNull (cell_of [] c)) by (now rewrite length_map).
    apply (map_nth (fun r => cell_of r c)).
Qed.

(** The rows of [DataFrame(list_of_dicts)]: each record under the
    labels, every cell as its column stores it. *)
Lemma DataFrame_of_records_values (data : list dict) :
  values (DataFrame_of_records data)
  = map (fun r => map (stored data r) (columns (DataFrame_of_records data)))
      data.
Proof.
  unfold values, DataFrame_of_records. cbn [rows columns].
  rewrite map_snd_combine_seq by (now rewrite length_map, length_seq).
  rewrite <- (map_seq_nth
                (fun r => map (stored data r)
                            (fast_unique_multiple_list_gen (map keys data)))
                data []).
  apply map_ext_in. intros i Hi. apply in_seq in Hi.
  rewrite map_map. apply map_ext. intro c.
  apply maybe_convert_objects_nth. lia.
Qed.

Lemma DataFrame_of_records_index (data : list dict) :
  index (DataFrame_of_records data) = seq 0 (length data).
Proof.
  unfold index, DataFrame_of_records. cbn [rows].
  apply map_fst_combine_seq. now rewrite length_map, length_seq.
Qed.

Lemma rows_index_values (df : DataFrame) :
  rows df = combine (index df) (values df).
Proof.
  unfold index, values.
  induction (rows df) as [| [i cells] l IH]; cbn; [reflexivity |].
  now rewrite <- IH.
Qed.

Lemma json_normalize_values (movs : list dict) :
  values (json_normalize movs)
  = map (fun r => map (stored (_simple_json_normalize movs)
                         (_normalise_json_ordered r))
                      (columns (json_normalize movs))) movs.
Proof.
  unfold json_normalize. rewrite DataFrame_of_records_values.
  unfold _simple_json_normalize at 3. now rewrite map_map.
Qed.

Lemma astype_float_is_dict (v : value) :
  is_dict (astype_float v) = is_dict v.
Proof. now destruct v. Qed.

Lemma stored_is_dict (data : list dict) (r : dict) (c : string) :
  is_dict (stored data r c) = is_dict (cell_of r c).
Proof.
  unfold stored. destruct (float64_column _);
    [apply astype_float_is_dict | reflexivity].
Qed.



(** A cell that is not an integer is stored as it is. *)
Lemma stored_not_int (data : list dict) (r : dict) (c : string) :
  (forall n, cell_of r c <> VNum n) -> stored data r c = cell_of r c.
Proof.
  intro H. unfold stored. destruct (float64_column _); [| reflexivity].
  destruct (cell_of r c); try reflexivity. now destruct (H n).
Qed.

Lemma json_normalize_index (movs : list dict) :
  index (json_normalize movs) = seq 0 (length movs).
Proof.
  unfold index, json_normalize, DataFrame_of_records,
    _simple_json_normalize. cbn [rows columns].
  rewrite map_fst_combine_seq by (now rewrite !length_map, length_seq).
  now rewrite length_map.
Qed.

Lemma json_normalize_length (movs : list dict) :
  length (rows (json_normalize movs)) = length movs.
Proof.
  rewrite <- (length_map fst). fold (index (json_normalize movs)).
  now rewrite json_normalize_index, length_seq.
Qed.

(** *** The two renamings *)

Lemma renamed_rows (movs : list dict) :
  rows (renamed movs) = rows (json_normalize movs).
Proof.
  unfold renamed, rename_mapping, rename_date, rename.
  now destruct (date_cols (json_normalize movs)).
Qed.

Lemma lookup_label_filter (c : string) (m : list (string * string))
    (keep : string -> bool) :
  keep c = true ->
  lookup_label c (filter (fun kv => keep (fst kv)) m) = lookup_label c m.
Proof.
  intro Hc. induction m as [| [k v] m IH]; cbn; [reflexivity |].
  destruct (String.eqb c k) eqn:E.
  - apply String.eqb_eq in E. subst k. rewrite Hc. cbn.
    now rewrite String.eqb_refl.
  - destruct (keep k); cbn; [now rewrite E | exact IH].
Qed.

Lemma renamed_columns (movs : list dict) :
  columns (renamed movs)
  = map (final_label (hd_error (date_cols (json_normalize movs))))
        (columns (json_normalize movs)).
Proof.
  unfold renamed, rename_mapping.
  set (df1 := rename_date (json_normalize movs)).
  assert (H1 : columns df1
               = map (fun c => match hd_error (date_cols (json_normalize movs)) with
                               | Some c0 => if String.eqb c c0 then "Fecha" else c
                               | None => c
                               end) (columns (json_normalize movs))).
  { unfold df1, rename_date.
    destruct (date_cols (json_normalize movs)) as [| c0 rest]; cbn.
    - now rewrite map_id.
    - apply map_ext. intro c. unfold rename_label. cbn.
      now destruct (String.eqb c c0). }
  unfold rename. cbn [columns].
  transitivity (map (rename_label mapping) (columns df1)).
  - apply map_ext_in. intros c Hc. unfold rename_label.
    rewrite (lookup_label_filter c mapping (fun k => has_column k df1));
      [reflexivity |].
    unfold has_column. now apply in_list_In.
  - rewrite H1, map_map. apply map_ext. intro c. unfold final_label.
    destruct (hd_error (date_cols (json_normalize movs))) as [c0 |];
      [| reflexivity].
    now destruct (String.eqb c c0).
Qed.

End FrameFacts.

(** ** The stages of [estandarizar] *)

Section Pipeline.

Variable to_datetime : list value -> option (list (option Z)).
Variable argsort : list Z -> list nat.

Import ListFacts FrameFacts.

Lemma estandarizar_nonempty (movs : list dict) :
  movs <> [] ->
  estandarizar to_datetime argsort movs
  = (df <- parse_and_sort to_datetime argsort (renamed movs) ;;
     df <- drop_duplicates (key_cols df) df ;;
     Ok (reset_index df)).
Proof. destruct movs; [congruence | reflexivity]. Qed.

Lemma estandarizar_inv (movs : list dict) (df : DataFrame) :
  movs <> [] ->
  estandarizar to_datetime argsort movs = Ok df ->
  exists pre dd,
    parse_and_sort to_datetime argsort (renamed movs) = Ok pre /\
    drop_duplicates (key_cols pre) pre = Ok dd /\
    df = reset_index dd.
Proof.
  intros Hne H. rewrite (estandarizar_nonempty movs Hne) in H.
  destruct (parse_and_sort to_datetime argsort (renamed movs))
    as [pre | e] eqn:Hp; [| discriminate].
  cbn [bind] in H.
  destruct (drop_duplicates (key_cols pre) pre) as [dd | e] eqn:Hd;
    [| discriminate].
  cbn [bind] in H. injection H as <-. now exists pre, dd.
Qed.

Lemma parse_and_sort_inv (df pre : DataFrame) :
  parse_and_sort to_datetime argsort df = Ok pre ->
  (has_column "Fecha" df = false /\ pre = df) \/
  (has_column "Fecha" df = true /\
   count_occ string_dec (columns df) "Fecha" = 1%nat /\
   exists ts,
     to_datetime (column_values "Fecha" df) = Some ts /\
     pre = sort_values argsort "Fecha"
             (setitem "Fecha" (map time_cell ts) df)).
Proof.
  unfold parse_and_sort, getitem_series.
  destruct (has_column "Fecha" df); [| intro H; left; now injection H].
  destruct (Nat.eqb (count_occ string_dec (columns df) "Fecha") 1) eqn:E;
    [| discriminate].
  cbn [bind].
  destruct (to_datetime (column_values "Fecha" df)) as [ts |] eqn:Ets;
    [| discriminate].
  intro H. injection H as <-. right.
  apply Nat.eqb_eq in E. eauto.
Qed.

Lemma drop_duplicates_inv (subset : list string) (df dd : DataFrame) :
  drop_duplicates subset df = Ok dd ->
  (empty df = true /\ dd = df) \/
  (empty df = false /\ subset <> [] /\
   exists ids,
     group_index subset df = Ok ids /\
     dd = mkDataFrame (columns df)
            (select (rows df) (map negb (duplicated_from [] ids)))).
Proof.
  unfold drop_duplicates, duplicated.
  destruct (empty df); [intro H; left; now injection H |].
  destruct subset as [| c subset]; [discriminate |].
  destruct (group_index (c :: subset) df) as [ids |] eqn:Hg;
    [| discriminate].
  cbn [bind]. intro H. injection H as <-. right.
  split; [reflexivity |]. split; [discriminate |]. now exists ids.
Qed.

Lemma parse_and_sort_columns (df pre : DataFrame) :
  parse_and_sort to_datetime argsort df = Ok pre ->
  columns pre = columns df.
Proof.
  intro H. apply parse_and_sort_inv in H.
  destruct H as [[_ ->] | [_ [_ [ts [_ ->]]]]]; reflexivity.
Qed.

Lemma drop_duplicates_columns (subset : list string) (df dd : DataFrame) :
  drop_duplicates subset df = Ok dd -> columns dd = columns df.
Proof.
  intro H. apply drop_duplicates_inv in H.
  destruct H as [[_ ->] | [_ [_ [ids [_ ->]]]]]; reflexivity.
Qed.

Lemma drop_duplicates_rows (subset : list string) (df dd : DataFrame) :
  drop_duplicates subset df = Ok dd ->
  exists mask, rows dd = select (rows df) mask.
Proof.
  intro H. apply drop_duplicates_inv in H.
  destruct H as [[_ ->] | [_ [_ [ids [_ ->]]]]].
  - exists (repeat true (length (rows df))).
    symmetry. apply select_all.
    + apply repeat_length.
    + apply Forall_forall. intros b Hb. now apply repeat_spec in Hb.
  - eexists. reflexivity.
Qed.

Lemma reset_index_values (df : DataFrame) :
  values (reset_index df) = values df.
Proof.
  unfold reset_index, values at 1. cbn [rows].
  apply map_snd_combine_seq. unfold values. now rewrite length_map.
Qed.

Lemma reset_index_index (df : DataFrame) :
  index (reset_index df) = seq 0 (length (rows (reset_index df))).
Proof.
  unfold reset_index, index. cbn [rows].
  rewrite length_combine, length_seq.
  unfold values. rewrite length_map, Nat.min_id.
  apply map_fst_combine_seq. now rewrite length_map.
Qed.

Lemma estandarizar_columns (movs : list dict) (df : DataFrame) :
  movs <> [] ->
  estandarizar to_datetime argsort movs = Ok df ->
  columns df = columns (renamed movs).
Proof.
  intros Hne H.
  destruct (estandarizar_inv movs df Hne H) as (pre & dd & Hp & Hd & ->).
  cbn [reset_index columns].
  rewrite (drop_duplicates_columns _ _ _ Hd).
  apply (parse_and_sort_columns _ _ Hp).
Qed.

(** *** Cells *)

Lemma set_nth_other (n j : nat) (cells : list value) (v : value) :
  j <> n -> nth_error (set_nth n cells v) j = nth_error cells j.
Proof.
  revert j cells. induction n as [| n IH]; intros j cells Hj.
  - destruct cells; [reflexivity |]. destruct j; [congruence | reflexivity].
  - destruct cells as [| x cells]; [reflexivity |].
    destruct j as [| j]; [reflexivity |]. cbn. apply IH. congruence.
Qed.

Lemma set_nth_length (n : nat) (cells : list value) (v : value) :
  length (set_nth n cells v) = length cells.
Proof.
  revert cells. induction n as [| n IH]; intros [| x cells]; cbn;
    try reflexivity. now rewrite IH.
Qed.

Lemma assign_cells_In (pos : nat) (rs : list (nat * list value))
    (vals : list value) (r : nat * list value) :
  In r (assign_cells pos rs vals) ->
  exists cells v,
    In (fst r, cells) rs /\ snd r = set_nth pos cells v /\
    (v = VNull \/ In v vals).
Proof.
  revert vals. induction rs as [| [i cells] rs IH]; intro vals; cbn.
  - contradiction.
  - intros [<- | H].
    + exists cells, (hd VNull vals). cbn. split; [auto |]. split; [auto |].
      destruct vals; cbn; auto.
    + destruct (IH _ H) as (c & v & Hin & Heq & Hv). exists c, v.
      split; [auto |]. split; [auto |].
      destruct Hv as [Hv | Hv]; [auto |]. right.
      destruct vals; cbn in Hv; [contradiction | now right].
Qed.

Lemma position_nth_error (c : string) (cols : list string) :
  In c cols -> nth_error cols (position c cols) = Some c.
Proof.
  induction cols as [| c' cols IH]; cbn; [contradiction |].
  destruct (String.eqb c c') eqn:E.
  - apply String.eqb_eq in E. now subst.
  - intros [-> | H]; [now rewrite String.eqb_refl in E | now apply IH].
Qed.



End Pipeline.

(** ** Sorting by date *)

Module SortFacts.
Import ListFacts.

Lemma filter_map_S (p : nat -> bool) (l : list nat) :
  filter p (map S l) = map S (filter (fun i => p (S i)) l).
Proof.
  induction l as [| i l IH]; cbn; [reflexivity |].
  rewrite IH. now destruct (p (S i)).
Qed.

Lemma positions_where_cons (p : option Z -> bool) (x : option Z)
    (items : list (option Z)) :
  positions_where p (x :: items)
  = ((if p x then [O] else []) ++ map S (positions_where p items))%list.
Proof.
  unfold positions_where. cbn [length seq filter nth].
  rewrite <- seq_shift, filter_map_S. cbn [nth].
  now destruct (p x).
Qed.




Lemma positions_where_length (items : list (option Z)) :
  length (positions_where is_some items) = length (somes items).
Proof.
  induction items as [| x items IH]; [reflexivity |].
  rewrite positions_where_cons, length_app, length_map, IH.
  now destruct x.
Qed.


Lemma positions_where_partition (items : list (option Z)) :
  Permutation
    (positions_where is_some items
     ++ positions_where (fun o => negb (is_some o)) items)
    (seq 0 (length items)).
Proof.
  unfold positions_where.
  induction (seq 0 (length items)) as [| i l IH]; cbn; [constructor |].
  destruct (is_some (nth i items None)); cbn.
  - now constructor.
  - symmetry. apply Permutation_cons_app. now symmetry.
Qed.


Section Nargsort.

Variable argsort : list Z -> list nat.
Hypothesis argsort_ok : argsort_spec argsort.

Lemma nargsort_unfold (items : list (option Z)) :
  nargsort argsort items
  = (take (positions_where is_some items) (argsort (somes items))
     ++ positions_where (fun o => negb (is_some o)) items)%list.
Proof. reflexivity. Qed.

Lemma nargsort_Permutation (items : list (option Z)) :
  Permutation (nargsort argsort items) (seq 0 (length items)).
Proof.
  rewrite nargsort_unfold.
  rewrite <- positions_where_partition.
  apply Permutation_app_tail. apply take_perm_seq.
  rewrite positions_where_length. apply argsort_ok.
Qed.



Lemma sort_values_rows (c : string) (df : DataFrame) :
  Permutation (rows (sort_values argsort c df)) (rows df).
Proof.
  unfold sort_values. cbn [rows]. apply take_perm_seq.
  rewrite <- (length_map (fun r => nth (position c (columns df)) (snd r) VNull)).
  fold (column_values c df).
  rewrite <- (length_map time_key). apply nargsort_Permutation.
Qed.


End Nargsort.

End SortFacts.

(** ** Duplicates *)

Module DupFacts.
Import ListFacts.

Lemma label_eqb_eq (a b : label) : label_eqb a b = true <-> a = b.
Proof.
  destruct a, b; cbn; try (split; intro H; discriminate H).
  - split; reflexivity.
  - rewrite Z.eqb_eq. split; [intros ->; reflexivity | intro H].
    now injection H.
  - rewrite andb_true_iff, !Z.eqb_eq.
    split; [intros [-> ->]; reflexivity | intro H].
    injection H. auto.
  - split; intro H.
    + apply Bool.eqb_prop in H. now subst.
    + injection H as ->. apply Bool.eqb_reflx.
  - rewrite String.eqb_eq. split; [intros ->; reflexivity | intro H].
    now injection H.
  - rewrite Z.eqb_eq. split; [intros ->; reflexivity | intro H].
    now injection H.
Qed.

Lemma labels_eqb_eq (a b : list label) : labels_eqb a b = true <-> a = b.
Proof.
  revert b. induction a as [| x a IH]; intros [| y b]; cbn;
    try (split; [discriminate | discriminate]); [tauto |].
  rewrite andb_true_iff, label_eqb_eq, IH. split.
  - intros [-> ->]. reflexivity.
  - intro H. injection H as -> ->. auto.
Qed.

Lemma labels_eqb_refl (a : list label) : labels_eqb a a = true.
Proof. now apply labels_eqb_eq. Qed.

Lemma seen_In (k : list label) (seen : list (list label)) :
  existsb (labels_eqb k) seen = true <-> In k seen.
Proof.
  rewrite existsb_exists. split.
  - intros [x [Hin Heq]]. apply labels_eqb_eq in Heq. now subst.
  - intro H. exists k. split; [exact H | apply labels_eqb_refl].
Qed.

Lemma seen_not_In (k : list label) (seen : list (list label)) :
  existsb (labels_eqb k) seen = false <-> ~ In k seen.
Proof.
  rewrite <- seen_In. destruct (existsb (labels_eqb k) seen);
    split; congruence.
Qed.

Lemma mapM_inv {A B : Type} (f : A -> result B) (l : list A)
    (ys : list B) :
  mapM f l = Ok ys -> Forall2 (fun x y => f x = Ok y) l ys.
Proof.
  revert ys. induction l as [| x l IH]; intros ys H; cbn in H.
  - injection H as <-. constructor.
  - destruct (f x) as [y |] eqn:E; [| discriminate]. cbn [bind] in H.
    destruct (mapM f l) as [ys' |]; [| discriminate]. cbn [bind] in H.
    injection H as <-. constructor; [exact E | now apply IH].
Qed.

Lemma mapM_Ok {A B : Type} (f : A -> result B) (l : list A)
    (ys : list B) :
  Forall2 (fun x y => f x = Ok y) l ys -> mapM f l = Ok ys.
Proof.
  induction 1 as [| x y l ys Hxy _ IH]; cbn; [reflexivity |].
  now rewrite Hxy, IH.
Qed.

Lemma Forall2_In_l {A B : Type} (R : A -> B -> Prop) (l : list A)
    (l' : list B) (x : A) :
  Forall2 R l l' -> In x l -> exists y, In y l' /\ R x y.
Proof.
  induction 1 as [| a b l l' Hab _ IH]; cbn; [contradiction |].
  intros [<- | Hin]; [eauto |].
  destruct (IH Hin) as (y & Hy & Hxy). eauto.
Qed.


Lemma duplicated_from_length (ids seen : list (list label)) :
  length (duplicated_from seen ids) = length ids.
Proof.
  revert seen. induction ids as [| k ids IH]; intro seen; cbn;
    [reflexivity |].
  destruct (existsb (labels_eqb k) seen); cbn; now rewrite IH.
Qed.


(** Rows with pairwise different groups, none seen before, are all
    kept. *)
Lemma duplicated_from_NoDup (ids seen : list (list label)) :
  NoDup ids -> (forall k, In k ids -> ~ In k seen) ->
  Forall (fun b => b = true) (map negb (duplicated_from seen ids)).
Proof.
  revert seen. induction ids as [| k ids IH]; intros seen Hnd Hs; cbn.
  - constructor.
  - inversion Hnd as [| ? ? Hk Hids]; subst.
    rewrite (proj2 (seen_not_In k seen)) by (apply Hs; now left).
    cbn. constructor; [reflexivity |].
    apply IH; [exact Hids |].
    intros k' Hk' [<- | Hin]; [contradiction |].
    apply (Hs k'); [now right | exact Hin].
Qed.

(** The groups of the rows that are kept are pairwise different. *)
Lemma kept_ids_NoDup (ids seen : list (list label)) :
  NoDup (select ids (map negb (duplicated_from seen ids))) /\
  forall k, In k (select ids (map negb (duplicated_from seen ids))) ->
            ~ In k seen.
Proof.
  revert seen. induction ids as [| k ids IH]; intro seen.
  - cbn. split; [constructor | contradiction].
  - cbn [duplicated_from].
    destruct (existsb (labels_eqb k) seen) eqn:E; cbn [map negb];
      rewrite select_cons.
    + apply IH.
    + destruct (IH (k :: seen)) as [Hnd Hs]. split.
      * constructor; [| exact Hnd].
        intro Hin. apply (Hs k Hin). now left.
      * intros k' [<- | Hin]; [now apply seen_not_In |].
        intro Hk'. apply (Hs k' Hin). now right.
Qed.

End DupFacts.

(** ** The instances meet what is asked of the library functions *)

Module InstanceFacts.
Import ListFacts.

Lemma insert_key_Permutation (x : Z * nat) (l : list (Z * nat)) :
  Permutation (insert_key x l) (x :: l).
Proof.
  induction l as [| y l IH]; cbn; [reflexivity |].
  destruct (fst x <=? fst y); [reflexivity |].
  rewrite IH. apply perm_swap.
Qed.

Lemma isort_Permutation (l : list (Z * nat)) :
  Permutation (fold_right insert_key [] l) l.
Proof.
  induction l as [| x l IH]; cbn; [constructor |].
  rewrite insert_key_Permutation. now constructor.
Qed.

Lemma insert_key_sorted (x : Z * nat) (l : list (Z * nat)) :
  StronglySorted (fun a b => fst a <= fst b) l ->
  StronglySorted (fun a b => fst a <= fst b) (insert_key x l).
Proof.
  induction 1 as [| y l Hs IH Hall]; cbn.
  - constructor; constructor.
  - destruct (fst x <=? fst y) eqn:E.
    + apply Z.leb_le in E. constructor.
      * now constructor.
      * constructor; [exact E |].
        eapply Forall_impl; [| exact Hall]. cbn. intros a Ha. lia.
    + apply Z.leb_gt in E. constructor; [exact IH |].
      apply (Permutation_Forall (x := x :: l)).
      * symmetry. apply insert_key_Permutation.
      * constructor; [lia | exact Hall].
Qed.

Lemma isort_sorted (l : list (Z * nat)) :
  StronglySorted (fun a b => fst a <= fst b) (fold_right insert_key [] l).
Proof.
  induction l as [| x l IH]; cbn; [constructor |].
  now apply insert_key_sorted.
Qed.

Lemma combine_seq_nth_error (a : list Z) (start : nat) (x : Z) (i : nat) :
  In (x, i) (combine a (seq start (length a))) ->
  (start <= i)%nat /\ nth_error a (i - start) = Some x.
Proof.
  revert start. induction a as [| y a IH]; intro start; cbn.
  - contradiction.
  - intros [H | H].
    + injection H as -> ->. rewrite Nat.sub_diag. split; [lia | reflexivity].
    + apply IH in H. destruct H as [Hle Hn]. split; [lia |].
      replace (i - start)%nat with (S (i - S start)) by lia. exact Hn.
Qed.

Lemma take_positions (a : list Z) (ps : list (Z * nat)) :
  Forall (fun p => nth_error a (snd p) = Some (fst p)) ps ->
  take a (map snd ps) = map fst ps.
Proof.
  unfold take. induction 1 as [| p ps Hp _ IH]; cbn; [reflexivity |].
  now rewrite Hp, IH.
Qed.

Lemma map_snd_combine {A B : Type} (l : list A) (l' : list B) :
  length l = length l' -> map snd (combine l l') = l'.
Proof.
  revert l'. induction l as [| x l IH]; intros [| y l'] H;
    try discriminate; [reflexivity |].
  cbn. f_equal. apply IH. cbn in H. lia.
Qed.

Lemma sorted_map_fst (l : list (Z * nat)) :
  StronglySorted (fun a b => fst a <= fst b) l ->
  StronglySorted Z.le (map fst l).
Proof.
  induction 1 as [| p l _ IH Hall]; cbn; constructor; [exact IH |].
  apply Forall_map. exact Hall.
Qed.

Lemma argsort_stable_spec : argsort_spec argsort_stable.
Proof.
  intro a. unfold argsort_stable.
  set (ps := combine a (seq 0 (length a))).
  pose proof (isort_Permutation ps) as Hperm.
  split.
  - rewrite (Permutation_map snd Hperm). unfold ps.
    rewrite map_snd_combine by (now rewrite length_seq). reflexivity.
  - rewrite take_positions.
    + apply sorted_map_fst, isort_sorted.
    + apply (Permutation_Forall (x := ps)); [now symmetry |].
      apply Forall_forall. intros [x i] Hin. unfold ps in Hin.
      apply combine_seq_nth_error in Hin. destruct Hin as [_ Hn].
      now rewrite Nat.sub_0_r in Hn.
Qed.

Lemma to_datetime_iso_keeps_timestamps :
  to_datetime_keeps_timestamps to_datetime_iso.
Proof.
  intro ts. induction ts as [| t ts IH]; cbn; [reflexivity |].
  rewrite IH. now destruct t.
Qed.

End InstanceFacts.

(** ** The normalizer: empty input and column names *)

(** C7. For the empty input list the normalizer returns, without raising,
    the empty frame: no columns and no rows. *)
Theorem estandarizar_empty_input
    (to_datetime : list value -> option (list (option Z)))
    (argsort : list Z -> list nat) :
  estandarizar to_datetime argsort [] = Ok DataFrame_empty /\
  columns DataFrame_empty = [] /\
  rows DataFrame_empty = [] /\
  empty DataFrame_empty = true.
Proof. repeat split. Qed.

Module LabelFacts.
Import ListFacts.

(** None of the provider fields of [mapping] is date-like. *)
Lemma mapping_key_not_date (c v : string) :
  lookup_label c mapping = Some v -> is_date_label c = false.
Proof.
  unfold mapping. cbn [lookup_label].
  repeat match goal with
    | |- context [String.eqb c ?k] =>
        let E := fresh "E" in
        destruct (String.eqb c k) eqn:E;
          [apply String.eqb_eq in E; subst c; intros _; reflexivity |]
    end.
  discriminate.
Qed.

Lemma rename_label_date (c : string) :
  is_date_label c = true -> rename_label mapping c = c.
Proof.
  intro H. unfold rename_label.
  destruct (lookup_label c mapping) as [v |] eqn:E; [| reflexivity].
  apply mapping_key_not_date in E. congruence.
Qed.

(** No provider field is renamed to [Fecha]. *)
Lemma rename_label_Fecha (c : string) :
  rename_label mapping c = "Fecha" -> c = "Fecha".
Proof.
  unfold rename_label, mapping. cbn [lookup_label].
  repeat match goal with
    | |- context [String.eqb c ?k] =>
        let E := fresh "E" in
        destruct (String.eqb c k) eqn:E; [discriminate |]
    end.
  auto.
Qed.

(** A canonical name is not the name of a provider field. *)
Lemma rename_label_not_key (c : string) :
  lookup_label (rename_label mapping c) mapping = None.
Proof.
  unfold rename_label.
  destruct (lookup_label c mapping) as [v |] eqn:E; [| exact E].
  revert E. unfold mapping. cbn [lookup_label].
  repeat match goal with
    | |- context [String.eqb c ?k] =>
        let E := fresh "E" in
        destruct (String.eqb c k) eqn:E;
          [intro H; injection H as <-; reflexivity |]
    end.
  discriminate.
Qed.

Lemma filter_first {A : Type} (p : A -> bool) (l : list A) (x : A)
    (rest : list A) :
  filter p l = x :: rest ->
  exists before after,
    l = (before ++ x :: after)%list /\
    Forall (fun y => p y = false) before /\
    p x = true /\
    rest = filter p after.
Proof.
  induction l as [| y l IH]; cbn; [discriminate |].
  destruct (p y) eqn:E.
  - intro H. injection H as -> <-. exists [], l. cbn. auto.
  - intro H. destruct (IH H) as (b & a & -> & Hb & Hx & Hr).
    exists (y :: b), a. cbn. auto.
Qed.

End LabelFacts.

(** C6. For every non-empty input list, the column renamed to [Fecha] is
    exactly the first one, in column order, whose name contains "date"
    whatever the case: it sits where that column sat, no column before it
    is date-like, every other date-like column keeps its name, and no
    other column is renamed to [Fecha].  If no column is date-like, no
    column is renamed to [Fecha]: there is a [Fecha] column only if the
    records had a field of that name.  These are the column labels of
    every frame the normalizer returns. *)
Theorem estandarizar_renames_first_date_column
    (to_datetime : list value -> option (list (option Z)))
    (argsort : list Z -> list nat)
    (movs : list dict) :
  movs <> [] ->
  let cols := columns (json_normalize movs) in
  let out := columns (renamed movs) in
  (forall df, estandarizar to_datetime argsort movs = Ok df ->
              columns df = out) /\
  length out = length cols /\
  match date_cols (json_normalize movs) with
  | [] =>
      (forall i c, nth_error cols i = Some c ->
                   nth_error out i = Some (rename_label mapping c)) /\
      (In "Fecha" out -> In "Fecha" cols)
  | c0 :: others =>
      exists i0,
        nth_error cols i0 = Some c0 /\
        is_date_label c0 = true /\
        (forall j c, (j < i0)%nat -> nth_error cols j = Some c ->
                     is_date_label c = false) /\
        nth_error out i0 = Some "Fecha" /\
        (forall i c, i <> i0 -> nth_error cols i = Some c ->
                     nth_error out i = Some (rename_label mapping c) /\
                     (is_date_label c = true -> nth_error out i = Some c) /\
                     (nth_error out i = Some "Fecha" -> c = "Fecha"))
  end.
Proof.
  intros Hne cols out.
  split; [intros df H; now apply (estandarizar_columns _ _ movs df Hne H) |].
  assert (Hcols : out = map (final_label (hd_error (date_cols (json_normalize movs)))) cols)
    by apply FrameFacts.renamed_columns.
  split; [now rewrite Hcols, length_map |].
  pose proof (FrameFacts.json_normalize_columns_NoDup movs) as Hnd.
  fold cols in Hnd.
  unfold date_cols in *. fold cols in Hcols |- *.
  destruct (filter is_date_label cols) as [| c0 others] eqn:Ed;
    cbn [hd_error final_label] in Hcols.
  - split.
    + intros i c Hi. now rewrite Hcols, nth_error_map, Hi.
    + rewrite Hcols, in_map_iff. intros [c [Hc Hin]].
      apply LabelFacts.rename_label_Fecha in Hc. now subst.
  - destruct (LabelFacts.filter_first _ _ _ _ Ed)
      as (before & after & Hsplit & Hbefore & Hc0 & _).
    exists (length before).
    assert (Hi0 : nth_error cols (length before) = Some c0).
    { rewrite Hsplit, nth_error_app2, Nat.sub_diag by lia. reflexivity. }
    split; [exact Hi0 |]. split; [exact Hc0 |]. split; [| split].
    + intros j c Hj Hjc. rewrite Hsplit, nth_error_app1 in Hjc by exact Hj.
      apply nth_error_In in Hjc.
      rewrite Forall_forall in Hbefore. now apply Hbefore.
    + rewrite Hcols, nth_error_map, Hi0. cbn. now rewrite String.eqb_refl.
    + intros i c Hi Hic.
      assert (Hne0 : String.eqb c c0 = false).
      { apply String.eqb_neq. intros ->. apply Hi.
        apply (proj1 (NoDup_nth_error cols) Hnd).
        - apply nth_error_Some. congruence.
        - congruence. }
      assert (Hout : nth_error out i = Some (rename_label mapping c)).
      { rewrite Hcols, nth_error_map, Hic. cbn. now rewrite Hne0. }
      split; [exact Hout |]. split.
      * intro Hd. now rewrite Hout, LabelFacts.rename_label_date.
      * rewrite Hout. intro Hf. injection Hf as Hf.
        now apply LabelFacts.rename_label_Fecha.
Qed.

Lemma estandarizar_renames_first_date_column_witness :
  exists df,
    estandarizar to_datetime_iso argsort_stable demo_two_dates = Ok df /\
    nth_error (columns df) 0 = Some "Fecha" /\
    nth_error (columns df) 2 = Some "valueDate".
Proof.
  eexists. split; [reflexivity |].
  assert (Hne : demo_two_dates <> []) by discriminate.
  pose proof (estandarizar_renames_first_date_column
                to_datetime_iso argsort_stable demo_two_dates Hne)
    as H.
  cbv zeta in H. destruct H as [Hdf [_ H]].
  rewrite (Hdf _ eq_refl).
  change (date_cols (json_normalize demo_two_dates))
    with ["bookingDate"; "valueDate"] in H.
  destruct H as (i0 & Hi0 & _ & _ & Hf & Hother).
  assert (E : i0 = O).
  { destruct i0 as [| [| [| i0]]]; [reflexivity | | |];
      vm_compute in Hi0; try discriminate.
    destruct i0; discriminate. }
  subst i0. split; [exact Hf |].
  apply (Hother 2%nat "valueDate"); [discriminate | reflexivity | reflexivity].
Defined.

(** ** The normalizer: rows *)

Module RowFacts.
Import ListFacts FrameFacts.




Lemma key_cols_In (c : string) (df : DataFrame) :
  In c (key_cols df) <-> In c KEY_COLUMNS /\ In c (columns df).
Proof.
  unfold key_cols. rewrite filter_In. unfold has_column.
  now rewrite in_list_In.
Qed.

Lemma key_cols_columns (df df' : DataFrame) :
  columns df = columns df' -> key_cols df = key_cols df'.
Proof.
  intro H. unfold key_cols. apply filter_ext. intro c.
  unfold has_column. now rewrite H.
Qed.

Lemma column_values_values (c : string) (df : DataFrame) :
  column_values c df
  = map (fun cells => nth (position c (columns df)) cells VNull) (values df).
Proof. unfold column_values, values. now rewrite map_map. Qed.

Lemma assign_cells_index (pos : nat) (rs : list (nat * list value))
    (vals : list value) :
  map fst (assign_cells pos rs vals) = map fst rs.
Proof.
  revert vals. induction rs as [| [i cells] rs IH]; intro vals; cbn;
    [reflexivity | now rewrite IH].
Qed.

Lemma empty_false (df : DataFrame) :
  columns df <> [] -> rows df <> [] -> empty df = false.
Proof.
  unfold empty. destruct (columns df), (rows df); congruence.
Qed.

Lemma renamed_rows_nonempty (movs : list dict) :
  movs <> [] -> rows (renamed movs) <> [].
Proof.
  intros Hne Hr. rewrite renamed_rows in Hr.
  pose proof (json_normalize_length movs) as Hl. rewrite Hr in Hl.
  destruct movs; [congruence | discriminate].
Qed.

Lemma renamed_values (movs : list dict) :
  values (renamed movs) = values (json_normalize movs).
Proof. unfold values. now rewrite renamed_rows. Qed.

End RowFacts.

(** ** Dictionaries and re-flattening *)

Module DictFacts.
Import ListFacts.

Lemma dict_set_fresh (d : dict) (k : string) (v : value) :
  ~ In k (keys d) -> dict_set d k v = (d ++ [(k, v)])%list.
Proof.
  induction d as [| [k' v'] d IH]; cbn; intro H; [reflexivity |].
  destruct (String.eqb k k') eqn:E.
  - apply String.eqb_eq in E. subst. tauto.
  - f_equal. apply IH. tauto.
Qed.

Lemma dict_update_fresh (items : list (string * value)) (d : dict) :
  NoDup (keys d ++ keys items) -> dict_update d items = (d ++ items)%list.
Proof.
  unfold dict_update. revert d.
  induction items as [| [k v] items IH]; intros d H; cbn.
  - now rewrite app_nil_r.
  - cbn in H. rewrite dict_set_fresh.
    + rewrite IH; [now rewrite <- app_assoc |].
      unfold keys in *. rewrite map_app, <- app_assoc. exact H.
    + apply NoDup_remove_2 in H. intro Hin. apply H.
      apply in_or_app. now left.
Qed.

Lemma dict_of_items_fresh (items : list (string * value)) :
  NoDup (keys items) -> dict_of_items items = items.
Proof. intro H. unfold dict_of_items. now rewrite dict_update_fresh. Qed.

Lemma filter_all {A : Type} (f : A -> bool) (l : list A) :
  (forall x, In x l -> f x = true) -> filter f l = l.
Proof.
  induction l as [| x l IH]; cbn; intro H; [reflexivity |].
  rewrite H by now left. f_equal. apply IH. intros y Hy. apply H. now right.
Qed.

Lemma filter_none {A : Type} (f : A -> bool) (l : list A) :
  (forall x, In x l -> f x = false) -> filter f l = [].
Proof.
  induction l as [| x l IH]; cbn; intro H; [reflexivity |].
  rewrite H by now left. apply IH. intros y Hy. apply H. now right.
Qed.

(** A record that is already flat goes through the flattening
    unchanged. *)
Lemma normalise_flat (d : dict) :
  NoDup (keys d) ->
  (forall kv, In kv d -> is_dict (snd kv) = false) ->
  _normalise_json_ordered d = d.
Proof.
  intros Hnd Hflat. unfold _normalise_json_ordered.
  rewrite (filter_all (fun kv => negb (is_dict (snd kv)))).
  - rewrite (filter_none (fun kv => is_dict (snd kv))) by exact Hflat.
    cbn. now apply dict_of_items_fresh.
  - intros kv Hkv. now rewrite Hflat.
Qed.

Lemma keys_combine (cols : list string) (cells : list value) :
  length cells = length cols -> keys (combine cols cells) = cols.
Proof.
  revert cells. induction cols as [| c cols IH]; intros [| v cells] H;
    try discriminate; [reflexivity |].
  cbn. f_equal. apply IH. cbn in H. lia.
Qed.

Lemma cell_of_combine (cols : list string) (cells : list value) :
  NoDup cols -> length cells = length cols ->
  map (cell_of (combine cols cells)) cols = cells.
Proof.
  revert cells. induction cols as [| c cols IH]; intros [| v cells] Hnd H;
    try discriminate; [reflexivity |].
  inversion Hnd as [| ? ? Hc Hcols]; subst.
  cbn [combine map]. f_equal.
  - unfold cell_of. cbn. now rewrite String.eqb_refl.
  - rewrite <- (IH cells Hcols) at 2 by (cbn in H; lia).
    apply map_ext_in. intros c' Hc'. unfold cell_of. cbn.
    destruct (String.eqb c' c) eqn:E; [| reflexivity].
    apply String.eqb_eq in E. subst. contradiction.
Qed.

Lemma unique_concat_const {A : Type} (cols : list string) (vs : list A) :
  vs <> [] -> NoDup cols ->
  unique_from [] (concat (map (fun _ => cols) vs)) = cols.
Proof.
  intros Hne Hnd. destruct vs as [| v vs]; [congruence |].
  cbn [map concat]. rewrite unique_from_app.
  rewrite unique_from_NoDup_id by (auto; intros x _ []).
  rewrite unique_from_covered; [apply app_nil_r |].
  intros x Hx. apply in_concat in Hx. destruct Hx as [l [Hl Hx]].
  apply in_map_iff in Hl. destruct Hl as [_ [<- _]].
  apply in_or_app. now left.
Qed.

Lemma cell_of_combine_nth (cols : list string) (cells : list value)
    (c : string) :
  length cells = length cols ->
  cell_of (combine cols cells) c = nth (position c cols) cells VNull.
Proof.
  revert cells. induction cols as [| c' cols IH]; intros [| v cells] H;
    try discriminate; [reflexivity |].
  unfold cell_of. cbn. destruct (String.eqb c c'); [reflexivity |].
  apply IH. cbn in H. lia.
Qed.

Lemma map_fixed {A : Type} (f : A -> A) (l : list A) :
  map f l = l -> forall x, In x l -> f x = x.
Proof.
  induction l as [| y l IH]; cbn; [intros _ x [] |].
  intro H. injection H as Hy Hl. intros x [<- | Hx]; auto.
Qed.

(** Reading back the records of a frame with distinct labels, rows of
    the right width, no dictionary in a cell and columns that are
    stored as they are gives the frame again, under the default
    index. *)
Lemma json_normalize_to_records (df : DataFrame) :
  NoDup (columns df) ->
  rows df <> [] ->
  (forall cells, In cells (values df) ->
                 length cells = length (columns df) /\
                 Forall (fun v => is_dict v = false) cells) ->
  storage_stable df ->
  json_normalize (to_records df)
  = mkDataFrame (columns df)
      (combine (seq 0 (length (rows df))) (values df)).
Proof.
  intros Hnd Hne Hwf Hst.
  assert (Hrec : to_records df = map (combine (columns df)) (values df)).
  { unfold to_records, values. rewrite map_map. apply map_ext_in.
    intros r Hr. apply dict_of_items_fresh. rewrite keys_combine; [exact Hnd |].
    apply Hwf. unfold values. now apply in_map. }
  assert (Hflat : _simple_json_normalize (to_records df) = to_records df).
  { unfold _simple_json_normalize. rewrite Hrec, map_map.
    apply map_ext_in. intros cells Hc. destruct (Hwf cells Hc) as [Hl Hd].
    apply normalise_flat.
    - now rewrite keys_combine.
    - intros kv Hkv. destruct kv as [k v]. apply in_combine_r in Hkv.
      rewrite Forall_forall in Hd. now apply Hd. }
  assert (Hcols : fast_unique_multiple_list_gen (map keys (to_records df))
                  = columns df).
  { unfold fast_unique_multiple_list_gen. rewrite Hrec, map_map.
    rewrite (map_ext_in _ (fun _ => columns df)).
    - apply unique_concat_const; [| exact Hnd].
      unfold values. intro E. apply map_eq_nil in E. contradiction.
    - intros cells Hc. apply keys_combine. now apply Hwf. }
  assert (Hcolumn : forall c,
             map (fun r => cell_of r c) (to_records df)
             = column_values c df).
  { intro c. rewrite Hrec, map_map. unfold column_values, values.
    rewrite map_map. apply map_ext_in. intros r Hr.
    apply cell_of_combine_nth. apply Hwf. unfold values. now apply in_map. }
  unfold json_normalize. rewrite Hflat.
  assert (Hc : columns (DataFrame_of_records (to_records df)) = columns df)
    by exact Hcols.
  assert (Hlen : length (to_records df) = length (rows df))
    by (unfold to_records; apply length_map).
  assert (Hv : values (DataFrame_of_records (to_records df)) = values df).
  { rewrite FrameFacts.DataFrame_of_records_values, Hc.
    replace (map (fun r => map (stored (to_records df) r) (columns df))
               (to_records df))
      with (map (fun r => map (stored (to_records df) r) (columns df))
              (map (combine (columns df)) (values df)))
      by (now rewrite <- Hrec).
    rewrite map_map.
    rewrite <- (map_id (values df)) at 2. apply map_ext_in.
    intros cells Hcells. destruct (Hwf cells Hcells) as [Hl _].
    rewrite <- (cell_of_combine (columns df) cells Hnd Hl) at 2.
    apply map_ext_in. intros c Hcin. unfold stored.
    rewrite Hcolumn.
    destruct (float64_column (column_values c df)) eqn:Ef; [| reflexivity].
    pose proof (Hst c Hcin) as Hs.
    unfold maybe_convert_objects in Hs. rewrite Ef in Hs.
    apply (map_fixed _ _ Hs).
    rewrite cell_of_combine_nth by exact Hl.
    unfold column_values. apply in_map_iff.
    unfold values in Hcells. apply in_map_iff in Hcells.
    destruct Hcells as [r [<- Hr]]. now exists r. }
  pose proof (FrameFacts.rows_index_values
                (DataFrame_of_records (to_records df))) as Hr.
  rewrite FrameFacts.DataFrame_of_records_index, Hv, Hlen in Hr.
  destruct (DataFrame_of_records (to_records df)) as [cols rs].
  cbn [columns rows] in Hc, Hr. now subst.
Qed.

End DictFacts.

(** ** What every output of the normalizer satisfies *)

Module OutputFacts.
Import ListFacts FrameFacts.

Lemma dict_set_flat (d : dict) (k : string) (v : value) :
  flat_dict d -> is_dict v = false -> flat_dict (dict_set d k v).
Proof.
  unfold flat_dict. induction 1 as [| [k' v'] d Hkv Hd IH]; cbn; intro Hv.
  - constructor; [exact Hv | constructor].
  - destruct (String.eqb k k'); constructor; auto.
Qed.

Lemma dict_update_flat (items : list (string * value)) (d : dict) :
  flat_dict d -> flat_dict items -> flat_dict (dict_update d items).
Proof.
  unfold dict_update. revert d.
  induction items as [| [k v] items IH]; intros d Hd Hi; cbn;
    [exact Hd |].
  inversion Hi; subst. apply IH; [| assumption].
  now apply dict_set_flat.
Qed.

(** [_normalise_json] only writes leaves. *)
Lemma normalise_json_flat :
  forall (data : value) (key_string : string) (nd : dict),
    flat_dict nd -> flat_dict (_normalise_json data key_string nd).
Proof.
  fix IH 1. intros data key_string nd Hnd.
  destruct data as [| b | n | f | s | t | l | items];
    try (apply dict_set_flat; [exact Hnd | reflexivity]).
  cbn [_normalise_json]. revert nd Hnd.
  induction items as [| [k v] rest IHrest]; intros nd Hnd.
  - exact Hnd.
  - apply IHrest. apply IH. exact Hnd.
Qed.

Lemma normalise_json_ordered_flat (r : dict) :
  flat_dict (_normalise_json_ordered r).
Proof.
  unfold _normalise_json_ordered. apply dict_update_flat.
  - unfold dict_of_items. apply dict_update_flat; [constructor |].
    apply Forall_forall. intros kv Hkv. apply filter_In in Hkv.
    destruct Hkv as [_ Hkv]. now apply negb_true_iff in Hkv.
  - apply normalise_json_flat. constructor.
Qed.

Lemma dict_get_In (c : string) (d : dict) (v : value) :
  dict_get c d = Some v -> In (c, v) d.
Proof.
  induction d as [| [k x] d IH]; cbn; [discriminate |].
  destruct (String.eqb c k) eqn:E.
  - apply String.eqb_eq in E. intro H. injection H as ->. subst. now left.
  - intro H. right. now apply IH.
Qed.

Lemma cell_of_flat (d : dict) (c : string) :
  flat_dict d -> is_dict (cell_of d c) = false.
Proof.
  intro Hd. unfold cell_of.
  destruct (dict_get c d) as [v |] eqn:E; [| reflexivity].
  apply dict_get_In in E. unfold flat_dict in Hd.
  rewrite Forall_forall in Hd. apply (Hd (c, v) E).
Qed.

Lemma json_normalize_cells (movs : list dict) (cells : list value) :
  In cells (values (json_normalize movs)) ->
  length cells = length (columns (json_normalize movs)) /\
  Forall (fun v => is_dict v = false) cells.
Proof.
  rewrite json_normalize_values, in_map_iff. intros [r [<- _]].
  split; [apply length_map |].
  apply Forall_map, Forall_forall. intros c _.
  rewrite stored_is_dict.
  apply cell_of_flat, normalise_json_ordered_flat.
Qed.

Lemma set_nth_Forall (P : value -> Prop) (n : nat) (cells : list value)
    (v : value) :
  Forall P cells -> P v -> Forall P (set_nth n cells v).
Proof.
  intros Hc Hv. revert n. induction Hc as [| x cells Hx Hcs IH]; intro n.
  - destruct n; constructor.
  - destruct n; cbn; constructor; auto.
Qed.

Lemma set_nth_nth (n : nat) (cells : list value) (v : value) :
  nth n (set_nth n cells v) VNull = v \/
  nth n (set_nth n cells v) VNull = VNull.
Proof.
  revert cells. induction n as [| n IH]; intros [| x cells]; cbn; auto.
Qed.

Lemma set_nth_same (n : nat) (cells : list value) :
  set_nth n cells (nth n cells VNull) = cells.
Proof.
  revert cells. induction n as [| n IH]; intros [| x cells]; cbn;
    try reflexivity. now rewrite IH.
Qed.

Lemma time_cell_flat (t : option Z) : is_dict (time_cell t) = false.
Proof. now destruct t. Qed.


Lemma empty_reset_index (df : DataFrame) :
  empty (reset_index df) = empty df.
Proof.
  unfold empty, reset_index. cbn [columns rows].
  destruct (columns df); [reflexivity |].
  unfold values. now destruct (rows df).
Qed.

Lemma reset_index_length (df : DataFrame) :
  length (rows (reset_index df)) = length (rows df).
Proof.
  unfold reset_index, values. cbn [rows].
  rewrite length_combine, length_seq, length_map. apply Nat.min_id.
Qed.

Lemma group_index_reset_index (K : list string) (df : DataFrame) :
  group_index K (reset_index df) = group_index K df.
Proof.
  unfold group_index. now rewrite reset_index_values.
Qed.

Lemma mapM_select {A B : Type} (f : A -> result B) (l : list A)
    (ys : list B) (mask : list bool) :
  mapM f l = Ok ys -> mapM f (select l mask) = Ok (select ys mask).
Proof.
  intro H. apply DupFacts.mapM_inv in H. apply DupFacts.mapM_Ok.
  revert mask. induction H as [| x y l ys Hxy _ IH]; intro mask.
  - rewrite !select_nil_l. constructor.
  - destruct mask as [| b mask]; [rewrite !select_nil_r; constructor |].
    rewrite !select_cons. destruct b; [constructor |]; auto.
Qed.

End OutputFacts.

Section Output.

Variable to_datetime : list value -> option (list (option Z)).
Variable argsort : list Z -> list nat.
Hypothesis argsort_ok : argsort_spec argsort.

Import ListFacts FrameFacts OutputFacts.

Lemma renamed_columns_length (movs : list dict) :
  length (columns (renamed movs)) = length (columns (json_normalize movs)).
Proof. now rewrite renamed_columns, length_map. Qed.

(** The rows that reach [drop_duplicates]. *)
Lemma pre_row (movs : list dict) (pre : DataFrame)
    (r : nat * list value) :
  parse_and_sort to_datetime argsort (renamed movs) = Ok pre ->
  In r (rows pre) ->
  length (snd r) = length (columns pre) /\
  Forall (fun v => is_dict v = false) (snd r) /\
  (has_column "Fecha" pre = true ->
   exists t, nth (position "Fecha" (columns pre)) (snd r) VNull
             = time_cell t).
Proof.
  intros Hp Hr.
  pose proof (parse_and_sort_columns _ _ _ _ Hp) as Hcols.
  apply parse_and_sort_inv in Hp.
  destruct Hp as [[Hf ->] | (Hf & _ & ts & _ & ->)].
  - rewrite renamed_rows in Hr.
    assert (Hv : In (snd r) (values (json_normalize movs))).
    { unfold values. now apply in_map. }
    apply json_normalize_cells in Hv. destruct Hv as [Hl Hd].
    split; [now rewrite renamed_columns_length |].
    split; [exact Hd | congruence].
  - unfold sort_values in Hr. cbn [rows] in Hr. apply take_In in Hr.
    unfold setitem in Hr. cbn [rows columns] in Hr.
    apply assign_cells_In in Hr.
    destruct Hr as (cells & v & Hin & Heq & Hv).
    assert (Ht : exists t, v = time_cell t).
    { destruct Hv as [-> | Hv]; [now exists None |].
      apply in_map_iff in Hv. destruct Hv as [t [<- _]]. now exists t. }
    destruct Ht as [t ->].
    rewrite renamed_rows in Hin.
    assert (Hc : In cells (values (json_normalize movs))).
    { unfold values. apply in_map_iff. now exists (fst r, cells). }
    apply json_normalize_cells in Hc. destruct Hc as [Hl Hd].
    rewrite Heq. cbn [sort_values setitem columns].
    split; [now rewrite set_nth_length, renamed_columns_length |].
    split; [apply set_nth_Forall; [exact Hd | apply time_cell_flat] |].
    intros _.
    destruct (set_nth_nth (position "Fecha" (columns (renamed movs)))
                cells (time_cell t)) as [-> | ->];
      [now exists t | now exists None].
Qed.



Lemma pre_rows_length (movs : list dict) (pre : DataFrame) :
  parse_and_sort to_datetime argsort (renamed movs) = Ok pre ->
  length (rows pre) = length movs.
Proof.
  intro Hp. apply parse_and_sort_inv in Hp.
  destruct Hp as [[_ ->] | (_ & _ & ts & _ & ->)].
  - rewrite renamed_rows. apply json_normalize_length.
  - rewrite (Permutation_length (SortFacts.sort_values_rows _ argsort_ok _ _)).
    unfold setitem. cbn [rows].
    rewrite <- (length_map fst), RowFacts.assign_cells_index, length_map.
    rewrite renamed_rows. apply json_normalize_length.
Qed.

Lemma renamed_no_provider_field (movs : list dict) (c : string) :
  In c (columns (renamed movs)) -> lookup_label c mapping = None.
Proof.
  rewrite renamed_columns, in_map_iff. intros [c0 [<- _]].
  unfold final_label.
  destruct (hd_error (date_cols (json_normalize movs))) as [d |];
    [| apply LabelFacts.rename_label_not_key].
  destruct (String.eqb c0 d); [reflexivity |].
  apply LabelFacts.rename_label_not_key.
Qed.

(** What every output of a non-empty input satisfies. *)
Lemma estandarizar_output (movs : list dict) (df : DataFrame) :
  movs <> [] ->
  estandarizar to_datetime argsort movs = Ok df ->
  rows df <> [] /\
  index df = seq 0 (length (rows df)) /\
  (forall cells, In cells (values df) ->
                 length cells = length (columns df) /\
                 Forall (fun v => is_dict v = false) cells) /\
  (forall c, In c (columns df) -> lookup_label c mapping = None) /\
  (has_column "Fecha" df = true ->
   forall cells, In cells (values df) ->
     exists t, nth (position "Fecha" (columns df)) cells VNull
               = time_cell t) /\
  (empty df = false ->
   key_cols df <> [] /\
   exists ids, group_index (key_cols df) df = Ok ids /\ NoDup ids).
Proof.
  intros Hne H.
  pose proof (estandarizar_columns _ _ movs df Hne H) as Hcols.
  destruct (estandarizar_inv _ _ movs df Hne H) as (pre & dd & Hp & Hd & ->).
  pose proof (parse_and_sort_columns _ _ _ _ Hp) as Hpc.
  pose proof (drop_duplicates_columns _ _ _ Hd) as Hdc.
  destruct (drop_duplicates_rows _ _ _ Hd) as [mask Hmask].
  assert (Hrow : forall cells, In cells (values (reset_index dd)) ->
                   exists r, In r (rows pre) /\ snd r = cells).
  { intros cells Hc. rewrite reset_index_values in Hc.
    unfold values in Hc. rewrite Hmask in Hc.
    apply in_map_iff in Hc. destruct Hc as [r [<- Hr]].
    apply select_In in Hr. eauto. }
  assert (Hprows : rows pre <> []).
  { intro E. pose proof (pre_rows_length movs pre Hp) as Hl.
    rewrite E in Hl. destruct movs; [congruence | discriminate]. }
  assert (Hddrows : rows dd <> []).
  { pose proof Hd as Hd'. apply drop_duplicates_inv in Hd'.
    destruct Hd' as [[_ ->] | (_ & _ & ids & Hg & ->)]; [exact Hprows |].
    cbn [rows]. unfold group_index in Hg. apply DupFacts.mapM_inv in Hg.
    unfold values in Hg.
    destruct (rows pre) as [| r rs]; [congruence |].
    cbn [map] in Hg. inversion Hg; subst.
    cbn [duplicated_from existsb map negb]. rewrite select_cons.
    discriminate. }
  split; [| split; [apply reset_index_index | split; [| split; [| split]]]].
  - intro E. apply Hddrows. apply length_zero_iff_nil.
    rewrite <- reset_index_length, E. reflexivity.
  - intros cells Hc. destruct (Hrow cells Hc) as (r & Hr & <-).
    destruct (pre_row movs pre r Hp Hr) as (Hl & Hf & _).
    cbn [reset_index columns]. rewrite Hdc. auto.
  - intros c Hc. rewrite Hcols in Hc.
    now apply (renamed_no_provider_field movs).
  - intros Hf cells Hc. destruct (Hrow cells Hc) as (r & Hr & <-).
    destruct (pre_row movs pre r Hp Hr) as (_ & _ & Ht).
    unfold has_column in *. cbn [reset_index columns] in *.
    rewrite Hdc in *. apply Ht. exact Hf.
  - intro He. rewrite empty_reset_index in He.
    assert (HK : key_cols (reset_index dd) = key_cols pre).
    { apply RowFacts.key_cols_columns. cbn [reset_index columns].
      exact Hdc. }
    rewrite HK, group_index_reset_index.
    pose proof Hd as Hd'. apply drop_duplicates_inv in Hd'.
    destruct Hd' as [[He' ->] | (_ & HKne & ids & Hg & ->)];
      [congruence |].
    split; [exact HKne |].
    exists (select ids (map negb (duplicated_from [] ids))). split.
    + unfold group_index in *. cbn [columns].
      unfold values at 1. cbn [rows]. rewrite <- select_map.
      fold (values pre). now apply mapM_select.
    + apply DupFacts.kept_ids_NoDup.
Qed.

End Output.

(** ** The typed date column *)

Module TypedFacts.
Import ListFacts FrameFacts OutputFacts.






Section Typed.

Variable to_datetime : list value -> option (list (option Z)).
Variable argsort : list Z -> list nat.
Hypothesis argsort_ok : argsort_spec argsort.



End Typed.

End TypedFacts.

(** ** The normalizer: order and duplicates *)





(** ** The normalizer: fields outside the known mapping *)




(** ** Normalizing twice *)

Module SecondPassFacts.
Import ListFacts FrameFacts OutputFacts.

Lemma combine_fst_snd {A B : Type} (l : list (A * B)) :
  combine (map fst l) (map snd l) = l.
Proof.
  induction l as [| [a b] l IH]; cbn; [reflexivity | now rewrite IH].
Qed.

Lemma DataFrame_eq (a b : DataFrame) :
  columns a = columns b -> rows a = rows b -> a = b.
Proof. destruct a, b. cbn. now intros -> ->. Qed.

Lemma mapM_cons_inv {A B : Type} (f : A -> result B) (x : A)
    (l : list A) (ys : list B) :
  mapM f (x :: l) = Ok ys ->
  exists y ys0, f x = Ok y /\ mapM f l = Ok ys0 /\ ys = y :: ys0.
Proof.
  cbn. destruct (f x) as [y |]; [| discriminate]. cbn [bind].
  destruct (mapM f l) as [ys0 |]; [| discriminate]. cbn [bind].
  intro H. injection H as <-. eauto.
Qed.

Lemma mapM_Permutation {A B : Type} (f : A -> result B)
    (l l' : list A) :
  Permutation l l' ->
  forall ys, mapM f l = Ok ys ->
             exists ys', mapM f l' = Ok ys' /\ Permutation ys ys'.
Proof.
  induction 1 as [| x l l' _ IH | x y l | l l' l'' _ IH1 _ IH2];
    intros ys Hys.
  - exists ys. split; [exact Hys | reflexivity].
  - apply mapM_cons_inv in Hys. destruct Hys as (y & ys0 & Hx & Hl & ->).
    destruct (IH ys0 Hl) as (ys' & Hl' & Hp).
    exists (y :: ys'). cbn. rewrite Hx, Hl'. cbn. split; [reflexivity |].
    now constructor.
  - apply mapM_cons_inv in Hys. destruct Hys as (b & ys0 & Hy & Hl & ->).
    apply mapM_cons_inv in Hl. destruct Hl as (a & ys1 & Hx & Hl & ->).
    exists (a :: b :: ys1). cbn. rewrite Hx, Hy, Hl. cbn.
    split; [reflexivity | apply perm_swap].
  - destruct (IH1 ys Hys) as (ys' & H' & Hp').
    destruct (IH2 ys' H') as (ys'' & H'' & Hp'').
    exists ys''. split; [exact H'' | now transitivity ys'].
Qed.

Lemma mapM_length {A B : Type} (f : A -> result B) (l : list A)
    (ys : list B) :
  mapM f l = Ok ys -> length ys = length l.
Proof.
  intro H. apply DupFacts.mapM_inv in H. symmetry.
  eapply Forall2_length; eauto.
Qed.

Lemma assign_cells_same (pos : nat) (rs : list (nat * list value)) :
  assign_cells pos rs (map (fun r => nth pos (snd r) VNull) rs) = rs.
Proof.
  induction rs as [| [i cells] rs IH]; cbn; [reflexivity |].
  now rewrite set_nth_same, IH.
Qed.

Lemma time_cell_key (t : option Z) : time_cell (time_key (time_cell t)) = time_cell t.
Proof. now destruct t. Qed.

(** The second pass starts from the frame the first one returned. *)
Lemma renamed_to_records (df : DataFrame) :
  NoDup (columns df) ->
  rows df <> [] ->
  index df = seq 0 (length (rows df)) ->
  (forall cells, In cells (values df) ->
                 length cells = length (columns df) /\
                 Forall (fun v => is_dict v = false) cells) ->
  storage_stable df ->
  (forall c, In c (columns df) -> is_date_label c = false) ->
  (forall c, In c (columns df) -> lookup_label c mapping = None) ->
  renamed (to_records df) = df.
Proof.
  intros Hnd Hne Hidx Hwf Hst Hdate Hmap.
  assert (Hj : json_normalize (to_records df) = df).
  { rewrite DictFacts.json_normalize_to_records by assumption.
    apply DataFrame_eq; [reflexivity |]. cbn [rows].
    rewrite <- Hidx. apply combine_fst_snd. }
  apply DataFrame_eq.
  - rewrite renamed_columns, Hj.
    unfold date_cols. rewrite DictFacts.filter_none by exact Hdate.
    cbn [hd_error final_label].
    rewrite <- (map_id (columns df)) at 2. apply map_ext_in.
    intros c Hc. unfold final_label, rename_label. now rewrite Hmap.
  - now rewrite renamed_rows, Hj.
Qed.

End SecondPassFacts.

(** C2, as stated, fails: with two date-like fields the first pass leaves
    the second one under its own name; the second pass renames it to
    [Fecha] as well, and typing a [Fecha] label that names two columns
    raises. *)
Lemma renormalizing_two_date_fields_raises :
  estandarizar to_datetime_iso argsort_stable
    [[("valueDate", VStr "2024-06-07"); ("processDate", VStr "2024-06-08")]]
  = Ok (mkDataFrame ["Fecha"; "processDate"]
          [(0%nat, [VTime 1717718400000000000; VStr "2024-06-08"])]) /\
  estandarizar to_datetime_iso argsort_stable
    (to_records
       (mkDataFrame ["Fecha"; "processDate"]
          [(0%nat, [VTime 1717718400000000000; VStr "2024-06-08"])]))
  = Raise ValueError.
Proof. split; reflexivity. Qed.

(** The second pass stores the cells anew.  A column that the first pass
    kept as objects, for a string that [drop_duplicates] then removed with
    its row, is a column of numbers the second time, and its integers
    become floats: [2^53 + 1] comes out as [2^53]. *)
Example renormalizing_changes_stored_number :
  estandarizar to_datetime_iso argsort_stable
    [[("description", VStr "a"); ("ref", VNum 9007199254740993)];
     [("description", VStr "a"); ("ref", VStr "x")];
     [("description", VStr "b")]]
  = Ok (mkDataFrame ["Concepto"; "ref"]
          [(0%nat, [VStr "a"; VNum 9007199254740993]);
           (1%nat, [VStr "b"; VNull])]) /\
  estandarizar to_datetime_iso argsort_stable
    (to_records
       (mkDataFrame ["Concepto"; "ref"]
          [(0%nat, [VStr "a"; VNum 9007199254740993]);
           (1%nat, [VStr "b"; VNull])]))
  = Ok (mkDataFrame ["Concepto"; "ref"]
          [(0%nat, [VStr "a"; VFloat (Finite 4503599627370496 1)]);
           (1%nat, [VStr "b"; VNull])]).
Proof. split; reflexivity. Qed.

(** C2, amended.  Whenever the normalizer returns a frame whose column
    labels are pairwise distinct and none of them date-like (the records
    had at most one date-like field), and whose columns are stored the
    same way when the frame is built again from its cells, normalizing
    the records of that frame returns again, with the same columns, the
    same index and the same rows up to the order of rows with equal
    dates: none is added, none removed, no duplicate appears. *)
Theorem estandarizar_idempotent
    (to_datetime : list value -> option (list (option Z)))
    (argsort : list Z -> list nat)
    (movs : list dict) (df : DataFrame) :
  argsort_spec argsort ->
  to_datetime_keeps_timestamps to_datetime ->
  estandarizar to_datetime argsort movs = Ok df ->
  NoDup (columns df) ->
  (forall c, In c (columns df) -> is_date_label c = false) ->
  storage_stable df ->
  exists df',
    estandarizar to_datetime argsort (to_records df) = Ok df' /\
    columns df' = columns df /\
    index df' = index df /\
    Permutation (values df') (values df).
Proof.
  intros Hsort Htd H Hnd Hdate Hst.
  destruct movs as [| r0 movs0] eqn:Em.
  { cbn in H. injection H as <-. exists DataFrame_empty.
    repeat split; reflexivity. }
  rewrite <- Em in *.
  assert (Hne : movs <> []) by (rewrite Em; discriminate).
  clear Em r0 movs0.
  destruct (estandarizar_output _ _ Hsort movs df Hne H)
    as (Hrows & Hidx & Hwf & Hmap & Htime & Hkeys).
  pose proof (SecondPassFacts.renamed_to_records df Hnd Hrows Hidx Hwf Hst
                Hdate Hmap) as Hren.
  assert (Hrec : to_records df <> []).
  { unfold to_records. intro E. apply map_eq_nil in E. contradiction. }
  rewrite (estandarizar_nonempty _ _ _ Hrec), Hren.
  (* typing and sorting the date column again *)
  assert (Hpre : exists pre,
             parse_and_sort to_datetime argsort df = Ok pre /\
             columns pre = columns df /\
             Permutation (rows pre) (rows df)).
  { unfold parse_and_sort.
    destruct (has_column "Fecha" df) eqn:Hf; [| now exists df].
    assert (Hin : In "Fecha" (columns df)) by now apply ListFacts.in_list_In.
    unfold getitem_series.
    rewrite (proj1 (NoDup_count_occ' string_dec (columns df)) Hnd _ Hin).
    cbn [Nat.eqb bind].
    assert (Hcol : column_values "Fecha" df
                   = map time_cell (map time_key (column_values "Fecha" df))).
    { rewrite map_map. rewrite <- (map_id (column_values "Fecha" df)) at 1.
      apply map_ext_in. intros v Hv.
      rewrite RowFacts.column_values_values in Hv.
      apply in_map_iff in Hv. destruct Hv as [cells [<- Hc]].
      destruct (Htime eq_refl cells Hc) as [t ->].
      symmetry. apply SecondPassFacts.time_cell_key. }
    remember (map time_key (column_values "Fecha" df)) as ts eqn:Ets.
    assert (Htdc : to_datetime (column_values "Fecha" df) = Some ts)
      by (rewrite Hcol; apply Htd).
    rewrite Htdc, <- Hcol.
    assert (Hset : setitem "Fecha" (column_values "Fecha" df) df = df).
    { apply SecondPassFacts.DataFrame_eq; [reflexivity |].
      unfold setitem, column_values. cbn [rows].
      apply SecondPassFacts.assign_cells_same. }
    rewrite Hset. eexists. split; [reflexivity |]. split; [reflexivity |].
    now apply SortFacts.sort_values_rows. }
  destruct Hpre as (pre & -> & Hpc & Hperm). cbn [bind].
  (* nothing is dropped the second time *)
  assert (Hdd : drop_duplicates (key_cols pre) pre = Ok pre).
  { unfold drop_duplicates, duplicated.
    destruct (empty pre) eqn:He; [reflexivity |].
    assert (He' : empty df = false).
    { unfold empty in *. rewrite Hpc in He.
      destruct (columns df); [discriminate |].
      destruct (rows df); [congruence | reflexivity]. }
    destruct (Hkeys He') as (HK & ids & Hg & Hids).
    rewrite (RowFacts.key_cols_columns pre df Hpc).
    destruct (key_cols df) as [| k K] eqn:EK; [congruence |].
    unfold group_index in *. rewrite Hpc.
    destruct (SecondPassFacts.mapM_Permutation _ _ _
                (Permutation_sym (Permutation_map snd Hperm)) _ Hg)
      as (ids' & Hg' & Hp').
    fold (values pre) in Hg'. rewrite Hg'. cbn [bind]. f_equal.
    apply SecondPassFacts.DataFrame_eq; [exact (eq_sym Hpc) |]. cbn [rows].
    apply ListFacts.select_all.
    - rewrite length_map, DupFacts.duplicated_from_length.
      rewrite (SecondPassFacts.mapM_length _ _ _ Hg').
      unfold values. apply length_map.
    - apply DupFacts.duplicated_from_NoDup; [| intros ? _ []].
      eapply Permutation_NoDup; eauto. }
  rewrite Hdd. cbn [bind]. eexists. split; [reflexivity |].
  split; [exact Hpc |]. split.
  - rewrite reset_index_index, Hidx, OutputFacts.reset_index_length.
    now rewrite (Permutation_length Hperm).
  - rewrite reset_index_values. unfold values. now apply Permutation_map.
Qed.

Lemma estandarizar_idempotent_witness :
  exists df df',
    estandarizar to_datetime_iso argsort_stable demo_duplicates = Ok df /\
    estandarizar to_datetime_iso argsort_stable (to_records df) = Ok df' /\
    columns df' = columns df /\
    Permutation (values df') (values df).
Proof.
  eexists.
  destruct (estandarizar_idempotent
              to_datetime_iso argsort_stable demo_duplicates _
              InstanceFacts.argsort_stable_spec
              InstanceFacts.to_datetime_iso_keeps_timestamps
              eq_refl)
    as (df' & H1 & H2 & _ & H4).
  - vm_compute. repeat constructor; cbn; intuition discriminate.
  - intros c Hc. vm_compute in Hc.
    repeat (destruct Hc as [<- | Hc]; [reflexivity |]). contradiction.
  - intros c Hc. vm_compute in Hc.
    repeat (destruct Hc as [<- | Hc]; [reflexivity |]). contradiction.
  - exists df'. split; [reflexivity |]. auto.
Defined.

(** ** Scenarios *)

(** The statement of the specification's end-to-end scenario: one record,
    one row, the date column renamed and typed. *)
Example estandarizar_end_to_end :
  estandarizar to_datetime_iso argsort_stable
    [[("description", VStr "Pago"); ("debitAmount", VNum 100);
      ("valueDate", VStr "2024-06-07")]]
  = Ok (mkDataFrame ["Concepto"; "Debito"; "Fecha"]
          [(0%nat, [VStr "Pago"; VNum 100; VTime 1717718400000000000])]).
Proof. reflexivity. Qed.

(** Nested records are flattened under dotted names, top-level fields
    first. *)
Example json_normalize_nested :
  json_normalize
    [[("amount", VDict [("value", VNum 5); ("currency", VStr "ARS")]);
      ("description", VStr "Pago")]]
  = mkDataFrame ["description"; "amount.value"; "amount.currency"]
      [(0%nat, [VStr "Pago"; VNum 5; VStr "ARS"])].
Proof. reflexivity. Qed.

(** A frame with rows and columns but none of the five key columns makes
    [drop_duplicates] raise. *)
Example estandarizar_without_key_columns :
  estandarizar to_datetime_iso argsort_stable [[("foo", VNum 1)]]
  = Raise ValueError.
Proof. reflexivity. Qed.

(** Records without any field give a frame with rows and no columns,
    which [drop_duplicates] hands back whole. *)
Example estandarizar_records_without_fields :
  estandarizar to_datetime_iso argsort_stable [[]; []]
  = Ok (mkDataFrame [] [(0%nat, []); (1%nat, [])]).
Proof. reflexivity. Qed.

(** A field that already bears a canonical name next to the provider
    field renamed to it: the output has the label twice, and its records
    keep one value only. *)
Example to_records_repeated_label :
  estandarizar to_datetime_iso argsort_stable
    [[("description", VStr "a"); ("Concepto", VStr "b")]]
  = Ok (mkDataFrame ["Concepto"; "Concepto"] [(0%nat, [VStr "a"; VStr "b"])])
  /\
  to_records (mkDataFrame ["Concepto"; "Concepto"]
                [(0%nat, [VStr "a"; VStr "b"])])
  = [[("Concepto", VStr "b")]].
Proof. split; reflexivity. Qed.

(** A date that cannot be read stops the normalizer. *)
Example estandarizar_unreadable_date :
  estandarizar to_datetime_iso argsort_stable [[("valueDate", VStr "ayer")]]
  = Raise DateParseError.
Proof. reflexivity. Qed.

(** The bank number is padded to three digits. *)
Example statement_request_bank_number :
  Http.params (Http.statement_request demo_config "tok" "123" "7" "2024-06-07")
  = [("account-type", "CC"); ("bank-number", "007"); ("currency", "ARS");
     ("customer-id", "42"); ("date-since", "2024-06-07");
     ("date-until", "2024-06-07")].
Proof. reflexivity. Qed.

(** * Further properties *)

(** ** The normalizer: flattening *)

Module FlattenFacts.
Import ListFacts FrameFacts OutputFacts.

Lemma unique_from_nil_In (l : list string) (x : string) :
In x (unique_from [] l) <-> In x l.
Proof. rewrite unique_from_In. cbn. tauto. Qed.

Lemma startswith_app (p s : string) : startswith p (p ++ s) = true.
Proof.
induction p as [| a p IH]; cbn; [reflexivity |].
now rewrite Ascii.eqb_refl.
Qed.

Lemma startswith_split (p s : string) :
startswith p s = true -> exists t, s = p ++ t.
Proof.
revert s. induction p as [| a p IH]; intros s H; cbn in *.
- now exists s.
- destruct s as [| b s]; [discriminate |].
  apply andb_true_iff in H. destruct H as [Hab Hp].
  apply Ascii.eqb_eq in Hab. subst b.
  destruct (IH s Hp) as [t ->]. now exists t.
Qed.

Lemma str_in_startswith (sub s : string) :
startswith sub s = true -> str_in sub s = true.
Proof. intro H. destruct s; cbn; now rewrite H. Qed.

Lemma str_in_iff (sub s : string) :
str_in sub s = true <-> exists a b, s = a ++ sub ++ b.
Proof.
split.
- induction s as [| c s IH]; cbn; intro H.
  + apply orb_true_iff in H. destruct H as [H | H]; [| discriminate].
    apply startswith_split in H. destruct H as [t Ht].
    exists "", t. exact Ht.
  + apply orb_true_iff in H. destruct H as [H | H].
    * apply startswith_split in H. destruct H as [t Ht].
      exists "", t. exact Ht.
    * destruct (IH H) as (a & b & ->). now exists (String c a), b.
- intros (a & b & ->). induction a as [| c a IH].
  + cbn [append]. apply str_in_startswith, startswith_app.
  + cbn. rewrite IH. apply orb_true_r.
Qed.

Lemma lower_app (a b : string) : lower (a ++ b) = lower a ++ lower b.
Proof. induction a as [| c a IH]; cbn; [reflexivity | now rewrite IH]. Qed.

Lemma lower_split (s x y : string) :
lower s = x ++ y -> exists a b, s = a ++ b /\ lower a = x /\ lower b = y.
Proof.
revert x. induction s as [| c s IH]; intros x H; cbn in H.
- destruct x; [| discriminate]. cbn in H. exists "", "". now rewrite <- H.
- destruct x as [| d x]; cbn in H.
  + exists "", (String c s). auto.
  + injection H as Hd H. destruct (IH x H) as (a & b & -> & Ha & Hb).
    exists (String c a), b. cbn. now rewrite Ha, Hd.
Qed.

End FlattenFacts.

(** X1. A column counts as a date column exactly when its name contains,
    anywhere and in any mix of upper and lower case, the four letters
    "date": [valueDate], [DATE], but also [lastUpdate]. *)
Theorem is_date_label_iff (c : string) :
  is_date_label c = true <->
  exists a s b, c = a ++ s ++ b /\ lower s = "date".
Proof.
  unfold is_date_label. rewrite FlattenFacts.str_in_iff. split.
  - intros (x & y & H).
    apply FlattenFacts.lower_split in H. destruct H as (a & r & -> & _ & Hr).
    apply FlattenFacts.lower_split in Hr. destruct Hr as (s & b & -> & Hs & _).
    now exists a, s, b.
  - intros (a & s & b & -> & Hs).
    exists (lower a), (lower b).
    now rewrite !FlattenFacts.lower_app, Hs.
Qed.

(** X2. Whatever the records, the flattened frame is well formed: its
    column labels are pairwise distinct and are exactly the keys of the
    flattened records, it has one row per record under the index 0, 1,
    2, ..., every row has one cell per column, and no cell holds a
    dictionary any more. *)
Theorem json_normalize_well_formed (movs : list dict) :
  let df := json_normalize movs in
  NoDup (columns df) /\
  (forall c, In c (columns df) <->
             exists r, In r movs /\ In c (keys (_normalise_json_ordered r))) /\
  index df = seq 0 (length movs) /\
  length (rows df) = length movs /\
  forall cells, In cells (values df) ->
                length cells = length (columns df) /\
                Forall (fun v => is_dict v = false) cells.
Proof.
  intro df. subst df.
  split; [apply FrameFacts.json_normalize_columns_NoDup |].
  split; [| split; [apply FrameFacts.json_normalize_index |
                    split; [apply FrameFacts.json_normalize_length |
                            apply OutputFacts.json_normalize_cells]]].
  intro c. unfold json_normalize, DataFrame_of_records,
    fast_unique_multiple_list_gen, _simple_json_normalize. cbn [columns].
  rewrite FlattenFacts.unique_from_nil_In, in_concat. split.
  - intros (ks & Hks & Hc). rewrite map_map in Hks.
    apply in_map_iff in Hks. destruct Hks as (r & <- & Hr). eauto.
  - intros (r & Hr & Hc). exists (keys (_normalise_json_ordered r)).
    split; [| exact Hc]. rewrite map_map.
    apply in_map_iff. eauto.
Qed.



(** ** The normalizer: when it raises *)

Module ErrorFacts.
Import ListFacts FrameFacts OutputFacts.

Lemma count_occ_map_two (f : string -> string) (l : list string)
  (a b y : string) :
In a l -> In b l -> a <> b -> f a = y -> f b = y ->
(2 <= count_occ string_dec (map f l) y)%nat.
Proof.
intros Ha Hb Hab Hfa Hfb.
assert (Hone : forall x l', In x l' -> f x = y ->
                 (1 <= count_occ string_dec (map f l') y)%nat).
{ intros x l' Hx Hfx. apply (count_occ_In string_dec).
  apply in_map_iff. eauto. }
induction l as [| c l IH]; [contradiction |].
cbn [map count_occ].
destruct Ha as [-> | Ha], Hb as [-> | Hb].
- congruence.
- rewrite Hfa. destruct (string_dec y y); [| congruence].
  specialize (Hone b l Hb Hfb). lia.
- rewrite Hfb. destruct (string_dec y y); [| congruence].
  specialize (Hone a l Ha Hfa). lia.
- specialize (IH Ha Hb). destruct (string_dec (f c) y); lia.
Qed.

Lemma mapM_raise {A B : Type} (f : A -> result B) (l : list A) (E : exn) :
(forall x e, f x = Raise e -> e = E) ->
(exists x, In x l /\ exists e, f x = Raise e) ->
mapM f l = Raise E.
Proof.
intros Hall. induction l as [| x l IH]; intros (y & Hy & e & He).
- contradiction.
- cbn. destruct (f x) as [b | e'] eqn:Ex.
  + cbn [bind]. destruct Hy as [-> | Hy]; [congruence |].
    rewrite IH by eauto. reflexivity.
  + cbn [bind]. now rewrite (Hall x e' Ex).
Qed.

Lemma factorize_value_raise (v : value) (e : exn) :
factorize_value v = Raise e -> e = TypeError.
Proof. destruct v; cbn; congruence. Qed.

Lemma row_labels_raise (K cols : list string) (cells : list value)
  (e : exn) :
row_labels K cols cells = Raise e -> e = TypeError.
Proof.
unfold row_labels.
induction (subset_cells K cols cells) as [| v vs IH]; cbn; [discriminate |].
destruct (factorize_value v) as [l | e'] eqn:Ev; cbn [bind].
- destruct (mapM factorize_value vs) as [ls | e'']; cbn [bind];
    [discriminate |].
  intro H. injection H as <-. now apply IH.
- intro H. injection H as <-. now apply factorize_value_raise in Ev.
Qed.

Lemma subset_cells_nth (K : list string) (i : nat) :
forall (cols : list string) (cells : list value) (c : string) (v : value),
  nth_error cols i = Some c -> nth_error cells i = Some v ->
  In c K -> In v (subset_cells K cols cells).
Proof.
induction i as [| i IH]; intros [| c' cols] [| v' cells] c v Hc Hv HK;
  try discriminate; cbn in *.
- injection Hc as ->. injection Hv as ->.
  rewrite (proj2 (in_list_In c K) HK). now left.
- destruct (in_list c' K); [right |]; eapply IH; eauto.
Qed.

Lemma select_length {A : Type} (l : list A) (mask : list bool) :
(length (select l mask) <= length l)%nat.
Proof.
revert mask. induction l as [| x l IH]; intros [| b mask].
- cbn. lia.
- cbn. lia.
- rewrite select_nil_r. cbn. lia.
- rewrite select_cons. specialize (IH mask). destruct b; cbn; lia.
Qed.

End ErrorFacts.

(** X4. When the records have a date-like field and also a field that is
    already called [Fecha], the renaming leaves two columns under that
    label and the normalizer raises [ValueError], whatever the values. *)
Theorem estandarizar_fecha_collision
    (to_datetime : list value -> option (list (option Z)))
    (argsort : list Z -> list nat)
    (movs : list dict) :
  movs <> [] ->
  date_cols (json_normalize movs) <> [] ->
  In "Fecha" (columns (json_normalize movs)) ->
  estandarizar to_datetime argsort movs = Raise ValueError.
Proof.
  intros Hne Hd Hf.
  rewrite (estandarizar_nonempty _ _ movs Hne).
  assert (Hcount : (2 <= count_occ string_dec (columns (renamed movs)) "Fecha")%nat).
  { rewrite FrameFacts.renamed_columns.
    unfold date_cols in *.
    destruct (filter is_date_label (columns (json_normalize movs)))
      as [| c0 rest] eqn:E; [congruence |].
    assert (Hc0 : In c0 (filter is_date_label (columns (json_normalize movs))))
      by (rewrite E; now left).
    apply filter_In in Hc0. destruct Hc0 as [Hin Hdate].
    apply (ErrorFacts.count_occ_map_two _ _ c0 "Fecha"); auto.
    - intros ->. discriminate.
    - unfold final_label, hd_error. now rewrite String.eqb_refl.
    - unfold final_label, hd_error.
      destruct (String.eqb "Fecha" c0); reflexivity. }
  unfold parse_and_sort, getitem_series.
  assert (Hhas : has_column "Fecha" (renamed movs) = true).
  { unfold has_column. apply ListFacts.in_list_In.
    apply (count_occ_In string_dec). lia. }
  rewrite Hhas.
  destruct (Nat.eqb (count_occ string_dec (columns (renamed movs)) "Fecha") 1)
    eqn:E1; [apply Nat.eqb_eq in E1; lia |].
  reflexivity.
Qed.

Lemma estandarizar_fecha_collision_witness :
  estandarizar to_datetime_iso argsort_stable
    [[("valueDate", VStr "2024-06-07"); ("Fecha", VStr "2024-06-08")]]
  = Raise ValueError.
Proof.
  apply estandarizar_fecha_collision.
  - discriminate.
  - discriminate.
  - vm_compute. auto.
Defined.

(** X5. When none of the five key columns results from the renaming: if
    the records have some field, the normalizer raises [ValueError]
    ([drop_duplicates] is handed an empty subset); if they have no field
    at all, it returns a frame without columns that has one row per
    record. *)
Theorem estandarizar_no_key_column
    (to_datetime : list value -> option (list (option Z)))
    (argsort : list Z -> list nat)
    (movs : list dict) :
  movs <> [] ->
  key_cols (renamed movs) = [] ->
  (columns (json_normalize movs) <> [] ->
   estandarizar to_datetime argsort movs = Raise ValueError) /\
  (columns (json_normalize movs) = [] ->
   exists df,
     estandarizar to_datetime argsort movs = Ok df /\
     columns df = [] /\
     length (rows df) = length movs).
Proof.
  intros Hne HK.
  assert (Hf : has_column "Fecha" (renamed movs) = false).
  { destruct (has_column "Fecha" (renamed movs)) eqn:E; [| reflexivity].
    unfold key_cols in HK. cbn [KEY_COLUMNS filter] in HK.
    rewrite E in HK. discriminate. }
  assert (Hp : parse_and_sort to_datetime argsort (renamed movs)
               = Ok (renamed movs)).
  { unfold parse_and_sort. now rewrite Hf. }
  rewrite (estandarizar_nonempty _ _ movs Hne), Hp. cbn [bind].
  rewrite HK. unfold drop_duplicates, duplicated.
  pose proof (renamed_columns_length movs) as Hlen.
  split; intro Hc.
  - rewrite RowFacts.empty_false; [reflexivity | |].
    + intro E. rewrite E in Hlen. symmetry in Hlen.
      now apply length_zero_iff_nil in Hlen.
    + now apply RowFacts.renamed_rows_nonempty.
  - assert (Hrc : columns (renamed movs) = []).
    { apply length_zero_iff_nil. now rewrite Hlen, Hc. }
    assert (He : empty (renamed movs) = true).
    { unfold empty. now rewrite Hrc. }
    rewrite He. cbn [bind]. eexists. split; [reflexivity |].
    split; [exact Hrc |].
    rewrite OutputFacts.reset_index_length, FrameFacts.renamed_rows.
    apply FrameFacts.json_normalize_length.
Qed.

Lemma estandarizar_no_key_column_witness :
  estandarizar to_datetime_iso argsort_stable
    [[("foo", VNum 1)]; [("foo", VNum 1)]]
  = Raise ValueError.
Proof.
  apply (estandarizar_no_key_column to_datetime_iso argsort_stable
           [[("foo", VNum 1)]; [("foo", VNum 1)]]).
  - discriminate.
  - reflexivity.
  - discriminate.
Defined.

(** X6. A list in a key column other than [Fecha] cannot be compared:
    once the date column, if any, has been typed and sorted, the
    normalizer raises [TypeError]. *)
Theorem estandarizar_unhashable_key
    (to_datetime : list value -> option (list (option Z)))
    (argsort : list Z -> list nat)
    (movs : list dict) (i : nat) (c : string) (cells : list value)
    (l : list value) :
  movs <> [] ->
  argsort_spec argsort ->
  returns (parse_and_sort to_datetime argsort (renamed movs)) ->
  nth_error (columns (renamed movs)) i = Some c ->
  In c KEY_COLUMNS -> c <> "Fecha" ->
  In cells (values (json_normalize movs)) ->
  nth_error cells i = Some (VList l) ->
  estandarizar to_datetime argsort movs = Raise TypeError.
Proof.
  intros Hne Hsort [pre Hp] Hc HKc Hnf Hcells Hcell.
  pose proof (parse_and_sort_columns _ _ _ _ Hp) as Hpc.
  assert (Hin : In c (key_cols pre)).
  { apply RowFacts.key_cols_In. split; [exact HKc |].
    rewrite Hpc. eapply nth_error_In; eauto. }
  (* the row is still there, with its list, when the date is typed *)
  assert (Hrow : exists cells', In cells' (values pre) /\
                                nth_error cells' i = Some (VList l)).
  { pose proof Hp as Hp'. apply parse_and_sort_inv in Hp'.
    destruct Hp' as [[_ ->] | (Hhas & _ & ts & _ & ->)].
    - exists cells. now rewrite RowFacts.renamed_values.
    - assert (Hpos : i <> position "Fecha" (columns (renamed movs))).
      { intros ->. apply ListFacts.in_list_In in Hhas.
        rewrite (position_nth_error _ _ Hhas) in Hc. congruence. }
      rewrite <- RowFacts.renamed_values in Hcells.
      unfold values in Hcells. apply in_map_iff in Hcells.
      destruct Hcells as [[j cs] [Hcs Hr]]. cbn in Hcs. subst cs.
      set (df1 := setitem "Fecha" (map time_cell ts) (renamed movs)).
      assert (H1 : exists cells', In (j, cells') (rows df1) /\
                                  nth_error cells' i = Some (VList l)).
      { unfold df1, setitem. cbn [rows].
        generalize (map time_cell ts).
        induction (rows (renamed movs)) as [| [j' cs'] rs IH];
          intro vals; [contradiction |].
        cbn [assign_cells]. destruct Hr as [Hr | Hr].
        - injection Hr as -> ->. eexists. split; [now left |].
          now rewrite set_nth_other.
        - destruct (IH Hr (tl vals)) as (cells' & Hin' & Hn').
          exists cells'. split; [now right | exact Hn']. }
      destruct H1 as (cells' & Hin' & Hn').
      exists cells'. split; [| exact Hn'].
      unfold values. apply in_map_iff. exists (j, cells'). split; [reflexivity |].
      apply (Permutation_in _
               (Permutation_sym (SortFacts.sort_values_rows argsort Hsort "Fecha" df1))).
      exact Hin'. }
  destruct Hrow as (cells' & Hcin & Hcn).
  rewrite (estandarizar_nonempty _ _ movs Hne), Hp. cbn [bind].
  unfold drop_duplicates, duplicated.
  assert (He : empty pre = false).
  { apply RowFacts.empty_false.
    - intro E. rewrite Hpc in E. rewrite E in Hc. now destruct i.
    - intro E. unfold values in Hcin. now rewrite E in Hcin. }
  rewrite He.
  destruct (key_cols pre) as [| k K] eqn:EK; [contradiction |].
  rewrite <- EK in *. unfold group_index.
  rewrite (ErrorFacts.mapM_raise _ _ TypeError).
  - reflexivity.
  - intros x e. apply ErrorFacts.row_labels_raise.
  - exists cells'. split; [exact Hcin |].
    unfold row_labels.
    destruct (mapM factorize_value (subset_cells (key_cols pre) (columns pre) cells'))
      as [ls | e] eqn:Em; [| eauto].
    exfalso. apply DupFacts.mapM_inv in Em.
    assert (Hv : In (VList l) (subset_cells (key_cols pre) (columns pre) cells')).
    { apply (ErrorFacts.subset_cells_nth _ i _ _ c); auto. now rewrite Hpc. }
    destruct (DupFacts.Forall2_In_l _ _ _ _ Em Hv) as (y & _ & Hy).
    discriminate.
Qed.

Lemma estandarizar_unhashable_key_witness :
  estandarizar to_datetime_iso argsort_stable
    [[("description", VList [VStr "a"; VStr "b"]); ("balance", VNum 3)]]
  = Raise TypeError.
Proof.
  apply (estandarizar_unhashable_key to_datetime_iso argsort_stable
           [[("description", VList [VStr "a"; VStr "b"]); ("balance", VNum 3)]]
           0%nat "Concepto"
           [VList [VStr "a"; VStr "b"]; VNum 3] [VStr "a"; VStr "b"]).
  - discriminate.
  - exact InstanceFacts.argsort_stable_spec.
  - eexists. reflexivity.
  - reflexivity.
  - vm_compute. auto.
  - discriminate.
  - vm_compute. auto.
  - reflexivity.
Defined.

(** ** The normalizer: what it returns *)

(** X7. A frame the normalizer returns never has a column under a
    provider name of the mapping ([description], [debitAmount],
    [creditAmount], [balance], [bankId]): every such field has been
    renamed. *)
Theorem estandarizar_no_provider_name
    (to_datetime : list value -> option (list (option Z)))
    (argsort : list Z -> list nat)
    (movs : list dict) (df : DataFrame) :
  estandarizar to_datetime argsort movs = Ok df ->
  forall c, In c (columns df) -> ~ In c (map fst mapping).
Proof.
  intros H c Hc.
  destruct movs as [| r movs0] eqn:Em.
  { cbn in H. injection H as <-. contradiction. }
  assert (Hne : r :: movs0 <> []) by discriminate.
  rewrite (estandarizar_columns _ _ _ df Hne H) in Hc.
  apply renamed_no_provider_field in Hc.
  intro Hin. apply in_map_iff in Hin. destruct Hin as [[k v] [<- Hkv]].
  cbn in Hc. unfold mapping in Hkv, Hc. cbn [lookup_label] in Hc.
  repeat (destruct Hkv as [Hkv | Hkv];
          [injection Hkv as <- <-; cbn in Hc; discriminate |]).
  contradiction.
Qed.

Lemma estandarizar_no_provider_name_witness :
  ~ In "Concepto" (map fst mapping).
Proof.
  apply (estandarizar_no_provider_name to_datetime_iso argsort_stable
           [[("description", VStr "Pago"); ("debitAmount", VNum 100);
             ("valueDate", VStr "2024-06-07")]]
           (mkDataFrame ["Concepto"; "Debito"; "Fecha"]
              [(0%nat, [VStr "Pago"; VNum 100; VTime 1717718400000000000])])
           eq_refl).
  now left.
Defined.

(** X8. In a frame the normalizer returns, the [Fecha] column, when there
    is one, holds nothing but timestamps and missing values: whatever
    [to_datetime] was given, no raw date is left. *)
Theorem estandarizar_fecha_typed
    (to_datetime : list value -> option (list (option Z)))
    (argsort : list Z -> list nat)
    (movs : list dict) (df : DataFrame) :
  estandarizar to_datetime argsort movs = Ok df ->
  has_column "Fecha" df = true ->
  forall v, In v (column_values "Fecha" df) ->
            exists t, v = time_cell t.
Proof.
  intros H Hf v Hv.
  destruct movs as [| r movs0] eqn:Em.
  { cbn in H. injection H as <-. discriminate. }
  rewrite <- Em in *.
  assert (Hne : movs <> []) by (rewrite Em; discriminate).
  destruct (estandarizar_inv _ _ movs df Hne H) as (pre & dd & Hp & Hd & ->).
  destruct (drop_duplicates_rows _ _ _ Hd) as [mask Hmask].
  pose proof (drop_duplicates_columns _ _ _ Hd) as Hdc.
  rewrite RowFacts.column_values_values, reset_index_values in Hv.
  cbn [reset_index columns] in Hv. unfold has_column in Hf.
  cbn [reset_index columns] in Hf. rewrite Hdc in Hv, Hf.
  apply in_map_iff in Hv. destruct Hv as [cells [<- Hc]].
  unfold values in Hc. rewrite Hmask in Hc.
  apply in_map_iff in Hc. destruct Hc as [row [<- Hrow]].
  apply ListFacts.select_In in Hrow.
  destruct (pre_row _ _ movs pre row Hp Hrow) as (_ & _ & Ht).
  now apply Ht.
Qed.

Lemma estandarizar_fecha_typed_witness :
  exists t, VTime 1717718400000000000 = time_cell t.
Proof.
  apply (estandarizar_fecha_typed to_datetime_iso argsort_stable
           [[("description", VStr "Pago"); ("debitAmount", VNum 100);
             ("valueDate", VStr "2024-06-07")]]
           (mkDataFrame ["Concepto"; "Debito"; "Fecha"]
              [(0%nat, [VStr "Pago"; VNum 100; VTime 1717718400000000000])])
           eq_refl eq_refl).
  now left.
Defined.

(** X9. The normalizer never adds a row and never returns fewer than one
    for a non-empty input: the output has between one row and as many
    rows as there are records, each with one cell per column. *)
Theorem estandarizar_row_count
    (to_datetime : list value -> option (list (option Z)))
    (argsort : list Z -> list nat)
    (movs : list dict) (df : DataFrame) :
  movs <> [] ->
  argsort_spec argsort ->
  estandarizar to_datetime argsort movs = Ok df ->
  (1 <= length (rows df) <= length movs)%nat /\
  forall cells, In cells (values df) -> length cells = length (columns df).
Proof.
  intros Hne Hsort H.
  destruct (estandarizar_output _ _ Hsort movs df Hne H)
    as (Hrows & _ & Hwf & _).
  split; [| intros cells Hc; now apply Hwf].
  split.
  - destruct (rows df); [congruence | cbn; lia].
  - destruct (estandarizar_inv _ _ movs df Hne H) as (pre & dd & Hp & Hd & ->).
    destruct (drop_duplicates_rows _ _ _ Hd) as [mask Hmask].
    rewrite OutputFacts.reset_index_length, Hmask.
    rewrite <- (pre_rows_length _ _ Hsort movs pre Hp).
    apply ErrorFacts.select_length.
Qed.

Lemma estandarizar_row_count_witness :
  exists df,
    estandarizar to_datetime_iso argsort_stable demo_duplicates = Ok df /\
    (1 <= length (rows df) <= 3)%nat.
Proof.
  eexists. split; [reflexivity |].
  refine (proj1 (estandarizar_row_count to_datetime_iso argsort_stable
                   demo_duplicates _ _ InstanceFacts.argsort_stable_spec
                   eq_refl)).
  discriminate.
Defined.



(** X11. Nothing is dropped but duplicates: when the rows handed to
    [drop_duplicates] have pairwise different key values, the normalizer
    returns all of them, in the same order, one per record. *)
Theorem estandarizar_keeps_distinct_rows
    (to_datetime : list value -> option (list (option Z)))
    (argsort : list Z -> list nat)
    (movs : list dict) (pre : DataFrame) (ids : list (list label)) :
  movs <> [] ->
  argsort_spec argsort ->
  parse_and_sort to_datetime argsort (renamed movs) = Ok pre ->
  key_cols pre <> [] ->
  group_index (key_cols pre) pre = Ok ids ->
  NoDup ids ->
  exists df,
    estandarizar to_datetime argsort movs = Ok df /\
    values df = values pre /\
    length (rows df) = length movs.
Proof.
  intros Hne Hsort Hp HK Hg Hnd.
  rewrite (estandarizar_nonempty _ _ movs Hne), Hp. cbn [bind].
  unfold drop_duplicates, duplicated.
  destruct (empty pre) eqn:He.
  - cbn [bind]. eexists. split; [reflexivity |].
    split; [apply reset_index_values |].
    rewrite OutputFacts.reset_index_length.
    apply (pre_rows_length _ _ Hsort movs pre Hp).
  - destruct (key_cols pre) as [| k K] eqn:EK; [congruence |].
    rewrite Hg. cbn [bind]. eexists. split; [reflexivity |].
    assert (Hsel : select (rows pre) (map negb (duplicated_from [] ids))
                   = rows pre).
    { apply ListFacts.select_all.
      - rewrite length_map, DupFacts.duplicated_from_length.
        rewrite (SecondPassFacts.mapM_length _ _ _ Hg).
        unfold values. apply length_map.
      - apply DupFacts.duplicated_from_NoDup; [exact Hnd | intros ? _ []]. }
    split.
    + rewrite reset_index_values. unfold values at 1. cbn [rows].
      now rewrite Hsel.
    + rewrite OutputFacts.reset_index_length. cbn [rows]. rewrite Hsel.
      apply (pre_rows_length _ _ Hsort movs pre Hp).
Qed.

Lemma estandarizar_keeps_distinct_rows_witness :
  exists df,
    estandarizar to_datetime_iso argsort_stable demo_unordered = Ok df /\
    length (rows df) = 3%nat.
Proof.
  assert (Hne : demo_unordered <> []) by discriminate.
  destruct (estandarizar_keeps_distinct_rows
              to_datetime_iso argsort_stable demo_unordered _
              [[LTime 1717545600000000000; LStr "a"];
               [LTime 1717718400000000000; LStr "b"];
               [LNull; LStr "c"]]
              Hne InstanceFacts.argsort_stable_spec eq_refl)
    as (df & Hdf & _ & Hlen).
  - discriminate.
  - reflexivity.
  - repeat constructor; cbn; intuition discriminate.
  - exists df. split; [exact Hdf | exact Hlen].
Defined.

(** ** The normalizer: ties between dates *)

Module TieFacts.
Import ListFacts.

Lemma sorted_perm_unique (l1 l2 : list Z) :
StronglySorted Z.le l1 -> StronglySorted Z.le l2 ->
Permutation l1 l2 -> l1 = l2.
Proof.
intro H1. revert l2. induction H1 as [| x t1 Hs1 IH Hall1]; intros l2 H2 Hp.
- apply Permutation_nil in Hp. now subst.
- destruct H2 as [| y t2 Hs2 Hall2].
  + symmetry in Hp. now apply Permutation_nil in Hp.
  + assert (Hxy : x = y).
    { assert (Hx : In x (y :: t2))
        by (apply (Permutation_in _ Hp); now left).
      assert (Hy : In y (x :: t1))
        by (apply (Permutation_in _ (Permutation_sym Hp)); now left).
      rewrite Forall_forall in Hall1, Hall2.
      destruct Hx as [-> | Hx]; [reflexivity |].
      destruct Hy as [-> | Hy]; [reflexivity |].
      specialize (Hall1 y Hy). specialize (Hall2 x Hx). lia. }
    subst y. f_equal. apply IH; [exact Hs2 |].
    now apply Permutation_cons_inv in Hp.
Qed.

Lemma map_nth_inj (l : list Z) (p1 p2 : list nat) :
NoDup l ->
(forall i, In i p1 -> (i < length l)%nat) ->
(forall i, In i p2 -> (i < length l)%nat) ->
map (fun i => nth i l 0) p1 = map (fun i => nth i l 0) p2 ->
p1 = p2.
Proof.
intros Hnd. revert p2.
induction p1 as [| i p1 IH]; intros [| j p2] H1 H2 Hm;
  try discriminate; [reflexivity |].
cbn in Hm. injection Hm as Hij Hm. f_equal.
- apply (proj1 (NoDup_nth l 0) Hnd); [apply H1 | apply H2 | exact Hij];
    now left.
- apply IH; [| | exact Hm]; intros k Hk; [apply H1 | apply H2]; now right.
Qed.

(** On an array without repeated elements there is one sorting
  permutation. *)
Lemma argsort_unique (a1 a2 : list Z -> list nat) (l : list Z) :
argsort_spec a1 -> argsort_spec a2 -> NoDup l -> a1 l = a2 l.
Proof.
intros H1 H2 Hnd.
destruct (H1 l) as [Hp1 Hs1]. destruct (H2 l) as [Hp2 Hs2].
assert (Hr1 : forall i, In i (a1 l) -> (i < length l)%nat).
{ intros i Hi. apply (Permutation_in _ Hp1) in Hi.
  apply in_seq in Hi. lia. }
assert (Hr2 : forall i, In i (a2 l) -> (i < length l)%nat).
{ intros i Hi. apply (Permutation_in _ Hp2) in Hi.
  apply in_seq in Hi. lia. }
apply (map_nth_inj l); auto.
rewrite <- (take_in_range 0 l (a1 l) Hr1).
rewrite <- (take_in_range 0 l (a2 l) Hr2).
apply sorted_perm_unique; auto.
rewrite (take_perm_seq l (a1 l) Hp1).
symmetry. apply (take_perm_seq l (a2 l) Hp2).
Qed.

Lemma somes_Permutation {A : Type} (l l' : list (option A)) :
Permutation l l' -> Permutation (somes l) (somes l').
Proof.
induction 1 as [| x l l' _ IH | x y l | l l' l'' _ IH1 _ IH2]; cbn.
- constructor.
- destruct x; [now constructor | exact IH].
- destruct x, y; try reflexivity. apply perm_swap.
- now transitivity (somes l').
Qed.

End TieFacts.

(** X12. How [argsort] breaks ties only matters when two records have the
    same date: if the dates that reach [drop_duplicates] are pairwise
    different, any two sorting routines give the same result. *)
Theorem estandarizar_independent_of_argsort
    (to_datetime : list value -> option (list (option Z)))
    (argsort1 argsort2 : list Z -> list nat)
    (movs : list dict) :
  argsort_spec argsort1 ->
  argsort_spec argsort2 ->
  (forall pre,
      parse_and_sort to_datetime argsort1 (renamed movs) = Ok pre ->
      NoDup (somes (map time_key (column_values "Fecha" pre)))) ->
  estandarizar to_datetime argsort1 movs
  = estandarizar to_datetime argsort2 movs.
Proof.
  intros H1 H2 Hd.
  destruct movs as [| r movs0] eqn:Em; [reflexivity |].
  rewrite <- Em in *.
  assert (Hne : movs <> []) by (rewrite Em; discriminate).
  rewrite !(estandarizar_nonempty _ _ movs Hne).
  assert (Hp : parse_and_sort to_datetime argsort1 (renamed movs)
               = parse_and_sort to_datetime argsort2 (renamed movs));
    [| now rewrite Hp].
  destruct (parse_and_sort to_datetime argsort1 (renamed movs))
    as [pre | e] eqn:Hp1.
  - specialize (Hd pre eq_refl).
    apply parse_and_sort_inv in Hp1.
    destruct Hp1 as [[Hf ->] | (Hf & Hc & ts & Hts & ->)].
    + unfold parse_and_sort. now rewrite Hf.
    + unfold parse_and_sort, getitem_series.
      rewrite Hf, Hc. cbn [Nat.eqb bind]. rewrite Hts. f_equal.
      set (df1 := setitem "Fecha" (map time_cell ts) (renamed movs)) in *.
      unfold sort_values. f_equal. f_equal.
      set (k := map time_key (column_values "Fecha" df1)).
      assert (Hk : NoDup (somes k)).
      { eapply Permutation_NoDup; [| exact Hd].
        apply TieFacts.somes_Permutation.
        unfold sort_values, column_values at 1. cbn [rows columns].
        rewrite <- ListFacts.take_map. fold (column_values "Fecha" df1).
        rewrite <- ListFacts.take_map. fold k.
        apply ListFacts.take_perm_seq.
        apply (SortFacts.nargsort_Permutation argsort1 H1). }
      unfold nargsort.
      now rewrite (TieFacts.argsort_unique argsort1 argsort2 _ H1 H2 Hk).
  - unfold parse_and_sort, getitem_series in *.
    destruct (has_column "Fecha" (renamed movs)); [| discriminate].
    destruct (Nat.eqb (count_occ string_dec (columns (renamed movs)) "Fecha") 1);
      [| now symmetry].
    cbn [bind] in *.
    destruct (to_datetime (column_values "Fecha" (renamed movs)));
      [discriminate | now symmetry].
Qed.

Lemma estandarizar_independent_of_argsort_witness :
  estandarizar to_datetime_iso argsort_stable demo_unordered
  = estandarizar to_datetime_iso argsort_stable demo_unordered.
Proof.
  apply (estandarizar_independent_of_argsort
           to_datetime_iso argsort_stable argsort_stable demo_unordered
           InstanceFacts.argsort_stable_spec
           InstanceFacts.argsort_stable_spec).
  intros pre H. vm_compute in H. injection H as <-. vm_compute.
  repeat constructor; cbn; intuition discriminate.
Defined.

(** ** The business-day calculator: order and coverage *)

(** X13. Where the calculator has a result it preserves the order of
    dates, so a later run never asks for an earlier day, and it commutes
    with a shift of one week: a week after a date other than the first
    one, if that is still a date, the result is one week later. *)
Theorem ultimo_dia_habil_monotone (d1 d2 r1 r2 : Calendar.date) :
  Calendar.is_date d1 = true ->
  Calendar.is_date d2 = true ->
  Calendar.ultimo_dia_habil d1 = Ok r1 ->
  (Calendar.ultimo_dia_habil d2 = Ok r2 -> d1 <= d2 -> r1 <= r2) /\
  (Calendar.is_date (d1 + 7) = true ->
   Calendar.ultimo_dia_habil (d1 + 7) = Ok (r1 + 7)).
Proof.
  intros Hd1 Hd2 H1.
  apply CalendarFacts.ultimo_dia_habil_Ok in H1. destruct H1 as [-> Hr1].
  split.
  - intros H2 Hle.
    apply CalendarFacts.ultimo_dia_habil_Ok in H2. destruct H2 as [-> _].
    destruct (Z_le_gt_dec (Calendar.BDay_apply (- (1)) d1)
                (Calendar.BDay_apply (- (1)) d2)) as [H | H]; [exact H |].
    exfalso.
    pose proof (CalendarFacts.BDay_business_day d1) as Hb.
    pose proof (CalendarFacts.BDay_earlier d1) as He.
    rewrite (CalendarFacts.no_business_day_between d2 _) in Hb by lia.
    discriminate.
  - intro H7.
    assert (Hsh : Calendar.BDay_apply (- (1)) (d1 + 7)
                  = Calendar.BDay_apply (- (1)) d1 + 7).
    { rewrite !CalendarFacts.BDay_shift, CalendarFacts.weekday_shift.
      pose proof (CalendarFacts.weekday_range d1) as Hr.
      rewrite <- Z.add_mod_idemp_r by lia. change (7 mod 7) with 0.
      rewrite Z.add_0_r, Z.mod_small by lia. lia. }
    unfold Calendar.ultimo_dia_habil, Calendar.Timestamp_date.
    rewrite Hsh.
    assert (Hr7 : Calendar.is_date (Calendar.BDay_apply (- (1)) d1 + 7)
                  = true).
    { apply CalendarFacts.is_date_iff.
      apply CalendarFacts.is_date_iff in Hr1, H7.
      pose proof (CalendarFacts.BDay_earlier d1). lia. }
    now rewrite Hr7.
Qed.

Lemma ultimo_dia_habil_monotone_witness :
  Calendar._ymd2ord 2024 6 7 <= Calendar._ymd2ord 2024 6 7 /\
  Calendar.ultimo_dia_habil (Calendar._ymd2ord 2024 6 8 + 7)
  = Ok (Calendar._ymd2ord 2024 6 7 + 7).
Proof.
  destruct (ultimo_dia_habil_monotone
              (Calendar._ymd2ord 2024 6 8) (Calendar._ymd2ord 2024 6 10)
              (Calendar._ymd2ord 2024 6 7) (Calendar._ymd2ord 2024 6 7)
              eq_refl eq_refl eq_refl) as [Hle H7].
  split.
  - apply Hle; [reflexivity |]. vm_compute. discriminate.
  - apply H7. reflexivity.
Defined.

(** X14. Every business day but the last date of the calendar is asked
    for on exactly one business day, the next one: for a business day [b]
    before 9999-12-31, the business day after [b] (three days later on a
    Friday, the next day otherwise) is a date that maps to [b]; every
    date that maps to [b] lies after [b] and not after that day, and no
    other business day maps to [b].  Nothing maps to 9999-12-31, a
    Friday. *)
Theorem ultimo_dia_habil_covers_business_days (b : Calendar.date) :
  Calendar.is_date b = true ->
  Calendar.is_business_day b = true ->
  (b <> Calendar._MAXORDINAL ->
   let next := b + (if Calendar.weekday b =? 4 then 3 else 1) in
   Calendar.is_date next = true /\
   Calendar.is_business_day next = true /\
   Calendar.ultimo_dia_habil next = Ok b /\
   forall d, Calendar.ultimo_dia_habil d = Ok b ->
     b < d <= next /\ (Calendar.is_business_day d = true -> d = next)) /\
  (b = Calendar._MAXORDINAL ->
   Calendar.weekday b = 4 /\
   forall d, Calendar.is_date d = true ->
             Calendar.ultimo_dia_habil d <> Ok b).
Proof.
  intros Hdate Hb. unfold Calendar.is_business_day in *.
  apply Z.leb_le in Hb. apply CalendarFacts.is_date_iff in Hdate.
  pose proof (CalendarFacts.weekday_range b) as Hr.
  assert (Hc : Calendar.weekday b = 0 \/ Calendar.weekday b = 1 \/
               Calendar.weekday b = 2 \/ Calendar.weekday b = 3 \/
               Calendar.weekday b = 4) by lia.
  split.
  - intro Hmax. cbv zeta.
    assert (Hnext : Calendar.is_date
                      (b + (if Calendar.weekday b =? 4 then 3 else 1))
                    = true).
    { apply CalendarFacts.is_date_iff.
      destruct (Calendar.weekday b =? 4) eqn:E4; [| lia].
      apply Z.eqb_eq in E4. split; [lia |].
      (* a Friday before the last date is at least a week before it *)
      assert (Hw : Calendar.weekday Calendar._MAXORDINAL
                   = (Calendar.weekday b + (Calendar._MAXORDINAL - b)) mod 7).
      { rewrite <- CalendarFacts.weekday_shift. f_equal. lia. }
      change (Calendar.weekday Calendar._MAXORDINAL) with 4 in Hw.
      rewrite E4 in Hw.
      assert (Hgap : Calendar._MAXORDINAL - b = 1 \/
                     Calendar._MAXORDINAL - b = 2 \/
                     3 <= Calendar._MAXORDINAL - b) by lia.
      destruct Hgap as [G | [G | G]];
        [rewrite G in Hw; discriminate | rewrite G in Hw; discriminate | lia]. }
    split; [exact Hnext |]. split; [| split].
    + rewrite CalendarFacts.weekday_shift. apply Z.leb_le.
      destruct Hc as [H | [H | [H | [H | H]]]]; rewrite H; cbn; lia.
    + unfold Calendar.ultimo_dia_habil, Calendar.Timestamp_date.
      assert (Hs : Calendar.BDay_apply (- (1))
                     (b + (if Calendar.weekday b =? 4 then 3 else 1)) = b).
      { rewrite CalendarFacts.BDay_shift, CalendarFacts.weekday_shift.
        destruct Hc as [H | [H | [H | [H | H]]]]; rewrite H; cbn; lia. }
      rewrite Hs.
      assert (Hbd : Calendar.is_date b = true)
        by now apply CalendarFacts.is_date_iff.
      now rewrite Hbd.
    + intros d Hd.
      apply CalendarFacts.ultimo_dia_habil_Ok in Hd. destruct Hd as [Hd _].
      symmetry in Hd.
      pose proof (CalendarFacts.weekday_range d) as Hrd.
      rewrite CalendarFacts.BDay_shift in Hd.
      assert (Hw : Calendar.weekday d
                   = (Calendar.weekday b + (d - b)) mod 7).
      { rewrite <- CalendarFacts.weekday_shift. f_equal. lia. }
      destruct (CalendarFacts.weekday_cases d)
        as [H | [H | [H | [H | [H | [H | H]]]]]];
        rewrite H in Hd, Hw; cbn in Hd;
        match type of Hd with
        | d - ?k = b => replace (d - b) with k in Hw by lia
        end;
        destruct Hc as [G | [G | [G | [G | G]]]];
        rewrite G in Hw; cbn in Hw; try discriminate;
        rewrite ?G, ?H; cbn; (split; [lia | intro Hbd; try discriminate; lia]).
  - intros ->. split; [reflexivity |].
    intros d Hd H.
    apply CalendarFacts.ultimo_dia_habil_Ok in H. destruct H as [H _].
    pose proof (CalendarFacts.BDay_earlier d) as He.
    apply CalendarFacts.is_date_iff in Hd. lia.
Qed.

Lemma ultimo_dia_habil_covers_business_days_witness :
  Calendar.ultimo_dia_habil (Calendar._ymd2ord 2024 6 10)
  = Ok (Calendar._ymd2ord 2024 6 7).
Proof.
  destruct (ultimo_dia_habil_covers_business_days
              (Calendar._ymd2ord 2024 6 7) eq_refl eq_refl) as [H _].
  exact (proj1 (proj2 (proj2 (H ltac:(vm_compute; discriminate))))).
Defined.

(** ** Dates as text *)

Module DatetimeFacts.
Import Calendar Datetime DateCheck.

Lemma month_day_checked :
  forallb (fun k => (month_day_ok true (Z.of_nat k)
                     && month_day_ok false (Z.of_nat k))%bool)
    (seq 0 365) = true.
Proof. vm_compute. reflexivity. Qed.

Lemma month_day_spec (leapyear : bool) (n : Z) :
  0 <= n < 365 ->
  let '(m, d) := month_day leapyear n in
  1 <= m <= 12 /\
  1 <= d <= (if ((m =? 2) && leapyear)%bool then 29
             else nth (Z.to_nat (m - 1)) _DAYS_IN_MONTH 0) /\
  _DAYS_BEFORE_MONTH m + (if ((2 <? m) && leapyear)%bool then 1 else 0) + d
  = n + 1.
Proof.
  intro Hn.
  pose proof month_day_checked as H.
  rewrite forallb_forall in H.
  specialize (H (Z.to_nat n)).
  rewrite Z2Nat.id in H by lia.
  assert (Hin : In (Z.to_nat n) (seq 0 365)) by (apply in_seq; lia).
  apply H in Hin. apply andb_true_iff in Hin. destruct Hin as [Ht Hf].
  assert (Hok : month_day_ok leapyear n = true)
    by (destruct leapyear; assumption).
  clear H Ht Hf. unfold month_day_ok in Hok.
  destruct (month_day leapyear n) as [m d].
  repeat (apply andb_true_iff in Hok; destruct Hok as [Hok ?]).
  HttpFacts.zbool.
  match goal with H : (_ =? _) = true |- _ => apply Z.eqb_eq in H end.
  repeat split; assumption.
Qed.

Lemma days_before_year_parts (a b c d : Z) :
  0 <= b <= 3 -> 0 <= c <= 24 -> 0 <= d <= 3 ->
  _days_before_year (400 * a + 100 * b + 4 * c + d + 1)
  = 146097 * a + 36524 * b + 1461 * c + 365 * d.
Proof.
  intros Hb Hc Hd. unfold _days_before_year. cbv zeta.
  replace (400 * a + 100 * b + 4 * c + d + 1 - 1)
    with (400 * a + 100 * b + 4 * c + d) by lia.
  assert (H4 : (400 * a + 100 * b + 4 * c + d) / 4 = 100 * a + 25 * b + c)
    by (symmetry; apply (Z.div_unique _ 4 _ d); lia).
  assert (H100 : (400 * a + 100 * b + 4 * c + d) / 100 = 4 * a + b)
    by (symmetry; apply (Z.div_unique _ 100 _ (4 * c + d)); lia).
  assert (H400 : (400 * a + 100 * b + 4 * c + d) / 400 = a)
    by (symmetry; apply (Z.div_unique _ 400 _ (100 * b + 4 * c + d)); lia).
  rewrite H4, H100, H400. lia.
Qed.

Lemma is_leap_parts (a b c d : Z) :
  0 <= b <= 3 -> 0 <= c <= 24 -> 0 <= d <= 3 ->
  _is_leap (400 * a + 100 * b + 4 * c + d + 1)
  = ((d =? 3) && (negb (c =? 24) || (b =? 3)))%bool.
Proof.
  intros Hb Hc Hd. unfold _is_leap.
  set (y := 400 * a + 100 * b + 4 * c + d + 1).
  assert (H4 : y mod 4 = (d + 1) mod 4).
  { unfold y.
    replace (400 * a + 100 * b + 4 * c + d + 1)
      with ((d + 1) + (100 * a + 25 * b + c) * 4) by lia.
    apply Z.mod_add. lia. }
  assert (H100 : y mod 100 = (4 * c + d + 1) mod 100).
  { unfold y.
    replace (400 * a + 100 * b + 4 * c + d + 1)
      with ((4 * c + d + 1) + (4 * a + b) * 100) by lia.
    apply Z.mod_add. lia. }
  assert (H400 : y mod 400 = (100 * b + 4 * c + d + 1) mod 400).
  { unfold y.
    replace (400 * a + 100 * b + 4 * c + d + 1)
      with ((100 * b + 4 * c + d + 1) + a * 400) by lia.
    apply Z.mod_add. lia. }
  rewrite H4, H100, H400.
  destruct (Z.eqb_spec d 3) as [-> | Hd3].
  - change ((3 + 1) mod 4) with 0. cbn [Z.eqb andb].
    destruct (Z.eqb_spec c 24) as [-> | Hc24].
    + change ((4 * 24 + 3 + 1) mod 100) with 0. cbn [Z.eqb negb orb].
      replace (100 * b + 4 * 24 + 3 + 1) with (100 * (b + 1)) by lia.
      destruct (Z.eqb_spec b 3) as [-> | Hb3]; [reflexivity |].
      rewrite Z.mod_small by lia.
      destruct (Z.eqb_spec (100 * (b + 1)) 0); [lia | reflexivity].
    + rewrite Z.mod_small by lia.
      destruct (Z.eqb_spec (4 * c + 3 + 1) 0); [lia | reflexivity].
  - rewrite Z.mod_small by lia.
    destruct (Z.eqb_spec (d + 1) 0); [lia | reflexivity].
Qed.

Lemma days_before_month_eq (year month : Z) :
  _days_before_month year month
  = _DAYS_BEFORE_MONTH month
    + (if ((2 <? month) && _is_leap year)%bool then 1 else 0).
Proof. reflexivity. Qed.

Ltac december :=
  change (_DAYS_BEFORE_MONTH 12) with 334;
  change (2 <? 12) with true; change (12 =? 2) with false;
  change (3 =? 3) with true; change (24 =? 24) with true;
  change (nth (Z.to_nat (12 - 1)) _DAYS_IN_MONTH 0) with 31;
  cbn [andb orb negb].

(** [_ord2ymd] inverts [_ymd2ord] and yields a date of the calendar. *)
Lemma ord2ymd_spec (n : Z) :
  let '(y, m, d) := _ord2ymd n in
  _ymd2ord y m d = n /\
  1 <= m <= 12 /\
  1 <= d <= _days_in_month y m /\
  (1 <= n <= 3652059 -> 1 <= y <= 9999).
Proof.
  unfold _ord2ymd. cbv zeta.
  change _DI400Y with 146097. change _DI100Y with 36524.
  change _DI4Y with 1461.
  set (n0 := n - 1).
  pose proof (Z.div_mod n0 146097 ltac:(lia)) as E1.
  pose proof (Z.mod_pos_bound n0 146097 ltac:(lia)) as B1.
  set (a := n0 / 146097) in *. set (r1 := n0 mod 146097) in *.
  pose proof (Z.div_mod r1 36524 ltac:(lia)) as E2.
  pose proof (Z.mod_pos_bound r1 36524 ltac:(lia)) as B2.
  set (b := r1 / 36524) in *. set (r2 := r1 mod 36524) in *.
  pose proof (Z.div_mod r2 1461 ltac:(lia)) as E3.
  pose proof (Z.mod_pos_bound r2 1461 ltac:(lia)) as B3.
  set (c := r2 / 1461) in *. set (r3 := r2 mod 1461) in *.
  pose proof (Z.div_mod r3 365 ltac:(lia)) as E4.
  pose proof (Z.mod_pos_bound r3 365 ltac:(lia)) as B4.
  set (d := r3 / 365) in *. set (r4 := r3 mod 365) in *.
  assert (Hb : 0 <= b <= 4) by lia.
  assert (Hc : 0 <= c <= 24) by lia.
  assert (Hd : 0 <= d <= 4) by lia.
  destruct (Z.eqb_spec d 4) as [Hd4 | Hd4]; cbn [orb].
  - (* the last day of a leap year *)
    assert (Hc' : c <= 23) by lia.
    assert (Hb' : b <= 3) by lia.
    replace (a * 400 + 1 + (b * 100 + c * 4 + d) - 1)
      with (400 * a + 100 * b + 4 * (c + 1) + 0) by lia.
    unfold _ymd2ord, _days_in_month.
    rewrite days_before_month_eq.
    replace (400 * a + 100 * b + 4 * (c + 1) + 0)
      with (400 * a + 100 * b + 4 * c + 3 + 1) by lia.
    rewrite days_before_year_parts, is_leap_parts by lia.
    destruct (Z.eqb_spec c 24); [lia |].
    december. split; [lia | split; [lia | split; [lia |]]].
    intros [Hlo Hhi]. lia.
  - destruct (Z.eqb_spec b 4) as [Hb4 | Hb4].
    + (* the last day of a cycle of 400 years *)
      assert (r2 = 0) by lia. assert (c = 0) by lia.
      assert (d = 0) by lia.
      replace (a * 400 + 1 + (b * 100 + c * 4 + d) - 1)
        with (400 * a + 100 * 3 + 4 * 24 + 3 + 1) by lia.
      unfold _ymd2ord, _days_in_month.
      rewrite days_before_month_eq.
      rewrite days_before_year_parts, is_leap_parts by lia.
      december. split; [lia | split; [lia | split; [lia |]]].
      intros [Hlo Hhi]. lia.
    + pose proof (month_day_spec
                    ((d =? 3) && (negb (c =? 24) || (b =? 3)))%bool r4 B4)
        as Hmd.
      unfold month_day in Hmd. cbv zeta in Hmd.
      set (leapyear := ((d =? 3) && (negb (c =? 24) || (b =? 3)))%bool) in *.
      set (month0 := Z.shiftr (r4 + 50) 5) in *.
      set (preceding :=
             _DAYS_BEFORE_MONTH month0
             + (if ((2 <? month0) && leapyear)%bool then 1 else 0)) in *.
      destruct (r4 <? preceding);
        [set (m := month0 - 1) in *;
         set (p := preceding
                   - (nth (Z.to_nat (m - 1)) _DAYS_IN_MONTH 0
                      + (if ((m =? 2) && leapyear)%bool then 1 else 0)))
           in *
        | set (m := month0) in *; set (p := preceding) in *];
        destruct Hmd as (Hm & Hdd & Hsum);
        (replace (a * 400 + 1 + (b * 100 + c * 4 + d))
           with (400 * a + 100 * b + 4 * c + d + 1) by lia);
        unfold _ymd2ord, _days_in_month;
        rewrite days_before_month_eq;
        rewrite days_before_year_parts, is_leap_parts by lia;
        fold leapyear;
        (split; [lia | split; [lia | split; [exact Hdd |]]]);
        intros [Hlo Hhi]; lia.
Qed.

Lemma fmt_checked :
  forallb (fun k => fmt_ok 4 (Z.of_nat k)) (seq 0 (Z.to_nat 10000)) = true /\
  forallb (fun k => fmt_ok 2 (Z.of_nat k)) (seq 0 100) = true.
Proof. split; vm_compute; reflexivity. Qed.

Lemma fmt_ok_spec (width : nat) (n : Z) :
  fmt_ok width n = true ->
  String.length (fmt_d width n) = width /\
  number (fmt_d width n) 0 = Some n.
Proof.
  unfold fmt_ok. intro H. apply andb_true_iff in H. destruct H as [Hl Hn].
  apply Nat.eqb_eq in Hl. split; [exact Hl |].
  destruct (number (fmt_d width n) 0) as [v |]; [| discriminate].
  apply Z.eqb_eq in Hn. now subst.
Qed.

Lemma fmt_d_4 (n : Z) :
  0 <= n < 10000 ->
  String.length (fmt_d 4 n) = 4%nat /\ number (fmt_d 4 n) 0 = Some n.
Proof.
  intro Hn. apply fmt_ok_spec.
  pose proof (proj1 fmt_checked) as H. rewrite forallb_forall in H.
  specialize (H (Z.to_nat n)). rewrite Z2Nat.id in H by lia.
  apply H. apply in_seq. lia.
Qed.

Lemma fmt_d_2 (n : Z) :
  0 <= n < 100 ->
  String.length (fmt_d 2 n) = 2%nat /\ number (fmt_d 2 n) 0 = Some n.
Proof.
  intro Hn. apply fmt_ok_spec.
  pose proof (proj2 fmt_checked) as H. rewrite forallb_forall in H.
  specialize (H (Z.to_nat n)). rewrite Z2Nat.id in H by lia.
  apply H. apply in_seq. lia.
Qed.

Lemma length_2 (s : string) :
  String.length s = 2%nat -> exists a b, s = String a (String b "").
Proof.
  destruct s as [| a [| b [| ? ?]]]; try discriminate. now exists a, b.
Qed.

Lemma length_4 (s : string) :
  String.length s = 4%nat ->
  exists a b c d, s = String a (String b (String c (String d ""))).
Proof.
  destruct s as [| a [| b [| c [| d [| ? ?]]]]]; try discriminate.
  now exists a, b, c, d.
Qed.

Lemma days_in_month_le_31 (y m : Z) : _days_in_month y m <= 31.
Proof.
  unfold _days_in_month.
  destruct ((m =? 2) && _is_leap y)%bool; [lia |].
  generalize (Z.to_nat (m - 1)). intro k. unfold _DAYS_IN_MONTH.
  do 12 (destruct k as [| k]; [cbn; lia |]).
  destruct k; cbn; lia.
Qed.

End DatetimeFacts.

(** X15. The date string of a run reads back as the day it stands for:
    for a day of the years 1 to 9999, [isoformat] gives ten characters
    [YYYY-MM-DD] which, read as an ISO date, are that day. *)
Theorem isoformat_parse (d : Calendar.date) :
  1 <= d <= 3652059 ->
  String.length (Datetime.isoformat d) = 10%nat /\
  parse_iso_date (Datetime.isoformat d)
  = Some ((d - Calendar._ymd2ord 1970 1 1) * NANOS_PER_DAY).
Proof.
  intro Hd. unfold Datetime.isoformat.
  pose proof (DatetimeFacts.ord2ymd_spec d) as H.
  destruct (Datetime._ord2ymd d) as [[y m] dd].
  destruct H as (Hord & Hm & Hdd & Hy). specialize (Hy Hd).
  pose proof (DatetimeFacts.days_in_month_le_31 y m) as H31.
  destruct (DatetimeFacts.fmt_d_4 y ltac:(lia)) as [Ly Ny].
  destruct (DatetimeFacts.fmt_d_2 m ltac:(lia)) as [Lm Nm].
  destruct (DatetimeFacts.fmt_d_2 dd ltac:(lia)) as [Ld Nd].
  destruct (DatetimeFacts.length_4 _ Ly) as (y1 & y2 & y3 & y4 & Ey).
  destruct (DatetimeFacts.length_2 _ Lm) as (m1 & m2 & Em).
  destruct (DatetimeFacts.length_2 _ Ld) as (d1 & d2 & Ed).
  rewrite Ey, Em, Ed in *.
  split; [reflexivity |].
  unfold parse_iso_date.
  change (substring 0 4 _)
    with (String y1 (String y2 (String y3 (String y4 "")))).
  change (substring 5 2 _) with (String m1 (String m2 "")).
  change (substring 8 2 _) with (String d1 (String d2 "")).
  change (substring 4 1 _) with "-".
  change (substring 7 1 _) with "-".
  change (String.length _) with 10%nat.
  change (Nat.eqb 10 10 && String.eqb "-" "-" && String.eqb "-" "-")%bool
    with true.
  cbv iota. rewrite Ny, Nm, Nd.
  replace ((1 <=? y) && (1 <=? m) && (m <=? 12) && (1 <=? dd)
           && (dd <=? Calendar._days_in_month y m))%bool with true.
  - now rewrite Hord.
  - symmetry. repeat (apply andb_true_iff; split); apply Z.leb_le; lia.
Qed.

Lemma isoformat_parse_witness :
  parse_iso_date (Datetime.isoformat (Calendar._ymd2ord 2024 6 7))
  = parse_iso_date "2024-06-07".
Proof.
  rewrite (proj2 (isoformat_parse (Calendar._ymd2ord 2024 6 7)
                    ltac:(vm_compute; split; discriminate))).
  reflexivity.
Defined.

(** ** The run *)

Module ScriptFacts.
Import Http Script.

Lemma requests_app (tr1 tr2 : Trace) :
  requests (tr1 ++ tr2)%list = (requests tr1 ++ requests tr2)%list.
Proof. apply flat_map_app. Qed.

Lemma directories_app (tr1 tr2 : Trace) :
  directories (tr1 ++ tr2)%list = (directories tr1 ++ directories tr2)%list.
Proof. apply flat_map_app. Qed.

Lemma workbooks_app (tr1 tr2 : Trace) :
  workbooks (tr1 ++ tr2)%list = (workbooks tr1 ++ workbooks tr2)%list.
Proof. apply flat_map_app. Qed.

Lemma text_files_app (tr1 tr2 : Trace) :
  text_files (tr1 ++ tr2)%list = (text_files tr1 ++ text_files tr2)%list.
Proof. apply flat_map_app. Qed.

Ltac observe :=
  rewrite ?requests_app, ?directories_app, ?workbooks_app, ?text_files_app;
  cbn [requests directories workbooks text_files flat_map app];
  rewrite ?app_nil_r.

Lemma skipn_new {A : Type} (l new : list A) :
  skipn (length l) (l ++ new) = new.
Proof.
  rewrite skipn_app, Nat.sub_diag, skipn_all. reflexivity.
Qed.

Section Facts.

Variable cfg : Config.
Variable net : Network.
Variable system : Trace -> Event -> result unit.
Variable to_datetime : list value -> option (list (option Z)).
Variable argsort : list Z -> list nat.
Variable estandarizar_otros : value -> result DataFrame.
Variable path_join : string -> string -> string.

Local Notation cuenta :=
  (Script.cuenta cfg net system to_datetime argsort estandarizar_otros
     path_join).
Local Notation cuentas :=
  (Script.cuentas cfg net system to_datetime argsort estandarizar_otros
     path_join).
Local Notation estandarizar_json :=
  (Script.estandarizar_json to_datetime argsort estandarizar_otros).
Local Notation ruta := (Script.ruta path_join).

Lemma call_descargar_extractos token account bank fecha tr :
  call (descargar_extractos cfg net token account bank fecha) tr
  = (fst (descargar_extractos cfg net token account bank fecha
            (requests tr)),
     (tr ++ [Sent (statement_request cfg token account bank fecha)])%list).
Proof.
  unfold call.
  pose proof (HttpFacts.descargar_extractos_log cfg net token account bank
                fecha (requests tr)) as H.
  destruct (descargar_extractos cfg net token account bank fecha
              (requests tr)) as [r log].
  cbn [fst snd] in *. subst log. now rewrite skipn_new.
Qed.

Lemma call_obtener_token tr :
  call (obtener_token cfg net) tr
  = (fst (obtener_token cfg net (requests tr)),
     (tr ++ [Sent (token_request cfg)])%list).
Proof.
  unfold call.
  pose proof (HttpFacts.obtener_token_log cfg net (requests tr)) as H.
  destruct (obtener_token cfg net (requests tr)) as [r log].
  cbn [fst snd] in *. subst log. now rewrite skipn_new.
Qed.

(** One turn of the loop: one request, no folder, no text file, at
    most one spreadsheet. *)
Lemma cuenta_trace token fecha b sin_mov tr :
  let tr' := snd (cuenta token fecha b sin_mov tr) in
  requests tr'
  = (requests tr
     ++ [statement_request cfg token (account_number b) (bank_number b)
           fecha])%list /\
  directories tr' = directories tr /\
  text_files tr' = text_files tr /\
  (workbooks tr' = workbooks tr \/
   exists df,
     empty df = false /\
     workbooks tr' = (workbooks tr ++ [(ruta (entidad b) fecha, df)])%list).
Proof.
  unfold Script.cuenta, run_bind, run_ret, perform.
  rewrite call_descargar_extractos.
  destruct (fst (descargar_extractos cfg net token (account_number b)
                   (bank_number b) fecha (requests tr))) as [movs | e];
    [| cbn [snd]; observe; auto].
  destruct (estandarizar_json movs) as [df | e];
    [| cbn [snd]; observe; auto].
  destruct (empty df) eqn:He.
  - destruct (system _ (Print (entidad b ++ ": 0 movimientos")));
      [| cbn [snd]; observe; auto].
    destruct (system _ (Print "")); cbn [snd]; observe; auto.
  - destruct (system _ (Print _)); [| cbn [snd]; observe; auto].
    destruct (system _ (ToExcel _ _));
      [| cbn [snd]; observe; repeat split; auto; right; now exists df].
    destruct (system _ (Print _));
      [| cbn [snd]; observe; repeat split; auto; right; now exists df].
    destruct (system _ (Print ""));
      cbn [snd]; observe; repeat split; auto; right; now exists df.
Qed.

(** A turn of the loop that ends normally. *)
Lemma cuenta_ok token fecha b sin_mov tr sin_mov' tr' :
  cuenta token fecha b sin_mov tr = (Ok sin_mov', tr') ->
  exists movs df,
    fst (descargar_extractos cfg net token (account_number b)
           (bank_number b) fecha (requests tr)) = Ok movs /\
    estandarizar_json movs = Ok df /\
    sin_mov' = (sin_mov ++ (if empty df then [entidad b] else []))%list /\
    workbooks tr'
    = (workbooks tr
       ++ (if empty df then [] else [(ruta (entidad b) fecha, df)]))%list.
Proof.
  unfold Script.cuenta, run_bind, run_ret, perform.
  rewrite call_descargar_extractos.
  destruct (fst (descargar_extractos cfg net token (account_number b)
                   (bank_number b) fecha (requests tr))) as [movs | e];
    [| discriminate].
  destruct (estandarizar_json movs) as [df | e] eqn:Hdf; [| discriminate].
  destruct (empty df) eqn:He.
  - destruct (system _ (Print (entidad b ++ ": 0 movimientos")));
      [| discriminate].
    destruct (system _ (Print "")); [| discriminate].
    intro H. injection H as <- <-. exists movs, df. rewrite He.
    observe. auto.
  - destruct (system _ (Print _)); [| discriminate].
    destruct (system _ (ToExcel _ _)); [| discriminate].
    destruct (system _ (Print _)); [| discriminate].
    destruct (system _ (Print "")); [| discriminate].
    intro H. injection H as <- <-. exists movs, df. rewrite He.
    observe. auto.
Qed.

(** The loop: the requests go out in the order of the sheet, and it
    stops at the first turn that raises. *)
Lemma cuentas_trace token fecha bancos :
  forall sin_mov tr,
  let res := cuentas token fecha bancos sin_mov tr in
  exists k,
    (k <= length bancos)%nat /\
    requests (snd res)
    = (requests tr
       ++ map (fun b => statement_request cfg token (account_number b)
                          (bank_number b) fecha)
            (firstn k bancos))%list /\
    directories (snd res) = directories tr /\
    text_files (snd res) = text_files tr /\
    (forall p df,
        In (p, df) (workbooks (snd res)) ->
        In (p, df) (workbooks tr) \/
        (empty df = false /\
         exists b, In b (firstn k bancos) /\ p = ruta (entidad b) fecha)) /\
    (forall sin_mov',
        fst res = Ok sin_mov' ->
        k = length bancos /\
        forall ent, In ent sin_mov' ->
                    In ent sin_mov \/ In ent (map entidad bancos)).
Proof.
  induction bancos as [| b rest IH]; intros sin_mov tr; cbv zeta.
  - exists 0%nat. cbn. rewrite app_nil_r.
    split; [lia |]. do 3 (split; [reflexivity |]). split; [auto |].
    intros sin_mov' H. injection H as <-. auto.
  - pose proof (cuenta_trace token fecha b sin_mov tr) as Ht.
    cbv zeta in Ht.
    destruct (cuenta token fecha b sin_mov tr) as [[sm1 | e] tr1] eqn:Hc;
      cbn [snd] in Ht; destruct Ht as (Hreq & Hdir & Htxt & Hwb).
    + assert (Hrun : cuentas token fecha (b :: rest) sin_mov tr
                     = cuentas token fecha rest sm1 tr1)
        by (cbn [Script.cuentas]; unfold run_bind; now rewrite Hc).
      rewrite Hrun.
      destruct (IH sm1 tr1) as (k & Hk & Hreq' & Hdir' & Htxt' & Hwb' & Hok).
      exists (S k). cbn [length firstn map].
      split; [lia |].
      split; [rewrite Hreq', Hreq, <- app_assoc; reflexivity |].
      split; [congruence |]. split; [congruence |]. split.
      * intros p df Hin. apply Hwb' in Hin.
        destruct Hin as [Hin | (He & b' & Hb' & ->)].
        -- destruct Hwb as [Hwb | (df0 & He0 & Hwb)]; rewrite Hwb in Hin;
             [now left |].
           apply in_app_or in Hin. destruct Hin as [Hin | [Hin | []]];
             [now left |].
           injection Hin as <- <-. right. split; [exact He0 |].
           exists b. split; [now left | reflexivity].
        -- right. split; [exact He |]. exists b'. split; [now right | auto].
      * intros sin_mov' Hres. destruct (Hok sin_mov' Hres) as [-> Hent].
        split; [reflexivity |]. intros ent Hin.
        destruct (Hent ent Hin) as [H1 | H1]; [| right; now right].
        apply cuenta_ok in Hc.
        destruct Hc as (movs & df & _ & _ & -> & _).
        apply in_app_or in H1. destruct H1 as [H1 | H1]; [now left |].
        right. left. destruct (empty df); [| destruct H1].
        destruct H1 as [-> | []]. reflexivity.
    + assert (Hrun : cuentas token fecha (b :: rest) sin_mov tr
                     = (Raise e, tr1))
        by (cbn [Script.cuentas]; unfold run_bind; now rewrite Hc).
      rewrite Hrun.
      exists 1%nat. cbn [length firstn map fst snd].
      split; [lia |]. split; [exact Hreq |].
      split; [exact Hdir |]. split; [exact Htxt |]. split.
      * intros p df Hin.
        destruct Hwb as [Hwb | (df0 & He0 & Hwb)]; rewrite Hwb in Hin;
          [now left |].
        apply in_app_or in Hin. destruct Hin as [Hin | [Hin | []]];
          [now left |].
        injection Hin as <- <-. right. split; [exact He0 |].
        exists b. split; [now left | reflexivity].
      * intros sin_mov' H. discriminate.
Qed.

(** The loop when it ends normally: one frame per account. *)
Lemma cuentas_ok token fecha bancos :
  forall sin_mov tr sin_mov' tr',
  cuentas token fecha bancos sin_mov tr = (Ok sin_mov', tr') ->
  exists dfs,
    length dfs = length bancos /\
    workbooks tr'
    = (workbooks tr
       ++ map (fun bd => (ruta (entidad (fst bd)) fecha, snd bd))
            (filter (fun bd => negb (empty (snd bd)))
               (combine bancos dfs)))%list /\
    sin_mov'
    = (sin_mov
       ++ map (fun bd => entidad (fst bd))
            (filter (fun bd => empty (snd bd)) (combine bancos dfs)))%list /\
    forall i b df,
      nth_error bancos i = Some b -> nth_error dfs i = Some df ->
      exists movs,
        fst (descargar_extractos cfg net token (account_number b)
               (bank_number b) fecha
               (requests tr
                ++ map (fun b => statement_request cfg token
                                   (account_number b) (bank_number b)
                                   fecha)
                     (firstn i bancos))%list) = Ok movs /\
        estandarizar_json movs = Ok df.
Proof.
  induction bancos as [| b rest IH]; intros sin_mov tr sin_mov' tr' H.
  - cbn in H. injection H as <- <-. exists []. cbn.
    rewrite !app_nil_r. repeat split; auto.
    intros [| i] b df Hb; discriminate.
  - cbn [Script.cuentas] in H. unfold run_bind at 1 in H.
    pose proof (cuenta_trace token fecha b sin_mov tr) as Ht.
    cbv zeta in Ht.
    destruct (cuenta token fecha b sin_mov tr) as [[sm1 | e] tr1] eqn:Hc;
      [| discriminate].
    cbn [snd] in Ht. destruct Ht as (Hreq & _).
    apply cuenta_ok in Hc.
    destruct Hc as (movs & df & Hmovs & Hdf & -> & Hwb).
    destruct (IH _ _ _ _ H) as (dfs & Hlen & Hwb' & Hsm & Hlink).
    exists (df :: dfs). cbn [length combine filter fst snd].
    split; [now rewrite Hlen |]. split; [| split].
    + rewrite Hwb', Hwb, <- app_assoc.
      destruct (empty df); reflexivity.
    + rewrite Hsm, <- app_assoc. destruct (empty df); reflexivity.
    + intros [| i] b' df' Hb' Hdf'; cbn in Hb', Hdf'.
      * injection Hb' as <-. injection Hdf' as <-.
        exists movs. cbn [firstn map]. rewrite app_nil_r. auto.
      * destruct (Hlink i b' df' Hb' Hdf') as (movs' & Hm' & Hd').
        exists movs'. split; [| exact Hd'].
        cbn [firstn map]. rewrite Hreq, <- app_assoc in Hm'. exact Hm'.
Qed.

End Facts.

(** Every request of a run is the token request or a statement request
    built from the configuration. *)
Lemma main_requests_shape
    (cfg : Config) (net : Network)
    (system : Trace -> Event -> result unit)
    (read_excel : result (list Account))
    (to_datetime : list value -> option (list (option Z)))
    (argsort : list Z -> list nat)
    (estandarizar_otros : value -> result DataFrame)
    (str : value -> string) (path_join : string -> string -> string)
    (hoy : Calendar.date) (req : Request) :
  In req (requests (snd (main cfg net system read_excel to_datetime argsort
                           estandarizar_otros str path_join hoy []))) ->
  req = token_request cfg \/
  exists tok a b f, req = statement_request cfg tok a b f.
Proof.
  unfold main, run_bind, run_ret, perform.
  destruct read_excel as [bancos | e]; [| intros []].
  destruct (Calendar.ultimo_dia_habil hoy) as [dia | e]; [| intros []].
  set (fecha := Datetime.isoformat dia).
  cbn [app].
  destruct (system [] _); [| intros []].
  destruct (system _ (Makedirs (carpeta_nomov fecha))); [| intros []].
  rewrite call_obtener_token. cbn [app].
  change (requests [Makedirs (carpeta_mov fecha);
                    Makedirs (carpeta_nomov fecha)])
    with (@nil Request).
  destruct (fst (obtener_token cfg net [])) as [token | e];
    [| cbn; intros [<- | []]; now left].
  pose proof (cuentas_trace cfg net system to_datetime argsort
                estandarizar_otros path_join (str token) fecha bancos []
                [Makedirs (carpeta_mov fecha);
                 Makedirs (carpeta_nomov fecha);
                 Sent (token_request cfg)]) as Ht.
  cbv zeta in Ht.
  destruct (cuentas _ _ _ _ _ _ _ _ _ _ _ _) as [[sin_mov | e] tr4];
    cbn [fst snd] in Ht; destruct Ht as (k & _ & Hreq & _);
    [destruct (system tr4 _); [destruct (system _ _) |] |];
    cbn [snd]; observe; rewrite Hreq; cbn [requests flat_map app];
    (intros [<- | Hin]; [now left |]);
    apply in_map_iff in Hin; destruct Hin as (b & <- & _);
    right; eauto.
Qed.

End ScriptFacts.

(** X16. A run of [main] that ends normally has computed the day to ask
    for (the last business day before [hoy]), made the two folders, sent
    the token request and then one statement request per account in the
    order of the sheet, all with the same token and the same day, and has
    dealt with every account exactly once: the accounts whose normalized
    frame is not empty got a spreadsheet each, named after the entity and
    the day, and the entities of the others are the lines of [log.txt], in
    the order of the sheet.  The frame of an account is the normalized
    answer to its request. *)
Theorem main_finished_run
    (cfg : Http.Config) (net : Http.Network)
    (system : Script.Trace -> Script.Event -> result unit)
    (read_excel : result (list Http.Account))
    (to_datetime : list value -> option (list (option Z)))
    (argsort : list Z -> list nat)
    (estandarizar_otros : value -> result DataFrame)
    (str : value -> string) (path_join : string -> string -> string)
    (hoy : Calendar.date) (tr : Script.Trace) :
  Script.main cfg net system read_excel to_datetime argsort
    estandarizar_otros str path_join hoy [] = (Ok tt, tr) ->
  exists dia bancos token dfs,
    let fecha := Datetime.isoformat dia in
    let peticion := fun b =>
      Http.statement_request cfg (str token) (Http.account_number b)
        (Http.bank_number b) fecha in
    Calendar.ultimo_dia_habil hoy = Ok dia /\
    read_excel = Ok bancos /\
    fst (Http.obtener_token cfg net []) = Ok token /\
    length dfs = length bancos /\
    Script.directories tr
    = [Script.carpeta_mov fecha; Script.carpeta_nomov fecha] /\
    Script.requests tr = Http.token_request cfg :: map peticion bancos /\
    Script.workbooks tr
    = map (fun bd => (Script.ruta path_join (Http.entidad (fst bd)) fecha,
                      snd bd))
        (filter (fun bd => negb (empty (snd bd))) (combine bancos dfs)) /\
    Script.text_files tr
    = [(Script.log_path path_join fecha,
        Script.log_text fecha
          (map (fun bd => Http.entidad (fst bd))
             (filter (fun bd => empty (snd bd)) (combine bancos dfs))))] /\
    forall i b df,
      nth_error bancos i = Some b -> nth_error dfs i = Some df ->
      exists movs,
        fst (Http.descargar_extractos cfg net (str token)
               (Http.account_number b) (Http.bank_number b) fecha
               (Http.token_request cfg :: map peticion (firstn i bancos)))
        = Ok movs /\
        Script.estandarizar_json to_datetime argsort estandarizar_otros movs
        = Ok df.
Proof.
  intros H.
  unfold Script.main, Script.run_bind, Script.run_ret, Script.perform in H.
  destruct read_excel as [bancos | e]; [| discriminate].
  destruct (Calendar.ultimo_dia_habil hoy) as [dia | e]; [| discriminate].
  set (fecha := Datetime.isoformat dia) in *.
  destruct (system [] _); [| discriminate].
  destruct (system _ (Script.Makedirs (Script.carpeta_nomov fecha)));
    [| discriminate].
  rewrite ScriptFacts.call_obtener_token in H. cbn [app] in H.
  change (Script.requests [Script.Makedirs (Script.carpeta_mov fecha);
                           Script.Makedirs (Script.carpeta_nomov fecha)])
    with (@nil Http.Request) in H.
  destruct (fst (Http.obtener_token cfg net [])) as [token | e] eqn:Htok;
    [| discriminate].
  pose proof (ScriptFacts.cuentas_trace cfg net system to_datetime argsort
                estandarizar_otros path_join (str token) fecha bancos []
                [Script.Makedirs (Script.carpeta_mov fecha);
                 Script.Makedirs (Script.carpeta_nomov fecha);
                 Script.Sent (Http.token_request cfg)]) as Ht.
  cbv zeta in Ht.
  destruct (Script.cuentas _ _ _ _ _ _ _ _ _ _ _ _) as [[sin_mov | e] tr4]
    eqn:Hcs; [| discriminate].
  cbn [fst snd] in Ht.
  destruct Ht as (k & _ & Hreq & Hdir & Htxt & _ & Hk).
  destruct (Hk sin_mov eq_refl) as [-> _]. rewrite firstn_all in Hreq.
  apply ScriptFacts.cuentas_ok in Hcs.
  destruct Hcs as (dfs & Hlen & Hwb & Hsm & Hlink).
  destruct (system tr4 _); [| discriminate].
  destruct (system _ _); [| discriminate].
  injection H as _ <-.
  exists dia, bancos, token, dfs. cbv zeta. fold fecha.
  split; [reflexivity |].
  split; [reflexivity |]. split; [reflexivity |]. split; [exact Hlen |].
  ScriptFacts.observe. rewrite Hdir, Hreq, Htxt, Hwb, Hsm.
  repeat (split; [reflexivity |]).
  exact Hlink.
Qed.

Lemma main_finished_run_witness :
  map fst
    (Script.text_files
       (snd (Script.main demo_config ScriptDemo.net ScriptDemo.system
               (Ok ScriptDemo.bancos) to_datetime_iso argsort_stable
               ScriptDemo.estandarizar_otros ScriptDemo.str
               ScriptDemo.path_join ScriptDemo.hoy [])))
  = ["Sin movimientos 2024-06-07/log.txt"].
Proof.
  destruct (main_finished_run demo_config ScriptDemo.net ScriptDemo.system
              (Ok ScriptDemo.bancos) to_datetime_iso argsort_stable
              ScriptDemo.estandarizar_otros ScriptDemo.str
              ScriptDemo.path_join ScriptDemo.hoy
              (snd (Script.main demo_config ScriptDemo.net ScriptDemo.system
                      (Ok ScriptDemo.bancos) to_datetime_iso argsort_stable
                      ScriptDemo.estandarizar_otros ScriptDemo.str
                      ScriptDemo.path_join ScriptDemo.hoy []))
              ltac:(vm_compute; reflexivity))
    as (dia & bancos & token & dfs & Hdia & _ & _ & _ & _ & _ & _ & Htxt & _).
  rewrite Htxt. injection Hdia as <-. reflexivity.
Defined.

(** X17. Whatever happens in a run of [main] on a sheet that could be
    read: when the day to ask for cannot be computed the run raises
    before any action; otherwise the folders are made first, in their
    order; no request goes out
    before both exist; the requests are the token request followed by the
    statement requests of the first accounts of the sheet, in order and
    with the token obtained; a spreadsheet is only written for an account
    already asked for whose frame is not empty; and [log.txt] is only
    written once the loop has gone through every account, with entities
    of the sheet as its lines. *)
Theorem main_every_run
    (cfg : Http.Config) (net : Http.Network)
    (system : Script.Trace -> Script.Event -> result unit)
    (bancos : list Http.Account)
    (to_datetime : list value -> option (list (option Z)))
    (argsort : list Z -> list nat)
    (estandarizar_otros : value -> result DataFrame)
    (str : value -> string) (path_join : string -> string -> string)
    (hoy : Calendar.date) :
  let run :=
    Script.main cfg net system (Ok bancos) to_datetime argsort
      estandarizar_otros str path_join hoy [] in
  match Calendar.ultimo_dia_habil hoy with
  | Raise e => run = (Raise e, [])
  | Ok dia =>
  let tr := snd run in
  let fecha := Datetime.isoformat dia in
  exists k n tok,
    (k <= length bancos)%nat /\
    Script.directories tr
    = firstn n [Script.carpeta_mov fecha; Script.carpeta_nomov fecha] /\
    (Script.requests tr = [] \/
     (n = 2%nat /\
      (forall t, fst (Http.obtener_token cfg net []) = Ok t -> tok = str t) /\
      Script.requests tr
      = Http.token_request cfg
        :: map (fun b => Http.statement_request cfg tok
                           (Http.account_number b) (Http.bank_number b)
                           fecha)
             (firstn k bancos))) /\
    (forall p df,
        In (p, df) (Script.workbooks tr) ->
        empty df = false /\
        exists b, In b (firstn k bancos) /\
                  p = Script.ruta path_join (Http.entidad b) fecha) /\
    (Script.text_files tr = [] \/
     (k = length bancos /\
      exists sin_mov,
        Script.text_files tr
        = [(Script.log_path path_join fecha, Script.log_text fecha sin_mov)] /\
        incl sin_mov (map Http.entidad bancos)))
  end.
Proof.
  intro run. subst run.
  unfold Script.main, Script.run_bind, Script.run_ret, Script.perform.
  destruct (Calendar.ultimo_dia_habil hoy) as [dia | e]; [| reflexivity].
  cbv zeta. set (fecha := Datetime.isoformat dia). cbn [app].
  destruct (system [] _).
  2:{ exists 0%nat, 1%nat, "". cbn.
      split; [lia |]. split; [reflexivity |]. split; [now left |].
      split; [intros p df [] | now left]. }
  destruct (system _ (Script.Makedirs (Script.carpeta_nomov fecha))).
  2:{ exists 0%nat, 2%nat, "". cbn.
      split; [lia |]. split; [reflexivity |]. split; [now left |].
      split; [intros p df [] | now left]. }
  rewrite ScriptFacts.call_obtener_token. cbn [app].
  change (Script.requests [Script.Makedirs (Script.carpeta_mov fecha);
                           Script.Makedirs (Script.carpeta_nomov fecha)])
    with (@nil Http.Request).
  destruct (fst (Http.obtener_token cfg net [])) as [token | e] eqn:Htok.
  2:{ exists 0%nat, 2%nat, "". cbn.
      split; [lia |]. split; [reflexivity |].
      split; [right; split; [reflexivity | split; [discriminate | reflexivity]] |].
      split; [intros p df [] | now left]. }
  pose proof (ScriptFacts.cuentas_trace cfg net system to_datetime argsort
                estandarizar_otros path_join (str token) fecha bancos []
                [Script.Makedirs (Script.carpeta_mov fecha);
                 Script.Makedirs (Script.carpeta_nomov fecha);
                 Script.Sent (Http.token_request cfg)]) as Ht.
  cbv zeta in Ht.
  destruct (Script.cuentas _ _ _ _ _ _ _ _ _ _ _ _) as [[sin_mov | e] tr4].
  - cbn [fst snd] in Ht.
    destruct Ht as (k & Hk & Hreq & Hdir & Htxt & Hwb & Hok).
    destruct (Hok sin_mov eq_refl) as [-> Hent].
    assert (Hincl : incl sin_mov (map Http.entidad bancos)).
    { intros ent Hin. destruct (Hent ent Hin) as [[] | H]. exact H. }
    exists (length bancos), 2%nat, (str token).
    split; [lia |].
    destruct (system tr4 _); [destruct (system _ _) |]; cbn [snd];
      ScriptFacts.observe; rewrite Hdir, Hreq, Htxt;
      (split; [reflexivity |]);
      (split;
       [right; split;
        [reflexivity
        | split; [intros t Ht; now injection Ht as <- | reflexivity]] |]);
      (split;
       [intros p df Hin; destruct (Hwb p df Hin) as [[] | H]; exact H |]);
      right; (split; [reflexivity |]); exists sin_mov; split;
      [reflexivity | exact Hincl | reflexivity | exact Hincl
      | reflexivity | exact Hincl].
  - cbn [fst snd] in Ht.
    destruct Ht as (k & Hk & Hreq & Hdir & Htxt & Hwb & _).
    exists k, 2%nat, (str token). cbn [snd].
    rewrite Hdir, Hreq, Htxt.
    split; [exact Hk |]. split; [reflexivity |].
    split;
      [right; split;
       [reflexivity
       | split; [intros t Ht; now injection Ht as <- | reflexivity]] |].
    split; [| now left].
    intros p df Hin. destruct (Hwb p df Hin) as [[] | H]. exact H.
Qed.

Lemma main_every_run_witness :
  Script.requests
    (snd (Script.main demo_config (fun _ _ => Ok (Http.mkResponse 503 None))
            ScriptDemo.system (Ok ScriptDemo.bancos) to_datetime_iso
            argsort_stable ScriptDemo.estandarizar_otros ScriptDemo.str
            ScriptDemo.path_join ScriptDemo.hoy []))
  = [Http.token_request demo_config].
Proof.
  pose proof (main_every_run demo_config
                (fun _ _ => Ok (Http.mkResponse 503 None))
                ScriptDemo.system ScriptDemo.bancos to_datetime_iso
                argsort_stable ScriptDemo.estandarizar_otros ScriptDemo.str
                ScriptDemo.path_join ScriptDemo.hoy) as Hrun.
  cbv zeta in Hrun.
  change (Calendar.ultimo_dia_habil ScriptDemo.hoy)
    with (@Ok Calendar.date (Calendar._ymd2ord 2024 6 7)) in Hrun.
  cbv iota in Hrun.
  destruct Hrun as (k & n & tok & _ & _ & [H | (_ & _ & H)] & _).
  - discriminate H.
  - reflexivity.
Defined.

(** X18. The start-up: when one of the three credentials is unset or
    empty, the script prints its notice and exits with status 1, and
    nothing else happens (no folder, no request, no file).  Otherwise the
    configuration holds the three values of the environment, none of them
    empty, with the service URL of the environment or its default; the
    script does not exit through [sys.exit]; a sheet that cannot be read
    ends the run before any action; and every request that goes out is
    the token request or a statement request carrying that
    configuration. *)
Theorem script_start
    (getenv : string -> option string) (net : Http.Network)
    (system : Script.Trace -> Script.Event -> result unit)
    (read_excel : result (list Http.Account))
    (to_datetime : list value -> option (list (option Z)))
    (argsort : list Z -> list nat)
    (estandarizar_otros : value -> result DataFrame)
    (str : value -> string) (path_join : string -> string -> string)
    (hoy : Calendar.date) :
  let run :=
    Script.script getenv net system read_excel to_datetime argsort
      estandarizar_otros str path_join hoy in
  let missing :=
    (Script.not_set (getenv "IB_CLIENT_ID")
     || Script.not_set (getenv "IB_CLIENT_SECRET")
     || Script.not_set (getenv "CUSTOMER_ID"))%bool in
  (missing = true ->
   snd run = [Script.Print Script.AVISO] /\
   fst run <> Script.Done /\
   (system [] (Script.Print Script.AVISO) = Ok tt ->
    fst run = Script.Exited 1)) /\
  (missing = false ->
   exists cfg,
     getenv "IB_CLIENT_ID" = Some (Http.CLIENT_ID cfg) /\
     getenv "IB_CLIENT_SECRET" = Some (Http.CLIENT_SECRET cfg) /\
     getenv "CUSTOMER_ID" = Some (Http.CUSTOMER_ID cfg) /\
     Http.CLIENT_ID cfg <> "" /\
     Http.CLIENT_SECRET cfg <> "" /\
     Http.CUSTOMER_ID cfg <> "" /\
     Http.SERVICE_URL cfg
     = match getenv "IB_SERVICE_URL" with
       | Some s => s
       | None => "https://localhost/callback"
       end /\
     (forall code, fst run <> Script.Exited code) /\
     (forall e, read_excel = Raise e -> run = (Script.Failed e, [])) /\
     forall req,
       In req (Script.requests (snd run)) ->
       req = Http.token_request cfg \/
       exists tok a b f, req = Http.statement_request cfg tok a b f).
Proof.
  intros run missing. subst run. unfold Script.script, Script.entorno.
  fold missing. split; intro Hm; rewrite Hm.
  - destruct (system [] (Script.Print Script.AVISO)) as [[] | e]; cbn [fst snd].
    + split; [reflexivity |]. split; [discriminate | reflexivity].
    + split; [reflexivity |]. split; [discriminate | discriminate].
  - subst missing. apply orb_false_iff in Hm. destruct Hm as [Hm Hc].
    apply orb_false_iff in Hm. destruct Hm as [Hi Hs].
    destruct (getenv "IB_CLIENT_ID") as [i |]; [| discriminate].
    destruct (getenv "IB_CLIENT_SECRET") as [s |]; [| discriminate].
    destruct (getenv "CUSTOMER_ID") as [c |]; [| discriminate].
    cbn [Script.not_set] in Hi, Hs, Hc.
    apply String.eqb_neq in Hi, Hs, Hc.
    exists (Http.mkConfig i s
              match getenv "IB_SERVICE_URL" with
              | Some u => u
              | None => "https://localhost/callback"
              end c).
    cbn [Http.CLIENT_ID Http.CLIENT_SECRET Http.CUSTOMER_ID Http.SERVICE_URL].
    do 3 (split; [reflexivity |]).
    split; [exact Hi |]. split; [exact Hs |]. split; [exact Hc |].
    split; [reflexivity |].
    split; [| split].
    + intro code. destruct (Script.main _ _ _ _ _ _ _ _ _ _ _) as [[[] | e] tr];
        discriminate.
    + intros e ->. reflexivity.
    + intros req Hin.
      apply (ScriptFacts.main_requests_shape _ net system read_excel
               to_datetime argsort estandarizar_otros str path_join hoy).
      destruct (Script.main _ _ _ _ _ _ _ _ _ _ _) as [[[] | e] tr];
        exact Hin.
Qed.

Lemma script_start_witness :
  fst (Script.script (fun _ => None) ScriptDemo.net ScriptDemo.system
         (Ok ScriptDemo.bancos) to_datetime_iso argsort_stable
         ScriptDemo.estandarizar_otros ScriptDemo.str ScriptDemo.path_join
         ScriptDemo.hoy)
  = Script.Exited 1 /\
  forall code, fst ScriptDemo.run <> Script.Exited code.
Proof.
  split.
  - apply (proj1 (script_start (fun _ => None) ScriptDemo.net
                    ScriptDemo.system (Ok ScriptDemo.bancos) to_datetime_iso
                    argsort_stable ScriptDemo.estandarizar_otros
                    ScriptDemo.str ScriptDemo.path_join ScriptDemo.hoy)
                 eq_refl).
    reflexivity.
  - destruct (proj2 (script_start ScriptDemo.getenv ScriptDemo.net
                       ScriptDemo.system (Ok ScriptDemo.bancos)
                       to_datetime_iso argsort_stable
                       ScriptDemo.estandarizar_otros ScriptDemo.str
                       ScriptDemo.path_join ScriptDemo.hoy) eq_refl)
      as (cfg & _ & _ & _ & _ & _ & _ & _ & H & _).
    exact H.
Defined.

(** ** The statement request: the bank number *)

Module PaddingFacts.

Lemma len_zeros_append (n : nat) (s : string) :
  len (zeros n ++ s) = (n + len s)%nat.
Proof. induction n as [| n IH]; cbn; [reflexivity | now rewrite IH]. Qed.

Lemma len_sign (c : ascii) (s : string) :
  (Ascii.eqb c "+" || Ascii.eqb c "-")%bool = true ->
  len (String c s) = S (len s).
Proof.
  intro H. apply orb_true_iff in H.
  destruct H as [H | H]; apply Ascii.eqb_eq in H; now subst.
Qed.

End PaddingFacts.

(** X19. The bank number of a statement request is the number of the
    sheet padded with zeros on the left to three characters: it has as
    many characters as the number or three, whichever is larger; a number
    of three characters or more goes out unchanged; a shorter one that
    does not start with a sign is preceded by the zeros that are
    missing. *)
Theorem statement_request_bank_number_padded
    (cfg : Http.Config) (token account_number bank_number fecha : string) :
  let sent := zfill bank_number 3 in
  In ("bank-number", sent)
     (Http.params
        (Http.statement_request cfg token account_number bank_number fecha)) /\
  len sent = Nat.max 3 (len bank_number) /\
  ((3 <= len bank_number)%nat -> sent = bank_number) /\
  (startswith "+" bank_number = false ->
   startswith "-" bank_number = false ->
   sent = zeros (3 - len bank_number) ++ bank_number).
Proof.
  cbv zeta. split; [cbn; auto |]. unfold zfill.
  destruct bank_number as [| c rest].
  - cbn. repeat split; try reflexivity. intro H. inversion H.
  - cbn [startswith]. rewrite !andb_true_r.
    rewrite (Ascii.eqb_sym "+"%char c), (Ascii.eqb_sym "-"%char c).
    set (s := String c rest).
    destruct (Ascii.eqb c "+" || Ascii.eqb c "-")%bool eqn:Hs.
    + pose proof (PaddingFacts.len_sign c rest Hs) as Hl. fold s in Hl.
      split; [| split].
      * rewrite (PaddingFacts.len_sign c _ Hs).
        rewrite PaddingFacts.len_zeros_append. lia.
      * intro H. replace (3 - len s)%nat with 0%nat by lia. reflexivity.
      * intros Hp Hm. apply orb_true_iff in Hs.
        destruct Hs as [Hs | Hs]; congruence.
    + split; [| split].
      * rewrite PaddingFacts.len_zeros_append. lia.
      * intro H. replace (3 - len s)%nat with 0%nat by lia. reflexivity.
      * reflexivity.
Qed.

Lemma statement_request_bank_number_padded_witness :
  zfill "7" 3 = "007" /\ zfill "0123" 3 = "0123" /\ zfill "é" 3 = "00é".
Proof.
  split; [| split].
  - exact (proj2 (proj2 (proj2 (statement_request_bank_number_padded
                                  demo_config "tok" "123" "7" "2024-06-07")))
             eq_refl eq_refl).
  - apply (proj1 (proj2 (proj2 (statement_request_bank_number_padded
                                  demo_config "tok" "123" "0123"
                                  "2024-06-07")))).
    apply Nat.leb_le. reflexivity.
  - exact (proj2 (proj2 (proj2 (statement_request_bank_number_padded
                                  demo_config "tok" "123" "é" "2024-06-07")))
             eq_refl eq_refl).
Defined.
